(** * Transcoding fleet supervisor: a shallow embedding of the Go backend

    The development follows the layering of the repository:

    - [Domain]    : [internal/domain] (channels, roles, metrics records);
    - [Sys]       : the part of the operating system and of the database
                    the backend talks to, as an explicit world state, and
                    the state monad over it;
    - [Postgres]  : [internal/infrastructure/repository/postgres];
    - [GoStrings] : the functions of [strings], [strconv] and [bufio] the
                    backend uses;
    - [FFmpeg]    : [internal/infrastructure/ffmpeg/process.go], the process
                    manager (Start, Stop, Restart, watcher, metrics);
    - [App]       : [internal/application/channel_service.go] (channel
                    service and batch coordinator);
    - [Settings]  : the settings service;
    - [Http]      : [internal/interfaces/http] (auth middleware, route
                    table, settings handler);
    - [Handlers]  : the channel handlers and the logo upload handler;
    - [Startup]   : the clean-up [cmd/server/main.go] runs at start-up;
    - [Run]       : interleavings of the manager's critical sections;
    - [Examples]  : concrete worlds.

    Go methods become computations in a small state monad over the world;
    a Go [error] result becomes [option error] ([None] is [nil]). The
    second half of the file states and proves the properties, one module
    of facts per component. *)

From stdpp Require Import gmap strings list fin_maps pretty sorting.
From Stdlib Require Import ZArith Ascii.

Open Scope string_scope.
Open Scope Z_scope.

(** ** Domain types *)

Module Domain.

(** A [uuid.UUID] is represented by its canonical text form, the value of
    [ID.String()]; the code only compares ids, uses them as map keys and
    prints them. *)
Abbreviation uuid := string (only parsing).

(** Go errors are represented by their message. *)
Abbreviation error := string (only parsing).

Inductive ChannelStatus :=
| ChannelStatusStopped
| ChannelStatusStarting
| ChannelStatusRunning
| ChannelStatusError
| ChannelStatusStopping.

#[global] Instance ChannelStatus_eq_dec : EqDecision ChannelStatus.
Proof. solve_decision. Defined.

(** [Opacity] (a float64) is left out: no modelled code path reads it. *)
Record LogoConfig := {
  logo_Path : string;
  logo_X : Z;
  logo_Y : Z;
  logo_Width : Z;
  logo_Height : Z
}.

Record OutputConfig := {
  out_Codec : string;
  out_Bitrate : string;
  out_Resolution : string;
  out_Preset : string;
  out_Profile : string
}.

(** The two time stamps are left out: no modelled code path reads them.
    [OutputURL] is not a column of the table: it is empty in every channel
    but those [GetChannel] and [ListChannels] hand out. *)
Record Channel := {
  ID : uuid;
  Name : string;
  SourceURL : string;
  OutputURL : string;
  Logo : option LogoConfig;
  OutputConfig_ : option OutputConfig;
  Status : ChannelStatus;
  AutoRestart : bool
}.

Definition set_Status (s : ChannelStatus) (c : Channel) : Channel :=
  {| ID := ID c; Name := Name c; SourceURL := SourceURL c;
     OutputURL := OutputURL c; Logo := Logo c;
     OutputConfig_ := OutputConfig_ c; Status := s;
     AutoRestart := AutoRestart c |}.

(** The fields [ChannelRepository.Update] writes, taken from [c]; the id
    and the status of the row stay. *)
Definition set_columns (c : Channel) (row : Channel) : Channel :=
  {| ID := ID row; Name := Name c; SourceURL := SourceURL c;
     OutputURL := OutputURL row; Logo := Logo c;
     OutputConfig_ := OutputConfig_ c; Status := Status row;
     AutoRestart := AutoRestart c |}.

Definition set_Name (n : string) (c : Channel) : Channel :=
  {| ID := ID c; Name := n; SourceURL := SourceURL c;
     OutputURL := OutputURL c; Logo := Logo c;
     OutputConfig_ := OutputConfig_ c; Status := Status c;
     AutoRestart := AutoRestart c |}.

Definition set_SourceURL (u : string) (c : Channel) : Channel :=
  {| ID := ID c; Name := Name c; SourceURL := u;
     OutputURL := OutputURL c; Logo := Logo c;
     OutputConfig_ := OutputConfig_ c; Status := Status c;
     AutoRestart := AutoRestart c |}.

Definition set_OutputURL (u : string) (c : Channel) : Channel :=
  {| ID := ID c; Name := Name c; SourceURL := SourceURL c; OutputURL := u;
     Logo := Logo c; OutputConfig_ := OutputConfig_ c; Status := Status c;
     AutoRestart := AutoRestart c |}.

Definition set_Logo (l : option LogoConfig) (c : Channel) : Channel :=
  {| ID := ID c; Name := Name c; SourceURL := SourceURL c;
     OutputURL := OutputURL c; Logo := l;
     OutputConfig_ := OutputConfig_ c; Status := Status c;
     AutoRestart := AutoRestart c |}.

Definition set_OutputConfig (o : option OutputConfig) (c : Channel)
  : Channel :=
  {| ID := ID c; Name := Name c; SourceURL := SourceURL c;
     OutputURL := OutputURL c; Logo := Logo c;
     OutputConfig_ := o; Status := Status c; AutoRestart := AutoRestart c |}.

(** Two channels agree on the plain columns of the table: id, name,
    source, status and restart flag. (The logo and the output
    configuration go through a JSON encoding on their way to the table
    and back.) *)
Definition same_columns (a b : Channel) : Prop :=
  ID a = ID b /\ Name a = Name b /\ SourceURL a = SourceURL b /\
  Status a = Status b /\ AutoRestart a = AutoRestart b.

(** [NewChannel]; [id] is the value [uuid.New()] returns. *)
Definition NewChannel (id : uuid) (name sourceURL : string) : Channel :=
  {| ID := id; Name := name; SourceURL := sourceURL; OutputURL := "";
     Logo := None;
     OutputConfig_ :=
       Some {| out_Codec := "libx264"; out_Bitrate := "5000k";
               out_Resolution := "1920x1080"; out_Preset := "ultrafast";
               out_Profile := "high" |};
     Status := ChannelStatusStopped; AutoRestart := true |}.

(** [UserRole] is a Go string type; a token may carry any string. *)
Abbreviation UserRole := string (only parsing).
Definition UserRoleAdmin : UserRole := "admin".
Definition UserRoleOperator : UserRole := "operator".
Definition UserRoleViewer : UserRole := "viewer".

(** [User.HasPermission]; of a [User] only the role matters. The function
    has a role table of its own; a role that is not in it counts 0, the
    zero value of a Go map read. *)
Definition HasPermission (u_Role requiredRole : UserRole) : bool :=
  let roleHierarchy : gmap string Z :=
    list_to_map
      [ (UserRoleViewer, 1); (UserRoleOperator, 2); (UserRoleAdmin, 3) ] in
  default 0 (roleHierarchy !! requiredRole)
    <=? default 0 (roleHierarchy !! u_Role).

(** The integer fields of [ProcessMetrics] and [TranscoderProcess]; the
    float64 fields (fps, speed, cpu usage) and the float-derived uptime
    are left out. *)
Record ProcessMetrics := {
  met_Bitrate : string;
  met_DropFrames : Z
}.

Record TranscoderProcess := {
  tp_ChannelID : uuid;
  tp_PID : Z;
  tp_StartedAt : Z;
  tp_MemoryUsage : Z;
  tp_InputBitrate : Z;
  tp_OutputBitrate : Z;
  tp_DroppedFrames : Z
}.

End Domain.
Export Domain.

(** ** The world the backend runs in *)

Module Sys.

(** Durations and instants are in nanoseconds, as [time.Duration]. *)
Definition Millisecond : Z := 1000000.
Definition Second : Z := 1000 * Millisecond.

Inductive Signal := SIGTERM | SIGKILL.

(** How a child reacts to the termination sequence of [Stop]. *)
Inductive TermResponse := ExitsOnTerm | ExitsOnKill | Survives.

(** What the rest of the system can observe of the supervisor. *)
Inductive Event :=
| EvSpawn (id : uuid) (pid : Z) (path : string) (args : list string)
| EvSetPriority (pid : Z) (nice : Z)
| EvCancel (pid : Z)
| EvSignal (target : Z) (sig : Signal)
| EvSleep (d : Z).

(** Answers of the host to the calls the supervisor makes. They are fixed
    for the duration of one modelled operation. *)
Record Host := {
  NumCPU : Z;
  numactl_available : bool;            (* isNumactlAvailable *)
  nvidia_available : bool;             (* isNvidiaAvailable *)
  mkdir_error : option error;          (* os.MkdirAll *)
  pipe_error : option error;           (* cmd.StderrPipe *)
  exec_error : option error;           (* cmd.Start: binary missing, EACCES *)
  setpriority_error : option error;    (* syscall.Setpriority; only logged *)
  getpgid : Z -> option Z;             (* syscall.Getpgid *)
  term_response : Z -> TermResponse;
  ReadFile : string -> option string   (* os.ReadFile on procfs *)
}.

(** JSON values of the settings document. Numbers are integral: that is
    what [UpdateSettings] writes and what the defaults hold. The code
    decodes a stored number to a float64 and converts it with [int(v)];
    for an integer of magnitude at most 2^53, which a float64 holds
    exactly, that is the number itself, and it is for such numbers that
    [JNum] stands for what the code reads. *)
Inductive JSON :=
| JNum (n : Z)
| JStr (s : string)
| JBool (b : bool).

(** The database: availability, the [channels] table and the [system] row
    of the [settings] table. A row of [channels] has the fields of a
    channel that are columns; its [OutputURL] is empty. *)
Record Database := {
  db_up : bool;
  channels : gmap string Channel;
  system_settings : option (gmap string JSON)
}.

Record Config := {
  BinaryPath : string;
  SegmentTime : Z;
  PlaylistSize : Z;
  DefaultPreset : string;
  DefaultBitrate : string
}.

(** A [*Process]; the pid identifies the object. [Cmd.Process] is never
    nil for a process in the table, because [Start] inserts only after
    [cmd.Start] succeeded. *)
Record Process := {
  ChannelID : uuid;
  Channel_ : Channel;
  Pid : Z;
  StartedAt : Z;
  Metrics : ProcessMetrics;
  Logs : list string
}.

Definition set_Logs (l : list string) (p : Process) : Process :=
  {| ChannelID := ChannelID p; Channel_ := Channel_ p; Pid := Pid p;
     StartedAt := StartedAt p; Metrics := Metrics p; Logs := l |}.

(** [StatusUpdateCallback]: a closure over the channel repository. *)
Definition StatusUpdateCallback : Type :=
  uuid -> ChannelStatus -> Database -> option error * Database.

Record ProcessManager := {
  processes : gmap string Process;
  config : Config;
  hlsPath : string;
  logoPath : string;
  statusCallback : option StatusUpdateCallback;
  numaNodeCount : Z;
  numaNodeCounter : Z
}.

Record World := {
  host : Host;
  now : Z;
  fs : gset string;
  db : Database;
  mgr : ProcessManager;
  next_pid : Z;
  trace : list Event
}.

(** *** The state monad *)

Definition M (A : Type) : Type := World -> A * World.

Definition ret {A} (a : A) : M A := fun w => (a, w).
Definition bind {A B} (c : M A) (k : A -> M B) : M B :=
  fun w => let r := c w in k (fst r) (snd r).
Definition gets {A} (f : World -> A) : M A := fun w => (f w, w).
Definition modify (f : World -> World) : M unit := fun w => (tt, f w).

Definition exec {A} (c : M A) (w : World) : World := snd (c w).
Definition eval {A} (c : M A) (w : World) : A := fst (c w).

Definition set_fs (f : gset string) (w : World) : World :=
  {| host := host w; now := now w; fs := f; db := db w; mgr := mgr w;
     next_pid := next_pid w; trace := trace w |}.
Definition set_db (d : Database) (w : World) : World :=
  {| host := host w; now := now w; fs := fs w; db := d; mgr := mgr w;
     next_pid := next_pid w; trace := trace w |}.
Definition set_mgr (m : ProcessManager) (w : World) : World :=
  {| host := host w; now := now w; fs := fs w; db := db w; mgr := m;
     next_pid := next_pid w; trace := trace w |}.
Definition set_now (t : Z) (w : World) : World :=
  {| host := host w; now := t; fs := fs w; db := db w; mgr := mgr w;
     next_pid := next_pid w; trace := trace w |}.
Definition set_next_pid (p : Z) (w : World) : World :=
  {| host := host w; now := now w; fs := fs w; db := db w; mgr := mgr w;
     next_pid := p; trace := trace w |}.
Definition emit (e : Event) : M unit :=
  modify (fun w =>
    {| host := host w; now := now w; fs := fs w; db := db w; mgr := mgr w;
       next_pid := next_pid w; trace := trace w ++ [e] |}).

Definition set_processes (ps : gmap string Process) (m : ProcessManager)
  : ProcessManager :=
  {| processes := ps; config := config m; hlsPath := hlsPath m;
     logoPath := logoPath m; statusCallback := statusCallback m;
     numaNodeCount := numaNodeCount m;
     numaNodeCounter := numaNodeCounter m |}.
Definition set_numaNodeCounter (n : Z) (m : ProcessManager)
  : ProcessManager :=
  {| processes := processes m; config := config m; hlsPath := hlsPath m;
     logoPath := logoPath m; statusCallback := statusCallback m;
     numaNodeCount := numaNodeCount m; numaNodeCounter := n |}.
Definition set_statusCallback (cb : option StatusUpdateCallback)
    (m : ProcessManager) : ProcessManager :=
  {| processes := processes m; config := config m; hlsPath := hlsPath m;
     logoPath := logoPath m; statusCallback := cb;
     numaNodeCount := numaNodeCount m;
     numaNodeCounter := numaNodeCounter m |}.

(** [time.Sleep]: the clock advances and the pause is observable. *)
Definition Sleep (d : Z) : M unit :=
  bind (modify (fun w => set_now (now w + d) w)) (fun _ => emit (EvSleep d)).

(** Waiting on a [time.After] timer that fires. *)
Definition timeout (d : Z) : M unit :=
  modify (fun w => set_now (now w + d) w).

(** *** Paths and the file system

    The file system is the set of paths that exist, each in its clean
    form. Paths are Unix paths. *)

(** The elements of a path: the texts between its separators. *)
Fixpoint split_slash (cur : string) (s : string) : list string :=
  match s with
  | EmptyString => [String.rev cur]
  | String c s' =>
      if decide (c = "/"%char) then String.rev cur :: split_slash "" s'
      else split_slash (String c cur) s'
  end.

Fixpoint join_slash (elements : list string) : string :=
  match elements with
  | [] => ""
  | [e] => e
  | e :: rest => e ++ "/" ++ join_slash rest
  end.

(** One element of the scan of [filepath.Clean]; [kept] holds the
    elements written so far, the last one first. An empty element and [.]
    are dropped. [..] removes the last element written; when there is none
    to remove (nothing written yet, or only [..] elements) it is dropped
    in a rooted path and written in a relative one. *)
Definition clean_element (rooted : bool) (kept : list string) (e : string)
  : list string :=
  if decide (e = "") then kept
  else if decide (e = ".") then kept
  else if decide (e = "..") then
    match kept with
    | last :: rest => if decide (last = "..") then ".." :: kept else rest
    | [] => if rooted then [] else [".."]
    end
  else e :: kept.

(** [filepath.Clean]: the shortest path equivalent to [p] by purely
    lexical processing; the empty path becomes [.]. *)
Definition filepath_Clean (p : string) : string :=
  if decide (p = "") then "."
  else
    let rooted := String.prefix "/" p in
    let body :=
      join_slash (rev (foldl (clean_element rooted) [] (split_slash "" p))) in
    if rooted then "/" ++ body
    else if decide (body = "") then "." else body.

(** [filepath.Join] of two elements: empty elements are ignored, the rest
    is joined with a separator and cleaned. *)
Definition filepath_Join (a b : string) : string :=
  if decide (a = "") then
    if decide (b = "") then "" else filepath_Clean b
  else filepath_Clean (a ++ "/" ++ b).

Definition filepath_IsAbs (p : string) : bool := String.prefix "/" p.

Definition under (dir q : string) : bool :=
  bool_decide (q = dir) || String.prefix (dir ++ "/") q.

(** [os.MkdirAll]: fails as the host says, otherwise the directory exists
    afterwards. *)
Definition os_MkdirAll (p : string) : M (option error) := fun w =>
  match mkdir_error (host w) with
  | Some e => (Some e, w)
  | None => (None, set_fs ({[p]} ∪ fs w) w)
  end.

(** [os.RemoveAll]: the path and everything below it are gone. *)
Definition os_RemoveAll (p : string) : M unit :=
  modify (fun w => set_fs (filter (fun q => under p q = false) (fs w)) w).

(** [os.Stat] followed by [os.IsNotExist]. *)
Definition stat_not_exist (p : string) : M bool :=
  gets (fun w => bool_decide (p ∉ fs w)).

(** [os.Remove]: a file or an empty directory is removed; a path that is
    not there and a directory with content are the two errors modelled. *)
Inductive RemoveError := ErrNotExist | ErrNotEmpty.

Definition os_Remove (p : string) : M (option RemoveError) := fun w =>
  if decide (p ∈ fs w) then
    if decide (set_Exists (fun q => String.prefix (p ++ "/") q = true) (fs w))
    then (Some ErrNotEmpty, w)
    else (None, set_fs (fs w ∖ {[p]}) w)
  else (Some ErrNotExist, w).

End Sys.
Export Sys.

Notation "'let*' x ':=' c 'in' k" := (bind c (fun x => k))
(at level 10, x name, c at level 100, k at level 200, only parsing).
Notation "c1 ';;' c2" := (bind c1 (fun _ => c2))
(at level 100, c2 at level 200, right associativity, only parsing).

(** ** The repositories *)

Module Postgres.

Definition db_error : error := "connection refused".

Definition set_channels (cs : gmap string Channel) (d : Database) : Database :=
  {| db_up := db_up d; channels := cs; system_settings := system_settings d |}.

Definition set_system_settings (s : option (gmap string JSON)) (d : Database)
  : Database :=
  {| db_up := db_up d; channels := channels d; system_settings := s |}.

(** [ChannelRepository.GetByID]: any failure of the query, a missing row
    included, is reported as [channel not found: ...]. *)
Definition GetByID (id : uuid) : M (Channel + error) :=
  gets (fun w =>
    if db_up (db w) then
      match channels (db w) !! id with
      | Some c => inl c
      | None => inr "channel not found: no rows in result set"
      end
    else inr ("channel not found: " ++ db_error)).

(** [ChannelRepository.GetAll]. The order of the rows ([created_at DESC])
    is not modelled: the timestamps are not part of [Channel]. *)
Definition GetAll : M (list Channel + error) :=
  gets (fun w =>
    if db_up (db w) then inl (snd <$> map_to_list (channels (db w)))
    else inr db_error).

(** [ChannelRepository.UpdateStatus]: an [UPDATE ... WHERE id = $3]; it
    succeeds, changing nothing, when no row has that id. *)
Definition UpdateStatus_db (id : uuid) (status : ChannelStatus)
    (d : Database) : option error * Database :=
  if db_up d then
    (None, set_channels (alter (set_Status status) id (channels d)) d)
  else (Some db_error, d).

Definition UpdateStatus (id : uuid) (status : ChannelStatus)
  : M (option error) :=
  fun w => let r := UpdateStatus_db id status (db w) in
           (fst r, set_db (snd r) w).

(** [ChannelRepository.Delete]. *)
Definition Delete (id : uuid) : M (option error) :=
  fun w =>
    if db_up (db w) then
      (None, set_db (set_channels (delete id (channels (db w))) (db w)) w)
    else (Some db_error, w).

Definition default_system_settings : gmap string JSON :=
  list_to_map
    [ ("max_channels", JNum 80); ("segment_time", JNum 3);
      ("playlist_size", JNum 6); ("log_retention", JNum 1);
      ("default_preset", JStr "veryfast"); ("default_bitrate", JStr "3500k");
      ("default_resolution", JStr "1920x1080");
      ("default_profile", JStr "high"); ("default_crf", JNum 23);
      ("default_maxrate", JStr "3800k"); ("default_bufsize", JStr "7600k");
      ("use_ramdisk", JBool true); ("threads_per_process", JNum 1) ].

(** [SettingsRepository.GetSystemSettings]: when the query fails (no row,
    no connection) the defaults are returned with a nil error. The rows of
    the model hold a JSON object, as every row [UpdateSystemSettings]
    writes does; a value of another kind, which only a write from outside
    can leave there, makes the code return an unmarshalling error and is
    not among the states of the model. *)
Definition GetSystemSettings : M (gmap string JSON + error) :=
  gets (fun w =>
    if db_up (db w) then
      match system_settings (db w) with
      | Some doc => inl doc
      | None => inl default_system_settings
      end
    else inl default_system_settings).

(** [SettingsRepository.UpdateSystemSettings]: an upsert of the row. *)
Definition UpdateSystemSettings (settings : gmap string JSON)
  : M (option error) :=
  fun w =>
    if db_up (db w) then
      (None, set_db (set_system_settings (Some settings) (db w)) w)
    else (Some ("failed to update settings: " ++ db_error), w).

(** The two statements that write texts supplied by a client. The server
    checks them against the column types (the name is a [VARCHAR(255)],
    every text must be valid in the encoding of the database); the code
    leaves these checks to the server. [row_ok] says whether the server
    accepts the values of a channel. *)
Section Writes.

Variable row_ok : Channel -> bool.

Definition constraint_error : error := "value rejected by the column type".

(** [ChannelRepository.Create]: an [INSERT]; [id] is the primary key. The
    output URL is not among the columns, so the row has none. *)
Definition Create (channel : Channel) : M (option error) :=
  fun w =>
    if db_up (db w) then
      if row_ok channel then
        match channels (db w) !! ID channel with
        | Some _ =>
            (Some "duplicate key value violates unique constraint", w)
        | None =>
            (None,
             set_db (set_channels
                       (<[ID channel := set_OutputURL "" channel]>
                          (channels (db w)))
                       (db w)) w)
        end
      else (Some constraint_error, w)
    else (Some db_error, w).

(** [ChannelRepository.Update]: an [UPDATE ... WHERE id = $7] of the name,
    the source, the logo, the output configuration and the restart flag.
    The status column is not in its [SET] list. *)
Definition Update (channel : Channel) : M (option error) :=
  fun w =>
    if db_up (db w) then
      if row_ok channel then
        (None,
         set_db (set_channels
                   (alter (set_columns channel) (ID channel) (channels (db w)))
                   (db w)) w)
      else (Some constraint_error, w)
    else (Some db_error, w).

End Writes.

End Postgres.

(** ** Text helpers of the Go standard library *)

Module GoStrings.

Definition newline : ascii := ascii_of_nat 10.
Definition carriage_return : ascii := ascii_of_nat 13.

(** ASCII white space, as [unicode.IsSpace] sees it below 0x80. *)
Definition is_space (c : ascii) : bool :=
  let n := nat_of_ascii c in
  ((9 <=? n) && (n <=? 13))%nat || (n =? 32)%nat.

(** [strings.Fields] on ASCII text. *)
Fixpoint fields_aux (cur : string) (s : string) : list string :=
  match s with
  | EmptyString => if decide (cur = "") then [] else [String.rev cur]
  | String c s' =>
      if is_space c then
        (if decide (cur = "") then fields_aux "" s'
         else String.rev cur :: fields_aux "" s')
      else fields_aux (String c cur) s'
  end.

Definition Fields (s : string) : list string := fields_aux "" s.

(** Splitting at line feeds. *)
Fixpoint split_lines (cur : string) (s : string) : list string :=
  match s with
  | EmptyString => if decide (cur = "") then [] else [String.rev cur]
  | String c s' =>
      if decide (c = newline) then String.rev cur :: split_lines "" s'
      else split_lines (String c cur) s'
  end.

Definition drop_cr (line : string) : string :=
  match String.rev line with
  | String c r => if decide (c = carriage_return) then String.rev r else line
  | EmptyString => line
  end.

(** The lines a [bufio.Scanner] with [ScanLines] delivers: split at line
    feeds, one trailing carriage return dropped, no empty last line.
    (The scanner gives up on a line longer than 64 KiB; procfs has none.) *)
Definition ScanLines (data : string) : list string :=
  drop_cr <$> split_lines "" data.

Definition HasPrefix (s p : string) : bool := String.prefix p s.

Definition HasSuffix (s p : string) : bool :=
  String.prefix (String.rev p) (String.rev s).

Definition TrimSuffix (s suffix : string) : string :=
  if HasSuffix s suffix then
    String.substring 0 (String.length s - String.length suffix) s
  else s.

Definition digit_of (c : ascii) : option Z :=
  let n := nat_of_ascii c in
  if ((48 <=? n) && (n <=? 57))%nat then Some (Z.of_nat n - 48) else None.

Fixpoint parse_digits (acc : Z) (s : string) : option Z :=
  match s with
  | EmptyString => Some acc
  | String c s' =>
      match digit_of c with
      | Some d => parse_digits (10 * acc + d) s'
      | None => None
      end
  end.

Definition parse_unsigned (s : string) : option Z :=
  match s with
  | EmptyString => None
  | _ => parse_digits 0 s
  end.

(** [strconv.ParseInt(s, 10, 64)]: optional sign, at least one digit,
    digits only, and the value within the int64 range; [None] is any
    error. *)
Definition ParseInt (s : string) : option Z :=
  match s with
  | EmptyString => None
  | String c s' =>
      if decide (c = "-"%char) then
        match parse_unsigned s' with
        | Some un => if un <=? 2 ^ 63 then Some (- un) else None
        | None => None
        end
      else
        match parse_unsigned (if decide (c = "+"%char) then s' else s) with
        | Some un => if un <? 2 ^ 63 then Some un else None
        | None => None
        end
  end.

(** [strconv.Atoi] on a 64-bit platform. *)
Definition Atoi (s : string) : option Z := ParseInt s.

(** Two's-complement wrap-around of int64 arithmetic. *)
Definition wrap64 (z : Z) : Z := (z + 2 ^ 63) mod 2 ^ 64 - 2 ^ 63.

(** [strings.Contains]. *)
Fixpoint Contains (s substr : string) : bool :=
  String.prefix substr s ||
  match s with
  | EmptyString => false
  | String _ s' => Contains s' substr
  end.

(** [strings.Split(s, "\n")]: the pieces between line feeds, the last one
    included even when it is empty. *)
Fixpoint split_at_newlines (cur : string) (s : string) : list string :=
  match s with
  | EmptyString => [String.rev cur]
  | String c s' =>
      if decide (c = newline) then String.rev cur :: split_at_newlines "" s'
      else split_at_newlines (String c cur) s'
  end.

Definition Split_newline (s : string) : list string := split_at_newlines "" s.

End GoStrings.

(** ** The process manager ([ffmpeg/process.go]) *)

Module FFmpeg.
Import GoStrings.

Definition modify_mgr (f : ProcessManager -> ProcessManager) : M unit :=
  modify (fun w => set_mgr (f (mgr w)) w).

(** [SetStatusCallback]. *)
Definition SetStatusCallback (callback : StatusUpdateCallback) : M unit :=
  modify_mgr (set_statusCallback (Some callback)).

(** [IsRunning]. *)
Definition IsRunning (channelID : uuid) : M bool :=
  gets (fun w => bool_decide (is_Some (processes (mgr w) !! channelID))).

(** [getNextNUMANode]: round robin over the NUMA nodes. *)
Definition getNextNUMANode : M Z :=
  let* m := gets mgr in
  if numaNodeCount m <=? 1 then ret 0
  else
    let node := Z.rem (numaNodeCounter m) (numaNodeCount m) in
    modify_mgr (set_numaNodeCounter (numaNodeCounter m + 1));;
    ret node.

(** The file a logo configuration names: absolute, or relative to the logo
    directory of the manager. *)
Definition logo_file (m : ProcessManager) (logo : LogoConfig) : string :=
  if filepath_IsAbs (logo_Path logo) then logo_Path logo
  else filepath_Join (logoPath m) (logo_Path logo).

(** [buildArgs], up to and including the logo input. The arguments that
    follow (filter graph, codec, audio and HLS muxer options) are computed
    from the channel and the settings without any further check and are
    never the cause of an error; they are not part of the vector modelled
    here. The function reads the host, the settings and the file system
    and writes nothing. *)
Definition buildArgs (channel : Channel) (outputDir : string)
    (activeProcessCount : nat) : M (list string + error) :=
  let args :=
    [ "-hide_banner"; "-loglevel"; "warning"; "-progress"; "pipe:2";
      "-reconnect"; "1"; "-reconnect_streamed"; "1";
      "-reconnect_delay_max"; "2"; "-reconnect_at_eof"; "1";
      "-timeout"; "5000000"; "-fflags"; "+genpts+discardcorrupt+nobuffer";
      "-analyzeduration"; "2000000"; "-probesize"; "2000000";
      "-thread_queue_size"; "512"; "-i"; SourceURL channel ] in
  let* useNVENC := gets (fun w => nvidia_available (host w)) in
  let* dbSettings := Postgres.GetSystemSettings in
  let* m := gets mgr in
  match Logo channel with
  | Some logo =>
      if decide (logo_Path logo = "") then ret (inl args)
      else
        let logoPath := logo_file m logo in
        let* missing := stat_not_exist logoPath in
        if missing then ret (inr ("logo file not found: " ++ logoPath))
        else ret (inl (args ++ ["-i"; logoPath])%list)
  | None => ret (inl args)
  end.

Definition niceValue (numCPU : Z) : Z :=
  if 64 <=? numCPU then 0 else if 16 <=? numCPU then 2 else 5.

(** The child is started: it gets the next free pid. *)
Definition spawn (id : uuid) (path : string) (args : list string) : M Z :=
  let* pid := gets next_pid in
  modify (set_next_pid (pid + 1));;
  emit (EvSpawn id pid path args);;
  ret pid.

(** The command [Start] runs: the encoder, wrapped in [numactl] when the
    host has several NUMA nodes and the tool (Linux is assumed). *)
Definition command_line (args : list string) : M (string * list string) :=
  let* m := gets mgr in
  let* h := gets host in
  if (1 <? numaNodeCount m) && numactl_available h then
    let* numaNode := getNextNUMANode in
    ret ("numactl",
         ("--cpunodebind=" ++ pretty numaNode)
           :: ("--membind=" ++ pretty numaNode)
           :: BinaryPath (config m) :: args)
  else ret (BinaryPath (config m), args).

(** [Start]. The whole body runs under the write lock of the manager, so
    it is one step of the model. *)
Definition Start (channel : Channel) : M (option error) :=
  let* m := gets mgr in
  if decide (is_Some (processes m !! ID channel)) then
    ret (Some ("channel " ++ ID channel ++ " is already running"))
  else
    let activeProcessCount := size (processes m) in
    let outputDir := filepath_Join (hlsPath m) (ID channel) in
    let* mkErr := os_MkdirAll outputDir in
    match mkErr with
    | Some err => ret (Some ("failed to create output directory: " ++ err))
    | None =>
    let* built := buildArgs channel outputDir activeProcessCount in
    match built with
    | inr err => ret (Some ("failed to build FFmpeg args: " ++ err))
    | inl args =>
    let* h := gets host in
    let* cmd := command_line args in
    match pipe_error h with
    | Some err => ret (Some ("failed to get stderr pipe: " ++ err))
    | None =>
    let* startedAt := gets now in
    match exec_error h with
    | Some err => ret (Some ("failed to start FFmpeg: " ++ err))
    | None =>
    let* pid := spawn (ID channel) (fst cmd) (snd cmd) in
    emit (EvSetPriority pid (niceValue (NumCPU h)));;
    let process :=
      {| ChannelID := ID channel; Channel_ := channel; Pid := pid;
         StartedAt := startedAt;
         Metrics := {| met_Bitrate := ""; met_DropFrames := 0 |};
         Logs := [] |} in
    modify_mgr (fun m' =>
      set_processes (<[ID channel := process]> (processes m')) m');;
    ret None
    end end end end.

(** Signalling the process group of [pid], or the process alone when the
    group lookup fails. *)
Definition signal_group (pid : Z) (sig : Signal) : M unit :=
  let* h := gets host in
  match getpgid h pid with
  | Some pgid => emit (EvSignal (- pgid) sig)
  | None => emit (EvSignal pid sig)
  end.

(** [Stop]: the entry is removed under the lock, then the child is
    terminated and the output directory removed. It always returns nil. *)
Definition Stop (channelID : uuid) : M (option error) :=
  let* m := gets mgr in
  let outputDir := filepath_Join (hlsPath m) channelID in
  match processes m !! channelID with
  | None => os_RemoveAll outputDir;; ret None
  | Some process =>
      let pid := Pid process in
      modify_mgr (fun m' =>
        set_processes (delete channelID (processes m')) m');;
      emit (EvCancel pid);;
      signal_group pid SIGTERM;;
      let* h := gets host in
      match term_response h pid with
      | ExitsOnTerm => ret tt
      | ExitsOnKill => timeout (3 * Second);; signal_group pid SIGKILL
      | Survives =>
          timeout (3 * Second);; signal_group pid SIGKILL;;
          timeout (2 * Second)
      end;;
      os_RemoveAll outputDir;;
      ret None
  end.

(** [Restart] of the manager. *)
Definition Restart (channelID : uuid) : M (option error) :=
  let* m := gets mgr in
  match processes m !! channelID with
  | None => ret (Some ("channel " ++ channelID ++ " is not running"))
  | Some process =>
      let channel := Channel_ process in
      let* err := Stop channelID in
      match err with
      | Some e => ret (Some e)
      | None => Sleep Second;; Start channel
      end
  end.

(** [GetLogs]. *)
Definition GetLogs (channelID : uuid) : M (list string + error) :=
  let* m := gets mgr in
  match processes m !! channelID with
  | None => ret (inr ("channel " ++ channelID ++ " is not running"))
  | Some process => ret (inl (Logs process))
  end.

Definition minUptimeForRestart : Z := 10 * Second.

(** The status callback, if one is installed, applied to the database. *)
Definition call_statusCallback (id : uuid) (status : ChannelStatus)
  : M unit :=
  let* m := gets mgr in
  match statusCallback m with
  | Some cb =>
      modify (fun w => set_db (snd (cb id status (db w))) w)
  | None => ret tt
  end.

(** The watcher, [watchProcess], is entered when [process.Cmd.Wait()]
    returns, that is when the child has exited; [exitErr] is the result of
    the wait. It is modelled in two parts, because other goroutines run
    while it sleeps before a restart.

    [watch_exit] is the part before the pause. It returns [true] when the
    watcher goes on to sleep and restart. The exit line is appended to the
    logs of the process object; it is visible through the table only if
    the entry is that same object. The rendering of the uptime in that
    line is omitted. [process.Channel] is never nil: [Start] dereferences
    it. *)
Definition watch_exit (process : Process) (exitErr : option error)
  : M bool :=
  let* t := gets now in
  let uptime := t - StartedAt process in
  let line :=
    match exitErr with
    | Some e => "[ERROR] Process exited with error: " ++ e
    | None => "[INFO] Process exited normally"
    end in
  modify_mgr (fun m =>
    set_processes
      (alter (fun p => if decide (Pid p = Pid process)
                       then set_Logs (Logs p ++ [line])%list p else p)
             (ChannelID process) (processes m)) m);;
  (* under the lock *)
  let* m := gets mgr in
  let stillInMap := bool_decide (is_Some (processes m !! ChannelID process)) in
  (if stillInMap then
     modify_mgr (fun m' =>
       set_processes (delete (ChannelID process) (processes m')) m')
   else ret tt);;
  let autoRestart :=
    if stillInMap then AutoRestart (Channel_ process) else false in
  let outputDir := filepath_Join (hlsPath m) (ChannelID process) in
  (* lock released *)
  if negb stillInMap then os_RemoveAll outputDir;; ret false
  else if uptime <? minUptimeForRestart then
    os_RemoveAll outputDir;;
    call_statusCallback (ChannelID process) ChannelStatusStopped;;
    ret false
  else if autoRestart then ret true
  else os_RemoveAll outputDir;; ret false.

(** [watch_restart] is the part after the pause. *)
Definition watch_restart (process : Process) : M unit :=
  let* m := gets mgr in
  let outputDir := filepath_Join (hlsPath m) (ChannelID process) in
  let* shouldRestart := IsRunning (ChannelID process) in
  if negb shouldRestart then os_RemoveAll outputDir
  else
    let* restartErr := Start (Channel_ process) in
    match restartErr with
    | Some _ =>
        os_RemoveAll outputDir;;
        call_statusCallback (ChannelID process) ChannelStatusError
    | None => ret tt
    end.

(** [watchProcess]. [pause] is what the other goroutines do to the world
    during the two seconds of sleep ([ret tt] when nothing else runs). *)
Definition watchProcess (process : Process) (exitErr : option error)
    (pause : M unit) : M unit :=
  let* restart := watch_exit process exitErr in
  if restart then
    Sleep (2 * Second);;
    pause;;
    watch_restart process
  else ret tt.

(** The resident set size found in the text of [/proc/<pid>/status]: the
    first line starting with [VmRSS:] decides; 0 when nothing is found. *)
Fixpoint scanVmRSS (lines : list string) : Z :=
  match lines with
  | [] => 0
  | line :: rest =>
      if HasPrefix line "VmRSS:" then
        match Fields line with
        | _ :: f1 :: _ =>
            match ParseInt f1 with
            | Some val => wrap64 (val * 1024)
            | None => 0
            end
        | _ => 0
        end
      else scanVmRSS rest
  end.

(** [getProcessStats], memory part. The CPU percentage is a float64
    computation over two samples and is not modelled, nor is the sample
    the function stores in the process object for the next call. *)
Definition getProcessStats (pid : Z) : M Z :=
  let statusPath := "/proc/" ++ pretty pid ++ "/status" in
  let* statusData := gets (fun w => ReadFile (host w) statusPath) in
  let memoryUsage :=
    match statusData with
    | Some data => scanVmRSS (ScanLines data)
    | None => 0
    end in
  ret (if decide (memoryUsage = 0) then 100 * 1024 * 1024 else memoryUsage).

Definition parseOutputBitrate (bitrate : string) : Z :=
  if decide (bitrate = "") then 0
  else
    match Atoi (TrimSuffix (TrimSuffix bitrate "k") "M") with
    | Some val => val
    | None => 0
    end.

Definition metrics_of (channelID : uuid) (process : Process)
  : M TranscoderProcess :=
  let* memoryUsage := getProcessStats (Pid process) in
  ret {| tp_ChannelID := channelID; tp_PID := Pid process;
         tp_StartedAt := StartedAt process;
         tp_MemoryUsage := memoryUsage;
         tp_InputBitrate := 0;
         tp_OutputBitrate := parseOutputBitrate (met_Bitrate (Metrics process));
         tp_DroppedFrames := met_DropFrames (Metrics process) |}.

(** [GetProcess]. *)
Definition GetProcess (channelID : uuid) : M (TranscoderProcess + error) :=
  let* m := gets mgr in
  match processes m !! channelID with
  | None => ret (inr ("channel " ++ channelID ++ " is not running"))
  | Some process =>
      let* tp := metrics_of channelID process in
      ret (inl tp)
  end.

Fixpoint metrics_all (entries : list (string * Process))
  : M (list TranscoderProcess) :=
  match entries with
  | [] => ret []
  | (channelID, process) :: rest =>
      let* tp := metrics_of channelID process in
      let* tps := metrics_all rest in
      ret (tp :: tps)
  end.

(** [GetAllProcesses]: one record per entry of the table, in the iteration
    order of the map. *)
Definition GetAllProcesses : M (list TranscoderProcess + error) :=
  let* m := gets mgr in
  let* tps := metrics_all (map_to_list (processes m)) in
  ret (inl tps).

(** *** Setting up the manager *)

(** An entry of a directory listing ([os.DirEntry]). *)
Record DirEntry := {
  de_Name : string;
  de_IsDir : bool
}.

(** The counting loop of [detectNUMANodes] over the entries of
    [/sys/devices/system/node]: the directories named [node] followed by
    something [strconv.Atoi] accepts. *)
Fixpoint count_nodes (entries : list DirEntry) (nodeCount : Z) : Z :=
  match entries with
  | [] => nodeCount
  | entry :: rest =>
      let name := de_Name entry in
      if de_IsDir entry && HasPrefix name "node" then
        if (4 <? String.length name)%nat then
          match Atoi (String.substring 4 (String.length name - 4) name) with
          | Some _ => count_nodes rest (nodeCount + 1)
          | None => count_nodes rest nodeCount
          end
        else count_nodes rest nodeCount
      else count_nodes rest nodeCount
  end.

(** The loop over the lines of [numactl --hardware]: the first line
    [available: <n> nodes ...] with a positive [n] decides; 0 when there is
    none. *)
Fixpoint scan_available (lines : list string) : Z :=
  match lines with
  | [] => 0
  | line :: rest =>
      if HasPrefix line "available:" then
        match Fields line with
        | _ :: field :: _ :: _ =>
            match Atoi field with
            | Some count =>
                if 0 <? count then count else scan_available rest
            | None => scan_available rest
            end
        | _ => scan_available rest
        end
      else scan_available rest
  end.

(** [detectNUMANodes]. [entries] is the result of [os.ReadDir] on the node
    directory ([None] when it fails), [numactl_hardware] the output of
    [numactl --hardware] ([None] when the command fails). *)
Definition detectNUMANodes (entries : option (list DirEntry))
    (numactl_hardware : option string) : Z :=
  match entries with
  | None => 0
  | Some entries =>
      let nodeCount := count_nodes entries 0 in
      if 0 <? nodeCount then nodeCount
      else
        match numactl_hardware with
        | Some output => scan_available (Split_newline output)
        | None => 0
        end
  end.

(** [NewProcessManagerWithCallback]. The thread budget it computes from
    [runtime.NumCPU] is stored in a field that nothing reads; it is left
    out, as is the settings repository, which the model reaches through
    the world. *)
Definition NewProcessManagerWithCallback (config : Config)
    (hlsPath logoPath : string) (statusCallback : option StatusUpdateCallback)
    (entries : option (list DirEntry)) (numactl_hardware : option string)
  : ProcessManager :=
  let numaNodeCount := detectNUMANodes entries numactl_hardware in
  let numaNodeCount := if decide (numaNodeCount = 0) then 1 else numaNodeCount in
  {| processes := ∅; config := config; hlsPath := hlsPath;
     logoPath := logoPath; statusCallback := statusCallback;
     numaNodeCount := numaNodeCount; numaNodeCounter := 0 |}.

(** [NewProcessManager]. *)
Definition NewProcessManager (config : Config) (hlsPath logoPath : string) :=
  NewProcessManagerWithCallback config hlsPath logoPath None.

(** *** Keeping the logs

    The log keeping of the loop of [monitorProgress]: every line the child
    writes is appended, and the buffer is cut back to its last 500 lines
    whenever it exceeds them. (The parsing of the progress figures with
    regular expressions, which the same loop does, is not modelled.) *)
Definition keep_line (logs : list string) (line : string) : list string :=
  let logs := (logs ++ [line])%list in
  if (500 <? length logs)%nat then drop (length logs - 500) logs else logs.

Definition monitorProgress_logs (lines : list string) (logs : list string)
  : list string :=
  foldl keep_line logs lines.

(** [n] successive calls of [getNextNUMANode]; the nodes in call order. *)
Fixpoint next_nodes (n : nat) : M (list Z) :=
  match n with
  | O => ret []
  | S n' =>
      let* node := getNextNUMANode in
      let* nodes := next_nodes n' in
      ret (node :: nodes)
  end.

End FFmpeg.

(** ** The application services *)

Module App.

Definition ErrChannelNotFound : error := "channel not found".
Definition ErrChannelRunning : error := "channel is running".
Definition ErrInvalidChannel : error := "invalid channel data".
Definition ErrChannelsRunning : error :=
  "aktif yayın var, ayarlar güncellenemez".

(** The output URL [GetChannel] and [ListChannels] fill in. *)
Definition stream_url (id : uuid) : string :=
  "https://cdn.cashbacktv.live/streams/" ++ id ++ "/index.m3u8".

Definition with_OutputURL (channel : Channel) : Channel :=
  set_OutputURL (stream_url (ID channel)) channel.

(** [ChannelService.ListChannels]. *)
Definition ListChannels : M (list Channel + error) :=
  let* r := Postgres.GetAll in
  match r with
  | inr err => ret (inr err)
  | inl channels => ret (inl (with_OutputURL <$> channels))
  end.

(** [ChannelService.StartChannel]. *)
Definition StartChannel (id : uuid) : M (option error) :=
  let* found := Postgres.GetByID id in
  match found with
  | inr _ => ret (Some ErrChannelNotFound)
  | inl channel =>
      let* running := FFmpeg.IsRunning id in
      if running then
        Postgres.UpdateStatus id ChannelStatusRunning;;
        ret None
      else
        let* err := Postgres.UpdateStatus id ChannelStatusStarting in
        match err with
        | Some e => ret (Some e)
        | None =>
            let* err := FFmpeg.Start channel in
            match err with
            | Some e =>
                Postgres.UpdateStatus id ChannelStatusError;;
                ret (Some e)
            | None => Postgres.UpdateStatus id ChannelStatusRunning
            end
        end
  end.

(** [ChannelService.StopChannel]. *)
Definition StopChannel (id : uuid) : M (option error) :=
  let* found := Postgres.GetByID id in
  match found with
  | inr _ => ret (Some ErrChannelNotFound)
  | inl _ =>
      let* running := FFmpeg.IsRunning id in
      if negb running then
        Postgres.UpdateStatus id ChannelStatusStopped;;
        ret None
      else
        let* err := Postgres.UpdateStatus id ChannelStatusStopping in
        match err with
        | Some e => ret (Some e)
        | None =>
            let* err := FFmpeg.Stop id in
            match err with
            | Some e =>
                Postgres.UpdateStatus id ChannelStatusError;;
                ret (Some e)
            | None => Postgres.UpdateStatus id ChannelStatusStopped
            end
        end
  end.

(** [ChannelService.RestartChannel]. *)
Definition RestartChannel (id : uuid) : M (option error) :=
  let* found := Postgres.GetByID id in
  match found with
  | inr _ => ret (Some ErrChannelNotFound)
  | inl _ =>
      let* wasRunning := FFmpeg.IsRunning id in
      (if wasRunning then
         let* err := StopChannel id in
         match err with
         | Some _ => Postgres.UpdateStatus id ChannelStatusError;; ret tt
         | None => ret tt
         end;;
         Sleep (500 * Millisecond)
       else ret tt);;
      StartChannel id
  end.

(** [ChannelService.DeleteChannel]. *)
Definition DeleteChannel (id : uuid) : M (option error) :=
  let* found := Postgres.GetByID id in
  match found with
  | inr _ => ret (Some ErrChannelNotFound)
  | inl _ =>
      let* running := FFmpeg.IsRunning id in
      (if running then
         FFmpeg.Stop id;;
         Sleep (200 * Millisecond)
       else ret tt);;
      Postgres.Delete id
  end.

(** [ChannelService.GetChannel]. *)
Definition GetChannel (id : uuid) : M (Channel + error) :=
  let* found := Postgres.GetByID id in
  match found with
  | inr _ => ret (inr ErrChannelNotFound)
  | inl channel => ret (inl (with_OutputURL channel))
  end.

Section Writes.

(** Whether the database accepts the values of a channel. *)
Variable row_ok : Channel -> bool.

(** [ChannelService.CreateChannel]; [id] is the identifier [NewChannel]
    draws. *)
Definition CreateChannel (id : uuid) (name sourceURL : string)
    (logo : option LogoConfig) (output : option OutputConfig)
  : M (Channel + error) :=
  if bool_decide (name = "") || bool_decide (sourceURL = "") then
    ret (inr ErrInvalidChannel)
  else
    let channel := NewChannel id name sourceURL in
    let channel :=
      match logo with
      | Some _ => set_Logo logo channel
      | None => channel
      end in
    let channel :=
      match output with
      | Some _ => set_OutputConfig output channel
      | None => channel
      end in
    let* err := Postgres.Create row_ok channel in
    match err with
    | Some e => ret (inr e)
    | None => ret (inl channel)
    end.

(** [ChannelService.UpdateChannel]. *)
Definition UpdateChannel (id : uuid) (name sourceURL : string)
    (logo : option LogoConfig) (output : option OutputConfig)
  : M (Channel + error) :=
  let* found := Postgres.GetByID id in
  match found with
  | inr _ => ret (inr ErrChannelNotFound)
  | inl channel =>
      let* running := FFmpeg.IsRunning id in
      if running then ret (inr ErrChannelRunning)
      else
        let channel :=
          if decide (name = "") then channel else set_Name name channel in
        let channel :=
          if decide (sourceURL = "") then channel
          else set_SourceURL sourceURL channel in
        let channel := set_Logo logo channel in
        let channel :=
          match output with
          | Some _ => set_OutputConfig output channel
          | None => channel
          end in
        let* err := Postgres.Update row_ok channel in
        match err with
        | Some e => ret (inr e)
        | None => ret (inl channel)
        end
  end.

End Writes.

(** [ChannelService.GetChannelMetrics]. *)
Definition GetChannelMetrics (id : uuid) : M (TranscoderProcess + error) :=
  FFmpeg.GetProcess id.

(** [ChannelService.GetAllChannelMetrics]: the records of the manager,
    put into a map under their channel ids. *)
Definition GetAllChannelMetrics
  : M (gmap string TranscoderProcess + error) :=
  let* r := FFmpeg.GetAllProcesses in
  match r with
  | inr e => ret (inr e)
  | inl processes =>
      ret (inl (foldl (fun metricsMap process =>
                         <[tp_ChannelID process := process]> metricsMap)
                      ∅ processes))
  end.

(** [ChannelService.GetChannelLogs]. *)
Definition GetChannelLogs (id : uuid) : M (list string + error) :=
  let* running := FFmpeg.IsRunning id in
  if negb running then ret (inr ("channel " ++ id ++ " is not running"))
  else FFmpeg.GetLogs id.

(** *** The batch coordinator *)

Record BatchError := {
  be_ChannelID : uuid;
  be_Error : string
}.

Record BatchResult := {
  Success : list uuid;
  Failed : list BatchError
}.

Definition add_job (id : uuid) (err : option error) (result : BatchResult)
  : BatchResult :=
  match err with
  | Some e =>
      {| Success := Success result;
         Failed := Failed result ++ [{| be_ChannelID := id; be_Error := e |}] |}
  | None =>
      {| Success := Success result ++ [id]; Failed := Failed result |}
  end.

(** The collecting loop of [batchProcess], [for i := 0; i < len(ids); i++],
    together with the worker pool that feeds it. [queue] is the content of
    the [jobs] channel, [inflight] the ids the workers hold. Each iteration
    receives one finished job: the workers first take ids from the queue
    while fewer than [concurrentLimit] are held, then one of the held jobs
    finishes. Which one is not determined by the program; the head of
    [sched] decides. [processFunc] runs as one step of the world. [remaining]
    counts the iterations left. The result is [None] when no worker can
    deliver a job, in which case the Go loop blocks for ever. *)
Fixpoint collect (processFunc : uuid -> M (option error))
    (concurrentLimit : nat) (delayBetweenBatches : Z)
    (sched : list nat) (i remaining : nat) (queue inflight : list uuid)
    (result : BatchResult) : M (option BatchResult) :=
  match remaining with
  | O => ret (Some result)
  | S remaining' =>
      let free := (concurrentLimit - length inflight)%nat in
      let held := (inflight ++ take free queue)%list in
      let k := (hd 0 sched mod length held)%nat in
      match held !! k with
      | None => ret None
      | Some id =>
          let* err := processFunc id in
          let result' := add_job id err result in
          (if (0 <? i)%nat && (i mod concurrentLimit =? 0)%nat
           then Sleep delayBetweenBatches else ret tt);;
          collect processFunc concurrentLimit delayBetweenBatches
            (tl sched) (S i) remaining' (drop free queue) (delete k held)
            result'
      end
  end.

(** The order in which the jobs finish under a schedule: the ids [collect]
    receives, one per iteration. *)
Fixpoint completion_order (concurrentLimit : nat) (sched : list nat)
    (remaining : nat) (queue inflight : list uuid) : list uuid :=
  match remaining with
  | O => []
  | S remaining' =>
      let free := (concurrentLimit - length inflight)%nat in
      let held := (inflight ++ take free queue)%list in
      let k := (hd 0 sched mod length held)%nat in
      match held !! k with
      | None => []
      | Some id =>
          id :: completion_order concurrentLimit (tl sched) remaining'
                  (drop free queue) (delete k held)
      end
  end.

(** [batchProcess]; its error result is always nil and is left out. *)
Definition batchProcess (ids : list uuid)
    (processFunc : uuid -> M (option error)) (concurrentLimit : nat)
    (delayBetweenBatches : Z) (sched : list nat) : M (option BatchResult) :=
  let result := {| Success := []; Failed := [] |} in
  match ids with
  | [] => ret (Some result)
  | _ =>
      collect processFunc concurrentLimit delayBetweenBatches sched
        0 (length ids) ids [] result
  end.

Definition BatchStartChannels (ids : list uuid) :=
  batchProcess ids StartChannel 5 (100 * Millisecond).

Definition BatchStopChannels (ids : list uuid) :=
  batchProcess ids StopChannel 5 (100 * Millisecond).

Definition BatchRestartChannels (ids : list uuid) :=
  batchProcess ids RestartChannel 3 (200 * Millisecond).

Definition BatchDeleteChannels (ids : list uuid) :=
  batchProcess ids DeleteChannel 5 (100 * Millisecond).

(** Every id a result mentions. *)
Definition result_ids (r : BatchResult) : list uuid :=
  (Success r ++ (be_ChannelID <$> Failed r))%list.

(** What a batch owes its caller: it returns, the two lists together have
    one entry per input id, every id in them is an input id, and each list
    follows the order in which the jobs finished, which is some reordering
    of the input. *)
Definition accounted (ids : list uuid) (concurrentLimit : nat)
    (sched : list nat) (out : option BatchResult) : Prop :=
  let order := completion_order concurrentLimit sched (length ids) ids [] in
  exists r,
    out = Some r /\
    (length (Success r) + length (Failed r) = length ids)%nat /\
    (forall id, id ∈ result_ids r -> id ∈ ids) /\
    sublist (Success r) order /\
    sublist (be_ChannelID <$> Failed r) order /\
    order ≡ₚ ids.

End App.

(** *** The settings service *)

Module Settings.
Import App.

Record Settings := {
  MaxChannels : Z;
  SegmentTime_ : Z;
  PlaylistSize_ : Z;
  LogRetention : Z;
  DefaultPreset_ : string;
  DefaultBitrate_ : string;
  DefaultResolution : string;
  DefaultProfile : string;
  DefaultCRF : Z;
  DefaultMaxrate : string;
  DefaultBufsize : string
}.

(** [UpdateSettingsRequest]: every field is optional (a nil pointer). *)
Record UpdateSettingsRequest := {
  req_MaxChannels : option Z;
  req_SegmentTime : option Z;
  req_PlaylistSize : option Z;
  req_LogRetention : option Z;
  req_DefaultPreset : option string;
  req_DefaultBitrate : option string;
  req_DefaultResolution : option string;
  req_DefaultProfile : option string;
  req_DefaultCRF : option Z;
  req_DefaultMaxrate : option string;
  req_DefaultBufsize : option string
}.

(** The two type switches of [GetSettings]: a number ([float64] or [int])
    or a string replaces the default, anything else leaves it. The number
    is taken as it is, which is what [int(v)] gives for the integers a
    float64 holds exactly (magnitude at most 2^53). *)
Definition num_or (doc : gmap string JSON) (key : string) (dflt : Z) : Z :=
  match doc !! key with
  | Some (JNum n) => n
  | _ => dflt
  end.

Definition str_or (doc : gmap string JSON) (key : string) (dflt : string)
  : string :=
  match doc !! key with
  | Some (JStr s) => s
  | _ => dflt
  end.

(** [SettingsService.GetSettings]. *)
Definition GetSettings : M (Settings + error) :=
  let* r := Postgres.GetSystemSettings in
  match r with
  | inr e => ret (inr e)
  | inl dbSettings =>
      ret (inl
        {| MaxChannels := num_or dbSettings "max_channels" 80;
           SegmentTime_ := num_or dbSettings "segment_time" 3;
           PlaylistSize_ := num_or dbSettings "playlist_size" 6;
           LogRetention := num_or dbSettings "log_retention" 1;
           DefaultPreset_ := str_or dbSettings "default_preset" "veryfast";
           DefaultBitrate_ := str_or dbSettings "default_bitrate" "3500k";
           DefaultResolution :=
             str_or dbSettings "default_resolution" "1920x1080";
           DefaultProfile := str_or dbSettings "default_profile" "high";
           DefaultCRF := num_or dbSettings "default_crf" 23;
           DefaultMaxrate := str_or dbSettings "default_maxrate" "3800k";
           DefaultBufsize := str_or dbSettings "default_bufsize" "7600k" |})
  end.

(** [SettingsService.CheckRunningChannels]. *)
Definition CheckRunningChannels : M (option error) :=
  let* r := ListChannels in
  match r with
  | inr e => ret (Some e)
  | inl channels =>
      if existsb (fun c => bool_decide (Status c = ChannelStatusRunning))
                 channels
      then ret (Some ErrChannelsRunning)
      else ret None
  end.

Definition validPresets : list string :=
  [ "ultrafast"; "superfast"; "veryfast"; "faster"; "fast"; "medium";
    "slow"; "slower"; "veryslow" ].

Definition validProfiles : list string := [ "baseline"; "main"; "high" ].

(** One [if field != nil { validate; assign }] block of [UpdateSettings]. *)
Definition validated {A} (field : option A) (ok : A -> bool) (msg : error)
    (current : A) : A + error :=
  match field with
  | None => inl current
  | Some v => if ok v then inl v else inr msg
  end.

Definition in_range (lo hi : Z) (v : Z) : bool := (lo <=? v) && (v <=? hi).

Definition to_document (s : Settings) : gmap string JSON :=
  list_to_map
    [ ("max_channels", JNum (MaxChannels s));
      ("segment_time", JNum (SegmentTime_ s));
      ("playlist_size", JNum (PlaylistSize_ s));
      ("log_retention", JNum (LogRetention s));
      ("default_preset", JStr (DefaultPreset_ s));
      ("default_bitrate", JStr (DefaultBitrate_ s));
      ("default_resolution", JStr (DefaultResolution s));
      ("default_profile", JStr (DefaultProfile s));
      ("default_crf", JNum (DefaultCRF s));
      ("default_maxrate", JStr (DefaultMaxrate s));
      ("default_bufsize", JStr (DefaultBufsize s)) ].

(** The field-by-field update of [UpdateSettings]; the first invalid field
    aborts it. *)
Definition apply_request (req : UpdateSettingsRequest) (current : Settings)
  : Settings + error :=
  match validated (req_MaxChannels req) (in_range 1 1000)
          "maksimum kanal sayısı 1-1000 arasında olmalıdır"
          (MaxChannels current) with
  | inr e => inr e
  | inl maxChannels =>
  match validated (req_SegmentTime req) (in_range 1 30)
          "segment süresi 1-30 saniye arasında olmalıdır"
          (SegmentTime_ current) with
  | inr e => inr e
  | inl segmentTime =>
  match validated (req_PlaylistSize req) (in_range 1 100)
          "playlist boyutu 1-100 arasında olmalıdır"
          (PlaylistSize_ current) with
  | inr e => inr e
  | inl playlistSize =>
  match validated (req_LogRetention req) (in_range 1 365)
          "log saklama süresi 1-365 gün arasında olmalıdır"
          (LogRetention current) with
  | inr e => inr e
  | inl logRetention =>
  match validated (req_DefaultPreset req)
          (fun p => bool_decide (p ∈ validPresets))
          ("geçersiz preset: " ++ default "" (req_DefaultPreset req))
          (DefaultPreset_ current) with
  | inr e => inr e
  | inl defaultPreset =>
  match validated (req_DefaultProfile req)
          (fun p => bool_decide (p ∈ validProfiles))
          ("geçersiz profil: " ++ default "" (req_DefaultProfile req))
          (DefaultProfile current) with
  | inr e => inr e
  | inl defaultProfile =>
  match validated (req_DefaultCRF req) (in_range 0 51)
          "CRF değeri 0-51 arasında olmalıdır" (DefaultCRF current) with
  | inr e => inr e
  | inl defaultCRF =>
      inl {| MaxChannels := maxChannels; SegmentTime_ := segmentTime;
             PlaylistSize_ := playlistSize; LogRetention := logRetention;
             DefaultPreset_ := defaultPreset;
             DefaultBitrate_ :=
               default (DefaultBitrate_ current) (req_DefaultBitrate req);
             DefaultResolution :=
               default (DefaultResolution current)
                       (req_DefaultResolution req);
             DefaultProfile := defaultProfile;
             DefaultCRF := defaultCRF;
             DefaultMaxrate :=
               default (DefaultMaxrate current) (req_DefaultMaxrate req);
             DefaultBufsize :=
               default (DefaultBufsize current) (req_DefaultBufsize req) |}
  end end end end end end end.

(** [SettingsService.UpdateSettings]. *)
Definition UpdateSettings (req : UpdateSettingsRequest)
  : M (Settings + error) :=
  let* err := CheckRunningChannels in
  match err with
  | Some e => ret (inr e)
  | None =>
      let* cur := GetSettings in
      match cur with
      | inr e => ret (inr e)
      | inl current =>
          match apply_request req current with
          | inr e => ret (inr e)
          | inl updated =>
              let* err := Postgres.UpdateSystemSettings (to_document updated) in
              match err with
              | Some e => ret (inr ("failed to save settings: " ++ e))
              | None => ret (inl updated)
              end
          end
      end
  end.

End Settings.

(** ** The HTTP control plane *)

Module Http.
Import GoStrings.

Definition StatusOK : Z := 200.
Definition StatusBadRequest : Z := 400.
Definition StatusUnauthorized : Z := 401.
Definition StatusForbidden : Z := 403.
Definition StatusNotFound : Z := 404.
Definition StatusMethodNotAllowed : Z := 405.
Definition StatusConflict : Z := 409.
Definition StatusInternalServerError : Z := 500.

Inductive Method := GET | POST | PUT | DELETE.

#[global] Instance Method_eq_dec : EqDecision Method.
Proof. solve_decision. Defined.

(** A request to the [/api/v1] group with one of the four methods the
    group registers routes for: the method, the path segments after the
    group prefix (trailing slashes dropped: the router is not strict) and
    the [Authorization] header (empty when absent). *)
Record Request := {
  method : Method;
  path : list string;
  authorization : string
}.

Inductive Handler :=
| Health
| AuthLogin | AuthLogout | AuthRefresh | AuthMe
| ChannelList | ChannelGet | ChannelMetrics | ChannelLogs | ChannelAllMetrics
| ChannelCreate | ChannelUpdate | ChannelDelete
| ChannelStart | ChannelStop | ChannelRestart
| BatchStart | BatchStop | BatchRestart | BatchDelete
| UploadLogo | DeleteLogo
| SettingsGet | SettingsUpdate
| SystemInfo.

#[global] Instance Handler_eq_dec : EqDecision Handler.
Proof. solve_decision. Defined.

Inductive Seg := Lit (s : string) | Param.

(** A registered route: method, pattern, the role given to [RequireRole]
    when that middleware is in its chain, and the final handler. *)
Record Route := {
  r_method : Method;
  r_pattern : list Seg;
  r_role : option UserRole;
  r_handler : Handler
}.

Definition route (m : Method) (p : list Seg) (role : option UserRole)
    (h : Handler) : Route :=
  {| r_method := m; r_pattern := p; r_role := role; r_handler := h |}.

(** The routes [SetupRoutes] registers before the [Authenticate]
    middleware, in registration order. *)
Definition public_routes : list Route :=
  [ route GET [Lit "health"] None Health;
    route POST [Lit "auth"; Lit "login"] None AuthLogin;
    route POST [Lit "auth"; Lit "logout"] None AuthLogout;
    route POST [Lit "auth"; Lit "refresh"] None AuthRefresh ].

(** The routes registered after it, in registration order. *)
Definition protected_routes : list Route :=
  [ route GET [Lit "auth"; Lit "me"] None AuthMe;
    route GET [Lit "channels"] None ChannelList;
    route POST [Lit "channels"; Lit "batch"; Lit "start"]
      (Some UserRoleOperator) BatchStart;
    route POST [Lit "channels"; Lit "batch"; Lit "stop"]
      (Some UserRoleOperator) BatchStop;
    route POST [Lit "channels"; Lit "batch"; Lit "restart"]
      (Some UserRoleOperator) BatchRestart;
    route POST [Lit "channels"; Lit "batch"; Lit "delete"]
      (Some UserRoleAdmin) BatchDelete;
    route GET [Lit "channels"; Lit "metrics"] None ChannelAllMetrics;
    route GET [Lit "channels"; Param] None ChannelGet;
    route GET [Lit "channels"; Param; Lit "metrics"] None ChannelMetrics;
    route GET [Lit "channels"; Param; Lit "logs"] None ChannelLogs;
    route POST [Lit "channels"] (Some UserRoleOperator) ChannelCreate;
    route PUT [Lit "channels"; Param] (Some UserRoleOperator) ChannelUpdate;
    route POST [Lit "channels"; Param; Lit "start"]
      (Some UserRoleOperator) ChannelStart;
    route POST [Lit "channels"; Param; Lit "stop"]
      (Some UserRoleOperator) ChannelStop;
    route POST [Lit "channels"; Param; Lit "restart"]
      (Some UserRoleOperator) ChannelRestart;
    route DELETE [Lit "channels"; Param] (Some UserRoleAdmin) ChannelDelete;
    route POST [Lit "uploads"; Lit "logo"] (Some UserRoleOperator) UploadLogo;
    route DELETE [Lit "uploads"; Lit "logo"; Param]
      (Some UserRoleOperator) DeleteLogo;
    route GET [Lit "settings"] (Some UserRoleAdmin) SettingsGet;
    route PUT [Lit "settings"] (Some UserRoleAdmin) SettingsUpdate;
    route GET [Lit "system"; Lit "info"] None SystemInfo ].

(** [utils.ToLower] of Fiber: the letters A to Z become a to z, every
    other byte stays. *)
Definition lower_byte (c : ascii) : ascii :=
  let n := nat_of_ascii c in
  if ((65 <=? n) && (n <=? 90))%nat then ascii_of_nat (n + 32) else c.

Fixpoint ToLower (s : string) : string :=
  match s with
  | EmptyString => EmptyString
  | String c s' => String (lower_byte c) (ToLower s')
  end.

(** Matching a path against a pattern. The application is created with
    the default configuration, which is not case sensitive: the router
    compares the lower-case forms of the registered path and of the
    request path. A parameter takes any segment that is not empty. *)
Fixpoint match_pattern (pat : list Seg) (p : list string) : bool :=
  match pat, p with
  | [], [] => true
  | Lit s :: pat', x :: p' =>
      bool_decide (ToLower s = ToLower x) && match_pattern pat' p'
  | Param :: pat', x :: p' =>
      negb (bool_decide (x = "")) && match_pattern pat' p'
  | _, _ => false
  end.

Definition matches (req : Request) (r : Route) : bool :=
  bool_decide (r_method r = method req)
  && match_pattern (r_pattern r) (path req).

(** The first registered route that matches. *)
Definition lookup_route (routes : list Route) (req : Request)
  : option Route :=
  List.find (matches req) routes.




Definition TrimPrefix (s p : string) : string :=
  if HasPrefix s p then
    String.substring (String.length p) (String.length s - String.length p) s
  else s.

Definition roleHierarchy : gmap string Z :=
  list_to_map
    [ (UserRoleViewer, 1); (UserRoleOperator, 2); (UserRoleAdmin, 3) ].

(** A Go map read: the zero value for a missing key. *)
Definition rank (role : UserRole) : Z := default 0 (roleHierarchy !! role).

Inductive Outcome :=
| Reached (h : Handler)
| Rejected (status : Z).

Section Server.

(** [AuthService.ValidateToken]: the role claim of a token whose signature
    and validity period check out, [None] otherwise. *)
Variable ValidateToken : string -> option UserRole.

(** [AuthMiddleware.Authenticate]: the role stored in the request context,
    or the status of the rejection. *)
Definition Authenticate (req : Request) : UserRole + Z :=
  let authHeader := authorization req in
  if decide (authHeader = "") then inr StatusUnauthorized
  else
    let token := TrimPrefix authHeader "Bearer " in
    if decide (token = authHeader) then inr StatusUnauthorized
    else
      match ValidateToken token with
      | None => inr StatusUnauthorized
      | Some role => inl role
      end.

(** [AuthMiddleware.RequireRole]; [local] is the [user_role] entry of the
    request context. [None] lets the request through. *)
Definition RequireRole (requiredRole : UserRole) (local : option UserRole)
  : option Z :=
  match local with
  | None => Some StatusUnauthorized
  | Some role =>
      if rank role <? rank requiredRole then Some StatusForbidden
      else None
  end.

(** Whether a route registered for another method matches the path: the
    router then answers 405 instead of 404. *)
Definition method_exists (req : Request) : bool :=
  existsb (fun r => negb (bool_decide (r_method r = method req))
                    && match_pattern (r_pattern r) (path req))
          (public_routes ++ protected_routes).

(** The handler stack of the [/api/v1] group as [SetupRoutes] builds it:
    public routes, then [Authenticate], then the protected routes, each
    with its own chain. A request that passed [Authenticate] and matches
    no route of its method is answered by the router: 405 when the path
    is registered for another method, 404 otherwise. *)
Definition serve (req : Request) : Outcome :=
  match lookup_route public_routes req with
  | Some r => Reached (r_handler r)
  | None =>
      match Authenticate req with
      | inr status => Rejected status
      | inl role =>
          match lookup_route protected_routes req with
          | None =>
              Rejected (if method_exists req then StatusMethodNotAllowed
                        else StatusNotFound)
          | Some r =>
              match r_role r with
              | None => Reached (r_handler r)
              | Some required =>
                  match RequireRole required (Some role) with
                  | Some status => Rejected status
                  | None => Reached (r_handler r)
                  end
              end
          end
      end
  end.

End Server.

(** *** The role table

    The role each handler asks for, in the words of the role-gating rule as
    amended: reading needs no role beyond a valid token, except reading the
    settings; changing channels, lifecycle operations and logo uploads need
    an operator; deleting channels and the settings need an
    administrator. *)
Definition needed (h : Handler) : option UserRole :=
  match h with
  | Health | AuthLogin | AuthLogout | AuthRefresh => None
  | AuthMe | ChannelList | ChannelGet | ChannelMetrics | ChannelLogs
  | ChannelAllMetrics | SystemInfo => None
  | ChannelCreate | ChannelUpdate | ChannelStart | ChannelStop
  | ChannelRestart | BatchStart | BatchStop | BatchRestart
  | UploadLogo | DeleteLogo => Some UserRoleOperator
  | ChannelDelete | BatchDelete | SettingsGet | SettingsUpdate =>
      Some UserRoleAdmin
  end.

Definition permitted (role : UserRole) (h : Handler) : bool :=
  match needed h with
  | None => true
  | Some required => negb (rank role <? rank required)
  end.

Definition public_handlers : list Handler :=
  [ Health; AuthLogin; AuthLogout; AuthRefresh ].

Definition viewer_handlers : list Handler :=
  [ AuthMe; ChannelList; ChannelGet; ChannelMetrics; ChannelLogs;
    ChannelAllMetrics; SystemInfo ].

Definition operator_handlers : list Handler :=
  [ ChannelCreate; ChannelUpdate; ChannelStart; ChannelStop; ChannelRestart;
    BatchStart; BatchStop; BatchRestart; UploadLogo; DeleteLogo ].

Definition admin_handlers : list Handler :=
  [ ChannelDelete; BatchDelete; SettingsGet; SettingsUpdate ].

(** *** The settings handler *)

Record Response := {
  status : Z;
  body_error : option string;
  body_data : option Settings.Settings
}.

Definition error_response (code : Z) (msg : string) : Response :=
  {| status := code; body_error := Some msg; body_data := None |}.

(** [SettingsHandler.Update]; [parsed] is the outcome of [c.BodyParser]. *)
Definition SettingsHandler_Update
    (parsed : Settings.UpdateSettingsRequest + error) : M Response :=
  match parsed with
  | inr err =>
      ret (error_response StatusBadRequest ("geçersiz istek gövdesi: " ++ err))
  | inl req =>
      let* err := Settings.CheckRunningChannels in
      match err with
      | Some e =>
          ret (error_response StatusConflict ("ayarlar güncellenemez: " ++ e))
      | None =>
          let* r := Settings.UpdateSettings req in
          match r with
          | inr e => ret (error_response StatusInternalServerError e)
          | inl settings =>
              ret {| status := StatusOK; body_error := None;
                     body_data := Some settings |}
          end
      end
  end.

End Http.

(** ** The channel and upload handlers

    [handlers/channel_handler.go] and the upload handler of
    [handlers/system_handler.go]. *)

Module Handlers.
Import GoStrings App Http.

Definition StatusCreated : Z := 201.
Definition StatusNoContent : Z := 204.

(** What a handler sends: the status and either an [error] text or the
    [data]. *)
Record Reply (A : Type) := {
  re_status : Z;
  re_error : option string;
  re_data : option A
}.

Arguments re_status {A} _.
Arguments re_error {A} _.
Arguments re_data {A} _.

Definition fail {A} (code : Z) (msg : string) : Reply A :=
  {| re_status := code; re_error := Some msg; re_data := None |}.

Definition send {A} (code : Z) (data : A) : Reply A :=
  {| re_status := code; re_error := None; re_data := Some data |}.

Record CreateChannelRequest := {
  cr_Name : string;
  cr_SourceURL : string;
  cr_Logo : option LogoConfig;
  cr_OutputConfig : option OutputConfig
}.

Record UpdateChannelRequest := {
  ur_Name : string;
  ur_SourceURL : string;
  ur_Logo : option LogoConfig;
  ur_OutputConfig : option OutputConfig
}.

Section ChannelHandler.

(** [uuid.Parse]: the identifier a text denotes, if any. *)
Variable uuid_Parse : string -> option uuid.

(** Whether the database accepts the values of a channel. *)
Variable row_ok : Channel -> bool.

(** [ChannelHandler.List]. *)
Definition List : M (Reply (list Channel)) :=
  let* r := ListChannels in
  match r with
  | inr err => ret (fail StatusInternalServerError err)
  | inl channels => ret (send StatusOK channels)
  end.

(** [ChannelHandler.Get]; [param] is the [id] parameter of the route. *)
Definition Get (param : string) : M (Reply Channel) :=
  match uuid_Parse param with
  | None => ret (fail StatusBadRequest "geçersiz kanal ID")
  | Some id =>
      let* r := GetChannel id in
      match r with
      | inr err => ret (fail StatusNotFound err)
      | inl channel => ret (send StatusOK channel)
      end
  end.

(** [ChannelHandler.Create]; [parsed] is the outcome of [c.BodyParser],
    [id] the identifier the service draws. *)
Definition Create (id : uuid) (parsed : CreateChannelRequest + error)
  : M (Reply Channel) :=
  match parsed with
  | inr _ => ret (fail StatusBadRequest "geçersiz istek gövdesi")
  | inl req =>
      let* r := CreateChannel row_ok id (cr_Name req) (cr_SourceURL req)
                  (cr_Logo req) (cr_OutputConfig req) in
      match r with
      | inr err => ret (fail StatusInternalServerError err)
      | inl channel => ret (send StatusCreated channel)
      end
  end.

(** [ChannelHandler.Update]. *)
Definition Update (param : string) (parsed : UpdateChannelRequest + error)
  : M (Reply Channel) :=
  match uuid_Parse param with
  | None => ret (fail StatusBadRequest "geçersiz kanal ID")
  | Some id =>
      match parsed with
      | inr _ => ret (fail StatusBadRequest "geçersiz istek gövdesi")
      | inl req =>
          let* r := UpdateChannel row_ok id (ur_Name req) (ur_SourceURL req)
                      (ur_Logo req) (ur_OutputConfig req) in
          match r with
          | inr err =>
              if decide (err = ErrChannelNotFound) then
                ret (fail StatusNotFound err)
              else if decide (err = ErrChannelRunning) then
                ret (fail StatusConflict "çalışan kanal güncellenemez")
              else ret (fail StatusInternalServerError err)
          | inl channel => ret (send StatusOK channel)
          end
      end
  end.

(** The shape [Delete], [Start], [Stop] and [Restart] share: parse the id,
    call the service, answer 500 on any error and a message otherwise. *)
Definition on_channel (service : uuid -> M (option error)) (message : string)
    (param : string) : M (Reply string) :=
  match uuid_Parse param with
  | None => ret (fail StatusBadRequest "geçersiz kanal ID")
  | Some id =>
      let* err := service id in
      match err with
      | Some e => ret (fail StatusInternalServerError e)
      | None => ret (send StatusOK message)
      end
  end.

(** [ChannelHandler.Delete], [Start], [Stop] and [Restart]. *)
Definition Delete := on_channel DeleteChannel "kanal silindi".
Definition Start := on_channel StartChannel "kanal başlatıldı".
Definition Stop := on_channel StopChannel "kanal durduruldu".
Definition Restart := on_channel RestartChannel "kanal yeniden başlatıldı".

(** [ChannelHandler.Metrics]. *)
Definition Metrics (param : string) : M (Reply TranscoderProcess) :=
  match uuid_Parse param with
  | None => ret (fail StatusBadRequest "geçersiz kanal ID")
  | Some id =>
      let* r := GetChannelMetrics id in
      match r with
      | inr _ =>
          ret (fail StatusNotFound
                 "kanal çalışmıyor veya metrikler mevcut değil")
      | inl metrics => ret (send StatusOK metrics)
      end
  end.

(** [ChannelHandler.Logs]. *)
Definition Logs (param : string) : M (Reply (list string)) :=
  match uuid_Parse param with
  | None => ret (fail StatusBadRequest "geçersiz kanal ID")
  | Some id =>
      let* r := GetChannelLogs id in
      match r with
      | inr err => ret (fail StatusNotFound err)
      | inl logs => ret (send StatusOK logs)
      end
  end.

(** The loop that parses the ids of a batch request: the first text that
    is no identifier ends it. *)
Fixpoint parse_ids (channelIDs : list string) : list uuid + string :=
  match channelIDs with
  | [] => inl []
  | idStr :: rest =>
      match uuid_Parse idStr with
      | None => inr idStr
      | Some id =>
          match parse_ids rest with
          | inl ids => inl (id :: ids)
          | inr bad => inr bad
          end
      end
  end.

(** The shape the four batch handlers share. [parsed] is the outcome of
    [c.BodyParser], the [channel_ids] of the body when it succeeds. The
    result is [None] when the service does not return. *)
Definition on_batch
    (service : list uuid -> list nat -> M (option BatchResult))
    (parsed : list string + error) (sched : list nat)
  : M (option (Reply BatchResult)) :=
  match parsed with
  | inr _ => ret (Some (fail StatusBadRequest "geçersiz istek gövdesi"))
  | inl channelIDs =>
      if decide (length channelIDs = 0%nat) then
        ret (Some (fail StatusBadRequest "en az bir kanal ID gerekli"))
      else
        match parse_ids channelIDs with
        | inr idStr =>
            ret (Some (fail StatusBadRequest ("geçersiz kanal ID: " ++ idStr)))
        | inl ids =>
            let* r := service ids sched in
            match r with
            | None => ret None
            | Some result => ret (Some (send StatusOK result))
            end
        end
  end.

(** [ChannelHandler.BatchStart], [BatchStop], [BatchRestart] and
    [BatchDelete]. *)
Definition BatchStart := on_batch BatchStartChannels.
Definition BatchStop := on_batch BatchStopChannels.
Definition BatchRestart := on_batch BatchRestartChannels.
Definition BatchDelete := on_batch BatchDeleteChannels.

End ChannelHandler.

(** [UploadHandler.DeleteLogo]; [filename] is the parameter of the route.
    [logoPath] is the configured directory, a cleaned path. [filepath.Join]
    cleans its result: of the names that pass the check only the dot
    segment is affected, and names the directory itself. *)
Definition DeleteLogo (logoPath : string) (filename : string)
  : M (Reply unit) :=
  if decide (filename = "") then
    ret (fail StatusBadRequest "dosya adı gerekli")
  else if Contains filename ".." || Contains filename "/" then
    ret (fail StatusBadRequest "geçersiz dosya adı")
  else
    let filePath :=
      if decide (filename = ".") then logoPath
      else filepath_Join logoPath filename in
    let* err := os_Remove filePath in
    match err with
    | Some ErrNotExist => ret (fail StatusNotFound "dosya bulunamadı")
    | Some _ => ret (fail StatusInternalServerError "dosya silinemedi")
    | None =>
        ret {| re_status := StatusNoContent; re_error := None;
               re_data := None |}
    end.

End Handlers.

(** ** Start-up ([cmd/server/main.go]) *)

Module Startup.

Definition defaultOutputConfig : OutputConfig :=
  {| out_Codec := "libx264"; out_Bitrate := "3500k";
     out_Resolution := "1920x1080"; out_Preset := "veryfast";
     out_Profile := "high" |}.

Section Cleanup.

(** Whether the database accepts the values of a channel. *)
Variable row_ok : Channel -> bool.

(** One iteration of the loop of [stopAllRunningChannels]; the results of
    the two statements are only logged. *)
Definition reset_channel (channel : Channel) : M unit :=
  let channel := set_OutputConfig (Some defaultOutputConfig) channel in
  Postgres.Update row_ok channel;;
  if bool_decide (Status channel = ChannelStatusRunning)
     || bool_decide (Status channel = ChannelStatusStarting)
  then Postgres.UpdateStatus (ID channel) ChannelStatusStopped;; ret tt
  else ret tt.

Fixpoint reset_channels (channels : list Channel) : M unit :=
  match channels with
  | [] => ret tt
  | channel :: rest => reset_channel channel;; reset_channels rest
  end.

(** [stopAllRunningChannels]. *)
Definition stopAllRunningChannels : M unit :=
  let* r := Postgres.GetAll in
  match r with
  | inr _ => ret tt
  | inl channels =>
      if decide (length channels = 0%nat) then ret tt
      else reset_channels channels
  end.

(** What an iteration for [channel] makes of a row. *)
Definition reset_row (channel : Channel) (row : Channel) : Channel :=
  let channel := set_OutputConfig (Some defaultOutputConfig) channel in
  let row := if row_ok channel then set_columns channel row else row in
  if bool_decide (Status channel = ChannelStatusRunning)
     || bool_decide (Status channel = ChannelStatusStarting)
  then set_Status ChannelStatusStopped row
  else row.

End Cleanup.

End Startup.

(** ** Concrete worlds *)

Module Examples.
Import Postgres FFmpeg App.

Definition quiet_host : Host :=
  {| NumCPU := 8; numactl_available := false; nvidia_available := false;
     mkdir_error := None; pipe_error := None; exec_error := None;
     setpriority_error := None;
     getpgid := fun pid => Some pid;
     term_response := fun _ => ExitsOnTerm;
     ReadFile := fun _ => None |}.


(** A host whose procfs reports a resident set of zero pages. *)
Definition zero_rss_host : Host :=
  {| NumCPU := 8; numactl_available := false; nvidia_available := false;
     mkdir_error := None; pipe_error := None; exec_error := None;
     setpriority_error := None;
     getpgid := fun pid => Some pid;
     term_response := fun _ => ExitsOnTerm;
     ReadFile := fun _ => Some "VmRSS:          0 kB" |}.

Definition channel_of (id : uuid) (auto : bool) : Channel :=
  {| ID := id; Name := "demo"; SourceURL := "http://src/a.m3u8";
     OutputURL := ""; Logo := None; OutputConfig_ := None; Status := ChannelStatusStopped;
     AutoRestart := auto |}.

Definition c1 : uuid := "0b5a4a5e-0000-4000-8000-000000000001".
Definition c2 : uuid := "0b5a4a5e-0000-4000-8000-000000000002".
Definition c3 : uuid := "0b5a4a5e-0000-4000-8000-000000000003".

(** A channel whose logo file does not exist. *)
Definition branded : Channel :=
  {| ID := c3; Name := "branded"; SourceURL := "http://src/b.m3u8";
     OutputURL := "";
     Logo := Some {| logo_Path := "missing.png"; logo_X := 10; logo_Y := 10;
                     logo_Width := 120; logo_Height := 60 |};
     OutputConfig_ := None; Status := ChannelStatusStopped;
     AutoRestart := true |}.

(** The manager as [main] sets it up: an empty table and the status
    callback bound to the channel repository. *)
Definition fresh_manager : ProcessManager :=
  {| processes := ∅;
     config := {| BinaryPath := "ffmpeg"; SegmentTime := 3; PlaylistSize := 6;
                  DefaultPreset := "veryfast"; DefaultBitrate := "3500k" |};
     hlsPath := "/var/hls"; logoPath := "/var/logos";
     statusCallback := Some UpdateStatus_db;
     numaNodeCount := 1; numaNodeCounter := 0 |}.

Definition boot (h : Host) : World :=
  {| host := h; now := 0; fs := ∅;
     db := {| db_up := true;
              channels := <[c1 := channel_of c1 true]>
                            (<[c2 := channel_of c2 false]>
                               (<[c3 := branded]> ∅));
              system_settings := None |};
     mgr := fresh_manager; next_pid := 4000; trace := [] |}.

Definition idle : World := boot quiet_host.

(** Channel [c1] has been started through the facade. *)
Definition running : World := exec (StartChannel c1) idle.

(** The same, on the host that reports no resident memory. *)
Definition running_zero_rss : World :=
  exec (StartChannel c1) (boot zero_rss_host).

(** The same world [d] nanoseconds later. *)
Definition later (d : Z) (w : World) : World := set_now (now w + d) w.

(** The process object of [c1] in [running]. *)
Definition child : Process :=
  {| ChannelID := c1; Channel_ := channel_of c1 true; Pid := 4000;
     StartedAt := 0;
     Metrics := {| met_Bitrate := ""; met_DropFrames := 0 |};
     Logs := [] |}.

(** A token table. *)
Definition demo_tokens (token : string) : option UserRole :=
  if decide (token = "viewer-token") then Some UserRoleViewer
  else if decide (token = "operator-token") then Some UserRoleOperator
  else if decide (token = "admin-token") then Some UserRoleAdmin
  else None.

(** A settings request that names the CRF only. *)
Definition crf_request (v : Z) : Settings.UpdateSettingsRequest :=
  {| Settings.req_MaxChannels := None; Settings.req_SegmentTime := None;
     Settings.req_PlaylistSize := None; Settings.req_LogRetention := None;
     Settings.req_DefaultPreset := None; Settings.req_DefaultBitrate := None;
     Settings.req_DefaultResolution := None;
     Settings.req_DefaultProfile := None;
     Settings.req_DefaultCRF := Some v; Settings.req_DefaultMaxrate := None;
     Settings.req_DefaultBufsize := None |}.

(** A parser of identifiers that accepts the canonical 36-character form
    only. *)
Definition canonical_only (s : string) : option uuid :=
  if decide (String.length s = 36%nat) then Some s else None.

(** A node directory with two nodes. *)
Definition two_nodes : list FFmpeg.DirEntry :=
  [ {| FFmpeg.de_Name := "node0"; FFmpeg.de_IsDir := true |};
    {| FFmpeg.de_Name := "node1"; FFmpeg.de_IsDir := true |};
    {| FFmpeg.de_Name := "possible"; FFmpeg.de_IsDir := false |} ].

(** A channel id that is not in the store. *)
Definition c9 : uuid := "0b5a4a5e-0000-4000-8000-000000000009".

End Examples.

(** ** Runs of the supervisor

    The parts of the manager that take its lock, as atomic operations that
    callers, watchers and the batch workers execute in some order. *)

Module Run.
Import FFmpeg.

Inductive Op :=
| OpStart (channel : Channel)
| OpStop (id : uuid)
| OpRestart (id : uuid)
| OpWatchExit (process : Process) (exitErr : option error)
| OpWatchRestart (process : Process)
| OpElapse (d : Z).

Definition run_op (o : Op) : M unit :=
  match o with
  | OpStart channel => Start channel;; ret tt
  | OpStop id => Stop id;; ret tt
  | OpRestart id => Restart id;; ret tt
  | OpWatchExit process exitErr => watch_exit process exitErr;; ret tt
  | OpWatchRestart process => watch_restart process
  | OpElapse d => timeout d
  end.

Fixpoint run_ops (ops : list Op) : M unit :=
  match ops with
  | [] => ret tt
  | o :: ops' => run_op o;; run_ops ops'
  end.

(** The LiveProcess records of channel [c] that the table holds. *)
Definition live_processes (c : uuid) (w : World) : list Process :=
  filter (fun p => ChannelID p = c)
         (snd <$> map_to_list (processes (mgr w))).

(** Every entry of the table sits under the id of its own channel. *)
Definition keyed (ps : gmap string Process) : Prop :=
  forall k p, ps !! k = Some p -> ChannelID p = k.

(** The two ways [Start] can end: with an error, and then no child was
    started and the table is as before; or with a new entry for a channel
    that had none. *)
Definition Start_failed (w w' : World) : Prop :=
  processes (mgr w') = processes (mgr w) /\ trace w' = trace w /\
  next_pid w' = next_pid w /\ db w' = db w /\ now w' = now w /\
  host w' = host w /\ statusCallback (mgr w') = statusCallback (mgr w) /\
  hlsPath (mgr w') = hlsPath (mgr w).

Definition Start_succeeded (channel : Channel) (w w' : World) : Prop :=
  processes (mgr w) !! ID channel = None /\
  exists p,
    ChannelID p = ID channel /\ Channel_ p = channel /\ Pid p = next_pid w /\
    StartedAt p = now w /\
    processes (mgr w') = <[ID channel := p]> (processes (mgr w)) /\
    next_pid w' = next_pid w + 1 /\ db w' = db w /\ now w' = now w /\
    host w' = host w /\ statusCallback (mgr w') = statusCallback (mgr w) /\
    hlsPath (mgr w') = hlsPath (mgr w).

End Run.

(** * Properties *)

(** Unfolding of the monad and of the record updates. *)
Ltac run :=
  unfold exec, eval, bind, gets, FFmpeg.modify_mgr, modify, ret, emit, Sleep,
    timeout;
  cbn [fst snd host now fs db mgr next_pid trace
       set_fs set_db set_mgr set_now set_next_pid
       processes config hlsPath logoPath statusCallback numaNodeCount
       numaNodeCounter set_processes set_numaNodeCounter set_statusCallback
       negb].

(** Case analysis on the innermost scrutinee, remembering the case. *)
Ltac crunch :=
  repeat (run;
          repeat match goal with
                 | H : ?x = _ |- context [match ?x with _ => _ end] =>
                     rewrite H
                 end;
          match goal with
          | |- context [match ?x with _ => _ end] =>
              lazymatch x with
              | context [match _ with _ => _ end] => fail
              | _ => destruct x eqn:?
              end
          end);
  run; try done.

(** ** The process manager *)

Module ManagerFacts.
Import Postgres FFmpeg Run.

Lemma under_refl (p : string) : under p p = true.
Proof. unfold under. by rewrite bool_decide_eq_true_2. Qed.

(** After [os.RemoveAll] neither the path nor anything below it exists. *)
Lemma removed_gone (p : string) (f : gset string) (q : string) :
  under p q = true -> q ∉ filter (fun q => under p q = false) f.
Proof. intros Hq. rewrite elem_of_filter, Hq. intros [? _]; discriminate. Qed.

Lemma delete_alter_same {A} (f : A -> A) (k : string) (m : gmap string A) :
  delete k (alter f k m) = delete k m.
Proof. rewrite delete_alter. by case_decide. Qed.

Lemma alter_absent {A} (f : A -> A) (k : string) (m : gmap string A) :
  m !! k = None -> alter f k m = m.
Proof.
  intros Hk. apply map_eq. intros j. rewrite lookup_alter.
  case_decide; [subst; by rewrite Hk|done].
Qed.

Lemma buildArgs_reads_only (channel : Channel) (outputDir : string)
    (n : nat) (w : World) :
  snd (buildArgs channel outputDir n w) = w.
Proof.
  unfold buildArgs, GetSystemSettings, stat_not_exist. run.
  destruct (Logo channel) as [logo|]; [|done].
  destruct (decide (logo_Path logo = "")); [done|]. run.
  by destruct (bool_decide _).
Qed.

Lemma command_line_effect (args : list string) (w : World) :
  exists n, snd (command_line args w)
            = set_mgr (set_numaNodeCounter n (mgr w)) w.
Proof.
  unfold command_line, getNextNUMANode. run.
  destruct (_ && _); run.
  - destruct (numaNodeCount (mgr w) <=? 1); run.
    + exists (numaNodeCounter (mgr w)). by destruct w as [? ? ? ? []].
    + by eexists.
  - exists (numaNodeCounter (mgr w)). by destruct w as [? ? ? ? []].
Qed.

Lemma Start_cases (channel : Channel) (w : World) :
  (exists e, fst (Start channel w) = Some e /\
             Start_failed w (snd (Start channel w))) \/
  (fst (Start channel w) = None /\
   Start_succeeded channel w (snd (Start channel w))).
Proof.
  unfold Start, Start_failed, Start_succeeded. run.
  destruct (decide (is_Some (processes (mgr w) !! ID channel))) as [Hin|Hout].
  { left. eexists. run. by repeat split. }
  unfold os_MkdirAll.
  destruct (mkdir_error (host w)) as [e|] eqn:Hmk; run.
  { left. eexists. by repeat split. }
  rewrite !buildArgs_reads_only.
  destruct (buildArgs _ _ _ _).1 as [args|e]; run.
  2:{ left. eexists. by repeat split. }
  destruct (command_line_effect args
    (set_fs ({[filepath_Join (hlsPath (mgr w)) (ID channel)]} ∪ fs w) w))
    as [n Hn].
  destruct (pipe_error (host w)) as [e|]; run.
  { left. eexists. rewrite Hn. by repeat split. }
  destruct (exec_error (host w)) as [e|]; run.
  { left. eexists. rewrite Hn. by repeat split. }
  right. unfold spawn. run. rewrite !Hn. run. split; [done|]. split.
  { apply eq_None_not_Some, Hout. }
  eexists. cbn [ChannelID Channel_ Pid StartedAt]. by repeat split.
Qed.

Lemma Start_rejects_running (channel : Channel) (w : World) :
  is_Some (processes (mgr w) !! ID channel) ->
  Start channel w =
    (Some ("channel " ++ ID channel ++ " is already running"), w).
Proof.
  intros Hin. unfold Start. run.
  by destruct (decide (is_Some (processes (mgr w) !! ID channel))).
Qed.

(** [Start] neither reads nor writes the database. *)
Lemma Start_ignores_db (channel : Channel) (d : Database) (w : World) :
  Start channel (set_db d w)
  = (fst (Start channel w), set_db d (snd (Start channel w))).
Proof.
  unfold Start, os_MkdirAll, buildArgs, GetSystemSettings, stat_not_exist,
    command_line, getNextNUMANode, spawn.
  crunch.
Qed.

Lemma Stop_returns_nil (id : uuid) (w : World) : fst (Stop id w) = None.
Proof.
  unfold Stop, signal_group, os_RemoveAll. run.
  destruct (processes (mgr w) !! id) as [p|]; run; [|done].
  by destruct (term_response (host w) (Pid p)).
Qed.

Lemma Stop_effect (id : uuid) (w : World) :
  processes (mgr (snd (Stop id w))) = delete id (processes (mgr w)) /\
  db (snd (Stop id w)) = db w /\
  next_pid (snd (Stop id w)) = next_pid w /\
  statusCallback (mgr (snd (Stop id w))) = statusCallback (mgr w) /\
  hlsPath (mgr (snd (Stop id w))) = hlsPath (mgr w) /\
  host (snd (Stop id w)) = host w /\
  (forall q, under (filepath_Join (hlsPath (mgr w)) id) q = true ->
             q ∉ fs (snd (Stop id w))).
Proof.
  unfold Stop, signal_group, os_RemoveAll. run.
  destruct (processes (mgr w) !! id) as [p|] eqn:Hp; run.
  - destruct (getpgid (host w) (Pid p)) eqn:Hg; run;
      destruct (term_response (host w) (Pid p)); run; rewrite ?Hg; run;
      repeat split; try done; intros q; apply removed_gone.
  - rewrite delete_id by done. repeat split; try done.
    intros q; apply removed_gone.
Qed.

(** The watcher takes the entry of its channel out of the table, whatever
    it decides afterwards. *)
Lemma watch_exit_table (process : Process) (exitErr : option error)
    (w : World) :
  processes (mgr (snd (watch_exit process exitErr w)))
  = delete (ChannelID process) (processes (mgr w)).
Proof.
  unfold watch_exit, call_statusCallback, os_RemoveAll. run.
  destruct (processes (mgr w) !! ChannelID process) as [p|] eqn:Hp.
  - rewrite bool_decide_eq_true_2
      by (rewrite lookup_alter_eq, Hp; by eexists).
    run. destruct (_ <? _); run.
    + destruct (statusCallback (mgr w)); run; apply delete_alter_same.
    + destruct (AutoRestart _); run; apply delete_alter_same.
  - rewrite bool_decide_eq_false_2
      by (rewrite lookup_alter_eq, Hp; intros [? ?]; discriminate).
    run. rewrite delete_id by done. by apply alter_absent.
Qed.

(** After the pause the watcher never changes the table and never starts a
    child: it calls [Start] only if it finds an entry, and then [Start]
    rejects the channel as already running. *)
Lemma watch_restart_never_starts (process : Process) (w : World) :
  ID (Channel_ process) = ChannelID process ->
  processes (mgr (snd (watch_restart process w))) = processes (mgr w) /\
  trace (snd (watch_restart process w)) = trace w /\
  next_pid (snd (watch_restart process w)) = next_pid w.
Proof.
  intros Hid. unfold watch_restart, IsRunning. run.
  destruct (decide (is_Some (processes (mgr w) !! ChannelID process)))
    as [Hin|Hout].
  - rewrite bool_decide_eq_true_2 by done. run.
    rewrite Start_rejects_running by (by rewrite Hid).
    unfold os_RemoveAll, call_statusCallback. run.
    by destruct (statusCallback (mgr w)); run.
  - rewrite bool_decide_eq_false_2 by done. unfold os_RemoveAll. by run.
Qed.

(** When the watcher does find an entry after the pause (the channel was
    started again by someone else meanwhile), its [Start] is rejected, it
    removes the output directory and reports status [error]. *)
Lemma watch_restart_rejected (process : Process) (w : World) :
  ID (Channel_ process) = ChannelID process ->
  is_Some (processes (mgr w) !! ChannelID process) ->
  statusCallback (mgr w) = Some UpdateStatus_db ->
  db_up (db w) = true ->
  channels (db (snd (watch_restart process w)))
  = alter (set_Status ChannelStatusError) (ChannelID process)
          (channels (db w)) /\
  (forall q,
     under (filepath_Join (hlsPath (mgr w)) (ChannelID process)) q = true ->
     q ∉ fs (snd (watch_restart process w))).
Proof.
  intros Hid Hin Hcb Hup. unfold watch_restart, IsRunning. run.
  rewrite bool_decide_eq_true_2 by done. run.
  rewrite Start_rejects_running by (by rewrite Hid).
  unfold os_RemoveAll, call_statusCallback. run. rewrite Hcb. run.
  unfold UpdateStatus_db. rewrite Hup. cbn [snd channels set_channels].
  split; [done|intros q; apply removed_gone].
Qed.

End ManagerFacts.

(** ** The watcher *)

Module WatcherFacts.
Import Postgres FFmpeg ManagerFacts Examples.

(** C1 (the code departs from the claim). A child of a channel with
    auto-restart exits after at least ten seconds while its entry is still
    in the table, and nothing else touches the manager during the pause.
    The watcher has removed the entry itself before sleeping, so its
    re-check after the pause finds none: it sleeps two seconds, removes the
    output directory and returns. [Start] is not called, no child is
    spawned, the table has no entry for the channel and the persisted status
    is left as it was. *)
Theorem watchProcess_skips_auto_restart (w : World) (process : Process)
    (exitErr : option error) :
  is_Some (processes (mgr w) !! ChannelID process) ->
  AutoRestart (Channel_ process) = true ->
  minUptimeForRestart <= now w - StartedAt process ->
  let w' := exec (watchProcess process exitErr (ret tt)) w in
  processes (mgr w') !! ChannelID process = None /\
  trace w' = (trace w ++ [EvSleep (2 * Second)])%list /\
  next_pid w' = next_pid w /\
  db w' = db w /\
  (forall q,
     under (filepath_Join (hlsPath (mgr w)) (ChannelID process)) q = true ->
     q ∉ fs w').
Proof.
  intros Hin Hauto Hup w'. subst w'.
  unfold watchProcess, watch_exit. run.
  rewrite bool_decide_eq_true_2 by (by rewrite lookup_alter_eq, fmap_is_Some).
  run. rewrite Hauto.
  destruct (Z.ltb_spec (now w - StartedAt process) minUptimeForRestart);
    [lia|].
  unfold watch_restart, IsRunning. run.
  rewrite bool_decide_eq_false_2
    by (rewrite lookup_delete_eq; intros [? ?]; discriminate).
  unfold os_RemoveAll. run.
  repeat split; try done.
  - apply lookup_delete_eq.
  - by apply removed_gone.
Qed.

Lemma watchProcess_skips_auto_restart_witness :
  let w := later (15 * Second) running in
  (is_Some (processes (mgr w) !! ChannelID child) /\
   AutoRestart (Channel_ child) = true /\
   minUptimeForRestart <= now w - StartedAt child) /\
  processes (mgr (exec (watchProcess child (Some "exit status 1") (ret tt)) w))
    !! c1 = None /\
  trace (exec (watchProcess child (Some "exit status 1") (ret tt)) w)
  = (trace w ++ [EvSleep (2 * Second)])%list.
Proof.
  intros w.
  assert (H1 : is_Some (processes (mgr w) !! ChannelID child))
    by (exists child; vm_compute; reflexivity).
  assert (H2 : AutoRestart (Channel_ child) = true) by reflexivity.
  assert (H3 : minUptimeForRestart <= now w - StartedAt child)
    by (vm_compute; discriminate).
  split; [auto|].
  destruct (watchProcess_skips_auto_restart w child (Some "exit status 1")
              H1 H2 H3) as (Ha & Hb & _).
  split; [exact Ha|exact Hb].
Defined.

(** C2. A child exits before ten seconds have passed since its start while
    its entry is still in the table (it was not stopped explicitly). With
    the status callback bound to the channel repository, as [main] binds
    it, and the database reachable, the watcher writes status [stopped]
    for the channel (every other row is untouched), the output directory
    is gone, the entry is out of the table, and no restart is attempted:
    the watcher neither sleeps nor starts anything, whatever the
    auto-restart flag of the channel says. *)
Theorem watchProcess_failed_to_start (w : World) (process : Process)
    (exitErr : option error) (pause : M unit) :
  is_Some (processes (mgr w) !! ChannelID process) ->
  now w - StartedAt process < minUptimeForRestart ->
  statusCallback (mgr w) = Some UpdateStatus_db ->
  db_up (db w) = true ->
  let w' := exec (watchProcess process exitErr pause) w in
  channels (db w')
    = alter (set_Status ChannelStatusStopped) (ChannelID process)
            (channels (db w)) /\
  (forall ch, channels (db w) !! ChannelID process = Some ch ->
     Status <$> (channels (db w') !! ChannelID process)
       = Some ChannelStatusStopped) /\
  (forall q,
     under (filepath_Join (hlsPath (mgr w)) (ChannelID process)) q = true ->
     q ∉ fs w') /\
  processes (mgr w') !! ChannelID process = None /\
  trace w' = trace w /\ now w' = now w /\ next_pid w' = next_pid w.
Proof.
  intros Hin Hup Hcb Hdb w'. subst w'.
  unfold watchProcess, watch_exit. run.
  rewrite bool_decide_eq_true_2 by (by rewrite lookup_alter_eq, fmap_is_Some).
  run.
  destruct (Z.ltb_spec (now w - StartedAt process) minUptimeForRestart);
    [|lia].
  unfold os_RemoveAll, call_statusCallback. run. rewrite Hcb. run.
  unfold UpdateStatus_db. rewrite Hdb. cbn [snd channels set_channels].
  repeat split; try done.
  - intros ch Hch. by rewrite lookup_alter_eq, Hch.
  - by apply removed_gone.
  - apply lookup_delete_eq.
Qed.

Lemma watchProcess_failed_to_start_witness :
  let w := later (5 * Second) running in
  (is_Some (processes (mgr w) !! ChannelID child) /\
   now w - StartedAt child < minUptimeForRestart /\
   statusCallback (mgr w) = Some UpdateStatus_db /\
   db_up (db w) = true) /\
  Status <$> (channels (db (exec (watchProcess child (Some "exit status 1")
                                     (ret tt)) w)) !! c1)
  = Some ChannelStatusStopped.
Proof.
  intros w.
  assert (H1 : is_Some (processes (mgr w) !! ChannelID child))
    by (exists child; vm_compute; reflexivity).
  assert (H2 : now w - StartedAt child < minUptimeForRestart)
    by (vm_compute; reflexivity).
  assert (H3 : statusCallback (mgr w) = Some UpdateStatus_db) by reflexivity.
  assert (H4 : db_up (db w) = true) by reflexivity.
  split; [auto|].
  destruct (watchProcess_failed_to_start w child (Some "exit status 1")
              (ret tt) H1 H2 H3 H4) as (_ & Hrow & _).
  apply (Hrow (set_Status ChannelStatusRunning (channel_of c1 true))).
  vm_compute. reflexivity.
Defined.

End WatcherFacts.

(** ** Reading metrics *)

Module MetricsReads.
Import FFmpeg.

Lemma getProcessStats_reads_only (pid : Z) (w : World) :
  snd (getProcessStats pid w) = w.
Proof. unfold getProcessStats. by run. Qed.

Lemma metrics_of_reads_only (id : uuid) (p : Process) (w : World) :
  snd (metrics_of id p w) = w.
Proof. unfold metrics_of. run. apply getProcessStats_reads_only. Qed.

Lemma metrics_all_reads_only (entries : list (string * Process))
    (w : World) :
  snd (metrics_all entries w) = w.
Proof.
  induction entries as [|[id p] entries IH]; [done|].
  cbn [metrics_all]. run. by rewrite metrics_of_reads_only, IH.
Qed.

End MetricsReads.

(** ** Runs and the table invariant *)

Module RunFacts.
Import Postgres FFmpeg ManagerFacts Run Examples.

Lemma keyed_delete (k : string) (ps : gmap string Process) :
  keyed ps -> keyed (delete k ps).
Proof.
  intros Hk j p. rewrite lookup_delete. case_decide; [done|apply Hk].
Qed.

Lemma keyed_insert (k : string) (p : Process) (ps : gmap string Process) :
  ChannelID p = k -> keyed ps -> keyed (<[k := p]> ps).
Proof.
  intros Hp Hk j q. rewrite lookup_insert.
  case_decide; [intros [= <-]; congruence|apply Hk].
Qed.

Lemma Start_keyed (channel : Channel) (w : World) :
  keyed (processes (mgr w)) ->
  keyed (processes (mgr (snd (Start channel w)))).
Proof.
  intros Hk.
  destruct (Start_cases channel w)
    as [(e & _ & Hp & _)|[_ (_ & p & Hid & _ & _ & _ & Hp & _)]];
    rewrite Hp; [done|by apply keyed_insert].
Qed.

Lemma run_op_keyed (o : Op) (w : World) :
  keyed (processes (mgr w)) -> keyed (processes (mgr (snd (run_op o w)))).
Proof.
  intros Hk. destruct o as [ch|id|id|p e|p|d]; unfold run_op; run.
  - by apply Start_keyed.
  - destruct (Stop_effect id w) as [-> _]. by apply keyed_delete.
  - unfold Restart. run. destruct (processes (mgr w) !! id); run; [|done].
    rewrite Stop_returns_nil. run. apply Start_keyed. run.
    destruct (Stop_effect id w) as [-> _]. by apply keyed_delete.
  - rewrite watch_exit_table. by apply keyed_delete.
  - unfold watch_restart, IsRunning, os_RemoveAll, call_statusCallback. run.
    destruct (bool_decide _); run; [|done].
    pose proof (Start_keyed (Channel_ p) w Hk) as Hs.
    destruct (Start (Channel_ p) w) as [[e|] w1]; run; [|done].
    simpl in Hs. by destruct (statusCallback (mgr w1)); run.
  - done.
Qed.

Lemma run_ops_keyed (ops : list Op) (w : World) :
  keyed (processes (mgr w)) -> keyed (processes (mgr (exec (run_ops ops) w))).
Proof.
  revert w. induction ops as [|o ops IH]; intros w Hk; [done|].
  cbn [run_ops]. run. apply IH. by apply run_op_keyed.
Qed.

Lemma filter_absent (c : string) (l : list (string * Process)) :
  (forall k p, (k, p) ∈ l -> ChannelID p = k) ->
  c ∉ l.*1 ->
  filter (fun p => ChannelID p = c) l.*2 = [].
Proof.
  induction l as [|[k p] l IH]; intros Hk Hc; [done|].
  cbn [fmap list_fmap snd]. rewrite filter_cons_False.
  - apply IH; [intros; apply Hk; by right|].
    intros ?; apply Hc; by right.
  - cbn. intros Hp. apply Hc. rewrite <- Hp, (Hk k p) by left. by left.
Qed.

Lemma at_most_one_keyed (c : string) (l : list (string * Process)) :
  (forall k p, (k, p) ∈ l -> ChannelID p = k) ->
  NoDup l.*1 ->
  (length (filter (fun p => ChannelID p = c) l.*2) <= 1)%nat.
Proof.
  induction l as [|[k p] l IH]; intros Hk Hnd; [cbn; lia|].
  cbn [fmap list_fmap fst snd] in *. apply NoDup_cons in Hnd as [Hkl Hnd].
  destruct (decide (ChannelID p = c)) as [Hp|Hp].
  - rewrite filter_cons_True by done.
    rewrite filter_absent; [cbn; lia|intros; apply Hk; by right|].
    rewrite <- Hp, (Hk k p) by left. done.
  - rewrite filter_cons_False by done. apply IH; [|done].
    intros; apply Hk; by right.
Qed.

Lemma live_processes_at_most_one (c : uuid) (w : World) :
  keyed (processes (mgr w)) -> (length (live_processes c w) <= 1)%nat.
Proof.
  intros Hk. unfold live_processes. apply at_most_one_keyed.
  - intros k p Hin. apply Hk. by apply elem_of_map_to_list.
  - apply NoDup_fst_map_to_list.
Qed.

(** The operations that take the read lock only read. *)
Lemma readers_keep_world (c : uuid) (w : World) :
  exec (IsRunning c) w = w /\ exec (GetLogs c) w = w /\
  exec (GetProcess c) w = w /\ exec GetAllProcesses w = w.
Proof.
  unfold IsRunning, GetLogs, GetProcess, GetAllProcesses. run.
  repeat split.
  - by destruct (processes (mgr w) !! c).
  - destruct (processes (mgr w) !! c); [|done]. run.
    apply MetricsReads.metrics_of_reads_only.
  - apply MetricsReads.metrics_all_reads_only.
Qed.

(** C3. From a manager with an empty table, after any sequence of the
    operations that take the manager lock ([Start], [Stop], [Restart], the
    two parts of a watcher, in any order and for any channels), the table
    holds at most one LiveProcess of any channel [c]. [Start] is what
    keeps it so: on a channel that has an entry it returns the
    [already running] error and changes nothing, and when it succeeds the
    channel had no entry before and has exactly one after. The operations
    that take the read lock change nothing at all. *)
Theorem at_most_one_live_process (w0 : World) (ops : list Op)
    (c : uuid) (channel : Channel) :
  processes (mgr w0) = ∅ ->
  let w := exec (run_ops ops) w0 in
  (length (live_processes c w) <= 1)%nat /\
  (is_Some (processes (mgr w) !! ID channel) ->
   Start channel w
   = (Some ("channel " ++ ID channel ++ " is already running"), w)) /\
  (eval (Start channel) w = None ->
   processes (mgr w) !! ID channel = None /\
   live_processes (ID channel) w = [] /\
   length (live_processes (ID channel) (exec (Start channel) w)) = 1%nat) /\
  (exec (IsRunning c) w = w /\ exec (GetLogs c) w = w /\
   exec (GetProcess c) w = w /\ exec GetAllProcesses w = w).
Proof.
  intros Hempty w.
  assert (Hk : keyed (processes (mgr w))).
  { apply run_ops_keyed. rewrite Hempty. intros k p.
    by rewrite lookup_empty. }
  split; [by apply live_processes_at_most_one|].
  split; [apply Start_rejects_running|].
  split; [|apply readers_keep_world].
  intros Hok.
  destruct (Start_cases channel w)
    as [(e & He & _)|[_ (Hnone & p & Hid & _ & _ & _ & Hp & _)]].
  { unfold eval in Hok. congruence. }
  split; [done|]. split.
  - unfold live_processes. apply filter_absent.
    + intros k q Hin. apply Hk. by apply elem_of_map_to_list.
    + intros Hin. apply list_elem_of_fmap in Hin as ([k q] & Heq & Hin).
      apply elem_of_map_to_list in Hin. cbn in Heq. congruence.
  - assert (Hk' : keyed (processes (mgr (exec (Start channel) w))))
      by (by apply Start_keyed).
    pose proof (live_processes_at_most_one (ID channel) _ Hk') as Hle.
    assert (Hin : p ∈ live_processes (ID channel) (exec (Start channel) w)).
    { unfold live_processes, exec. rewrite Hp. apply list_elem_of_filter.
      split; [done|]. apply list_elem_of_fmap. exists (ID channel, p).
      split; [done|]. apply elem_of_map_to_list, lookup_insert_eq. }
    destruct (live_processes _ _) as [|? [|? ?]]; cbn in *;
      [by apply not_elem_of_nil in Hin|done|lia].
Qed.

Lemma at_most_one_live_process_witness :
  let ops := [ OpStart (channel_of c1 true); OpStart (channel_of c1 true);
               OpWatchExit child None; OpStart (channel_of c1 true);
               OpStop c2 ] in
  processes (mgr idle) = ∅ /\
  (length (live_processes c1 (exec (run_ops ops) idle)) <= 1)%nat /\
  Start (channel_of c1 true) (exec (run_ops ops) idle)
  = (Some ("channel " ++ c1 ++ " is already running"),
     exec (run_ops ops) idle).
Proof.
  intros ops. split; [reflexivity|].
  destruct (at_most_one_live_process idle ops c1 (channel_of c1 true)
              eq_refl) as (Hone & Hrej & _).
  split; [exact Hone|]. apply Hrej.
  eexists. vm_compute. reflexivity.
Defined.

End RunFacts.

(** ** The facade *)

Module FacadeFacts.
Import Postgres FFmpeg App ManagerFacts Run Examples.

Lemma GetByID_found (id : uuid) (w : World) (ch : Channel) :
  eval (GetByID id) w = inl ch ->
  db_up (db w) = true /\ channels (db w) !! id = Some ch.
Proof.
  unfold GetByID. run. destruct (db_up (db w)); [|done].
  destruct (channels (db w) !! id); [|done]. by intros [= ->].
Qed.

Lemma IsRunning_true (id : uuid) (w : World) :
  eval (IsRunning id) w = true <-> is_Some (processes (mgr w) !! id).
Proof. unfold IsRunning. run. apply bool_decide_eq_true. Qed.

Lemma IsRunning_false (id : uuid) (w : World) :
  eval (IsRunning id) w = false <-> processes (mgr w) !! id = None.
Proof.
  unfold IsRunning. run. rewrite bool_decide_eq_false.
  by rewrite eq_None_not_Some.
Qed.

Lemma UpdateStatus_up (id : uuid) (st : ChannelStatus) (w : World) :
  db_up (db w) = true ->
  UpdateStatus id st w
  = (None, set_db (set_channels (alter (set_Status st) id (channels (db w)))
                                (db w)) w).
Proof. intros Hup. unfold UpdateStatus, UpdateStatus_db. by rewrite Hup. Qed.

(** C4. For a channel that exists in the store: if it is not running,
    [StopChannel] returns no error, leaves the persisted status [stopped]
    and does not touch the manager; if it is running, [StartChannel]
    returns no error, leaves the persisted status [running], and neither
    changes the manager nor spawns a child. *)
Theorem facade_lifecycle_idempotent (w : World) (id : uuid) (ch : Channel) :
  eval (GetByID id) w = inl ch ->
  (eval (IsRunning id) w = false ->
   eval (StopChannel id) w = None /\
   Status <$> (channels (db (exec (StopChannel id) w)) !! id)
     = Some ChannelStatusStopped /\
   mgr (exec (StopChannel id) w) = mgr w /\
   trace (exec (StopChannel id) w) = trace w) /\
  (eval (IsRunning id) w = true ->
   eval (StartChannel id) w = None /\
   Status <$> (channels (db (exec (StartChannel id) w)) !! id)
     = Some ChannelStatusRunning /\
   mgr (exec (StartChannel id) w) = mgr w /\
   trace (exec (StartChannel id) w) = trace w /\
   next_pid (exec (StartChannel id) w) = next_pid w).
Proof.
  intros Hget. pose proof (GetByID_found _ _ _ Hget) as [Hup Hrow].
  split; intros Hrun.
  - apply IsRunning_false in Hrun.
    unfold StopChannel, GetByID, IsRunning. run. rewrite Hup, Hrow. run.
    rewrite bool_decide_eq_false_2 by (by rewrite Hrun; intros [? ?]). run.
    rewrite UpdateStatus_up by done. run. cbn [channels set_channels].
    rewrite lookup_alter_eq, Hrow. by destruct w.
  - apply IsRunning_true in Hrun.
    unfold StartChannel, GetByID, IsRunning. run. rewrite Hup, Hrow. run.
    rewrite bool_decide_eq_true_2 by done. run.
    rewrite UpdateStatus_up by done. run. cbn [channels set_channels].
    rewrite lookup_alter_eq, Hrow. by destruct w.
Qed.

Lemma facade_lifecycle_idempotent_witness :
  (eval (GetByID c2) running = inl (channel_of c2 false) /\
   eval (IsRunning c2) running = false) /\
  eval (StopChannel c2) running = None /\
  Status <$> (channels (db (exec (StopChannel c2) running)) !! c2)
  = Some ChannelStatusStopped.
Proof.
  assert (H1 : eval (GetByID c2) running = inl (channel_of c2 false))
    by (vm_compute; reflexivity).
  assert (H2 : eval (IsRunning c2) running = false)
    by (vm_compute; reflexivity).
  split; [auto|].
  destruct (facade_lifecycle_idempotent running c2 _ H1) as [Hstop _].
  destruct (Hstop H2) as (Ha & Hb & _). split; [exact Ha|exact Hb].
Defined.

(** C7, the claim as stated fails: the manager's [Restart] of a channel
    that is not running returns the [not running] error and starts
    nothing, where a plain [Start] of the channel succeeds. *)
Lemma Restart_of_idle_channel_fails :
  eval (Restart c2) idle
  = Some ("channel " ++ c2 ++ " is not running") /\
  exec (Restart c2) idle = idle /\
  eval (Start (channel_of c2 false)) idle = None.
Proof.
  split; [reflexivity|]. split; [reflexivity|]. vm_compute. reflexivity.
Qed.

(** C7, as amended. The manager's [Restart] of a running channel is [Stop],
    a pause of one second, then [Start] of the channel snapshot; on a
    channel that is not running it returns the [not running] error and
    changes nothing. The facade's [RestartChannel] is what degenerates: on
    every channel that is not running it is exactly [StartChannel]; on a
    running one it is [StopChannel], a pause of 500 ms, then
    [StartChannel]. *)
Theorem restart_is_stop_pause_start (w : World) (id : uuid) :
  (forall p, processes (mgr w) !! id = Some p ->
     Restart id w = (Stop id;; Sleep Second;; Start (Channel_ p)) w) /\
  (processes (mgr w) !! id = None ->
     Restart id w = (Some ("channel " ++ id ++ " is not running"), w)) /\
  (eval (IsRunning id) w = false ->
     RestartChannel id w = StartChannel id w) /\
  (forall ch, eval (IsRunning id) w = true ->
     eval (GetByID id) w = inl ch ->
     RestartChannel id w
     = (StopChannel id;; Sleep (500 * Millisecond);; StartChannel id) w).
Proof.
  repeat split.
  - intros p Hp. unfold Restart. run. rewrite Hp. run.
    by rewrite Stop_returns_nil.
  - intros Hp. unfold Restart. run. by rewrite Hp.
  - intros Hrun. apply IsRunning_false in Hrun.
    unfold RestartChannel, GetByID, IsRunning. run.
    destruct (db_up (db w)) eqn:Hup;
      [destruct (channels (db w) !! id) eqn:Hrow|]; run.
    + by rewrite bool_decide_eq_false_2 by (by rewrite Hrun; intros [? ?]).
    + unfold StartChannel, GetByID. run. by rewrite Hup, Hrow.
    + unfold StartChannel, GetByID. run. by rewrite Hup.
  - intros ch Hrun Hget. apply IsRunning_true in Hrun.
    pose proof (GetByID_found _ _ _ Hget) as [Hup Hrow].
    assert (Hstop : (StopChannel id w).1 = None).
    { unfold StopChannel, GetByID, IsRunning. run. rewrite Hup, Hrow. run.
      rewrite bool_decide_eq_true_2 by done. run.
      rewrite UpdateStatus_up by done. run. rewrite Stop_returns_nil. run.
      unfold UpdateStatus, UpdateStatus_db. run.
      destruct (Stop_effect id (set_db
        (set_channels (alter (set_Status ChannelStatusStopping) id
                             (channels (db w))) (db w)) w))
        as (_ & -> & _).
      run. cbn [db_up set_channels]. by rewrite Hup. }
    unfold RestartChannel. unfold GetByID at 1. unfold IsRunning at 1. run.
    rewrite Hup, Hrow. run. rewrite bool_decide_eq_true_2 by done. run.
    by rewrite Hstop.
Qed.

Lemma restart_is_stop_pause_start_witness :
  (processes (mgr running) !! c1 = Some child /\
   eval (IsRunning c2) running = false) /\
  Restart c1 running
  = (Stop c1;; Sleep Second;; Start (Channel_ child)) running /\
  RestartChannel c2 running = StartChannel c2 running.
Proof.
  assert (H1 : processes (mgr running) !! c1 = Some child)
    by (vm_compute; reflexivity).
  assert (H2 : eval (IsRunning c2) running = false)
    by (vm_compute; reflexivity).
  split; [auto|].
  destruct (restart_is_stop_pause_start running c1) as (Ha & _).
  destruct (restart_is_stop_pause_start running c2) as (_ & _ & Hc & _).
  split; [exact (Ha child H1)|exact (Hc H2)].
Defined.



End FacadeFacts.

(** ** The batch coordinator *)

Module BatchFacts.
Import App Examples.

Section Collect.
Variable processFunc : uuid -> M (option error).
Variable concurrentLimit : nat.
Variable delayBetweenBatches : Z.
Hypothesis workers : (0 < concurrentLimit)%nat.

(** With at least one worker and a job left, some worker holds a job. *)
Lemma held_nonempty (remaining : nat) (queue inflight : list uuid) :
  S remaining = (length queue + length inflight)%nat ->
  (0 < length (inflight ++ take (concurrentLimit - length inflight) queue))%nat.
Proof.
  intros Hrem. rewrite length_app, length_take.
  destruct inflight as [|? ?]; cbn in *; [|lia].
  destruct queue; cbn in *; lia.
Qed.

(** The loop returns, and what it adds to the two lists is the completion
    order split by outcome. *)
Lemma collect_accounts (sched : list nat) (i remaining : nat)
    (queue inflight : list uuid) (result : BatchResult) (w : World) :
  remaining = (length queue + length inflight)%nat ->
  let order :=
    completion_order concurrentLimit sched remaining queue inflight in
  exists r,
    fst (collect processFunc concurrentLimit delayBetweenBatches sched
           i remaining queue inflight result w) = Some r /\
    (exists s f,
       Success r = (Success result ++ s)%list /\
       Failed r = (Failed result ++ f)%list /\
       sublist s order /\ sublist (be_ChannelID <$> f) order /\
       (s ++ (be_ChannelID <$> f))%list ≡ₚ order) /\
    order ≡ₚ (queue ++ inflight)%list.
Proof.
  revert sched i queue inflight result w.
  induction remaining as [|remaining IH];
    intros sched i queue inflight result w Hrem order.
  - destruct queue, inflight; try discriminate. subst order. cbn.
    exists result. split; [done|]. split; [|done].
    exists [], []. by rewrite !app_nil_r.
  - subst order. cbn [collect completion_order].
    pose proof (held_nonempty _ _ _ Hrem) as Hheld.
    set (free := (concurrentLimit - length inflight)%nat) in *.
    set (held := (inflight ++ take free queue)%list) in *.
    set (k := (hd 0%nat sched mod length held)%nat).
    assert (Hk : (k < length held)%nat) by (apply Nat.mod_upper_bound; lia).
    destruct (lookup_lt_is_Some_2 held k Hk) as [id Hid]. rewrite Hid.
    unfold bind at 1. unfold bind at 1.
    set (w1 := snd (processFunc id w)). set (err := fst (processFunc id w)).
    set (w2 := snd (_ w1)).
    assert (Hperm : held ≡ₚ id :: delete k held)
      by (by apply delete_Permutation).
    assert (Hrem' : remaining
                    = (length (drop free queue) + length (delete k held))%nat).
    { pose proof (Permutation_length Hperm) as Hl'. cbn in Hl'.
      subst held. rewrite length_app, length_take in Hl'.
      rewrite length_drop. lia. }
    destruct (IH (tl sched) (S i) (drop free queue) (delete k held)
                 (add_job id err result) w2 Hrem')
      as (r & Hr & (s & f & Hs & Hf & Hss & Hsf & Hp) & Hord).
    exists r. split; [exact Hr|]. split.
    + destruct err as [e|]; cbn [add_job Success Failed] in Hs, Hf.
      * exists s, ({| be_ChannelID := id; be_Error := e |} :: f).
        split; [done|]. split; [by rewrite Hf, <- List.app_assoc|].
        cbn [fmap list_fmap be_ChannelID].
        split; [by apply sublist_cons|]. split; [by apply sublist_skip|].
        etrans; [symmetry; apply Permutation_middle|]. by constructor.
      * exists (id :: s), f.
        split; [by rewrite Hs, <- List.app_assoc|]. split; [done|].
        split; [by apply sublist_skip|]. split; [by apply sublist_cons|].
        cbn. by constructor.
    + rewrite Hord. transitivity (held ++ drop free queue)%list.
      * rewrite Hperm at 2. cbn. constructor. apply Permutation_app_comm.
      * subst held. rewrite <- List.app_assoc, take_drop.
        apply Permutation_app_comm.
Qed.

End Collect.

Lemma batchProcess_accounts (processFunc : uuid -> M (option error))
    (concurrentLimit : nat) (delay : Z) (ids : list uuid)
    (sched : list nat) (w : World) :
  (0 < concurrentLimit)%nat ->
  accounted ids concurrentLimit sched
    (fst (batchProcess ids processFunc concurrentLimit delay sched w)).
Proof.
  intros Hlim. unfold accounted, batchProcess.
  destruct ids as [|id0 ids0] eqn:Hids.
  { exists {| Success := []; Failed := [] |}. cbn.
    repeat split; try done; constructor. }
  rewrite <- Hids. clear Hids.
  destruct (collect_accounts processFunc concurrentLimit delay Hlim sched
              0 (length ids) ids [] {| Success := []; Failed := [] |} w)
    as (r & Hr & (s & f & Hs & Hf & Hss & Hsf & Hp) & Hord).
  { cbn. lia. }
  cbn [Success Failed app] in Hs, Hf. rewrite app_nil_r in Hord.
  exists r. split; [exact Hr|].
  assert (Hall : result_ids r ≡ₚ ids).
  { unfold result_ids. rewrite Hs, Hf, Hp. exact Hord. }
  split.
  { apply Permutation_length in Hall. unfold result_ids in Hall.
    by rewrite length_app, length_fmap in Hall. }
  split; [intros id Hin; by rewrite <- Hall|].
  by rewrite Hs, Hf.
Qed.

(** C5. For every list of ids, every order in which the workers may finish
    and every state of the system, each of the four batch operations
    returns a result whose success ids and failed entries together number
    exactly the input ids, every id in the result is an input id, and both
    lists follow the order in which the jobs finished. That order need not
    be the input order: stopping [c1; c2] with the second job finishing
    first reports [c2; c1]. *)
Theorem batch_result_accounts_for_every_id (ids : list uuid)
    (sched : list nat) (w : World) :
  accounted ids 5 sched (eval (BatchStartChannels ids sched) w) /\
  accounted ids 5 sched (eval (BatchStopChannels ids sched) w) /\
  accounted ids 3 sched (eval (BatchRestartChannels ids sched) w) /\
  accounted ids 5 sched (eval (BatchDeleteChannels ids sched) w) /\
  eval (BatchStopChannels [c1; c2] [1%nat]) running
  = Some {| Success := [c2; c1]; Failed := [] |}.
Proof.
  split; [|split; [|split; [|split]]];
    try (apply batchProcess_accounts; lia).
  vm_compute. reflexivity.
Qed.

End BatchFacts.

(** ** The settings *)

Module SettingsFacts.
Import Postgres App Settings Http Examples.

(** Filling in the output URL does not touch the status. *)
Lemma running_with_OutputURL (l : list Channel) :
  existsb (fun c => bool_decide (Status c = ChannelStatusRunning))
          (with_OutputURL <$> l)
  = existsb (fun c => bool_decide (Status c = ChannelStatusRunning)) l.
Proof. induction l as [|c l IH]; [done|]. cbn. by rewrite <- IH. Qed.

Lemma CheckRunningChannels_reads_only (w : World) :
  snd (CheckRunningChannels w) = w.
Proof.
  unfold CheckRunningChannels, ListChannels, GetAll. run.
  destruct (db_up (db w)); run; [|done]. by destruct (existsb _ _).
Qed.

Lemma CheckRunningChannels_running (w : World) (id : uuid) (ch : Channel) :
  channels (db w) !! id = Some ch -> Status ch = ChannelStatusRunning ->
  exists e, fst (CheckRunningChannels w) = Some e.
Proof.
  intros Hrow Hst. unfold CheckRunningChannels, ListChannels, GetAll. run.
  destruct (db_up (db w)); run; [|by eexists].
  rewrite running_with_OutputURL.
  assert (Hex : existsb
            (fun c => bool_decide (Status c = ChannelStatusRunning))
            (snd <$> map_to_list (channels (db w))) = true).
  { apply existsb_exists. exists ch. split.
    - apply list_elem_of_In, list_elem_of_fmap. exists (id, ch).
      split; [done|]. by apply elem_of_map_to_list.
    - by apply bool_decide_eq_true_2. }
  rewrite Hex. by eexists.
Qed.

(** C6, the claim as stated fails: with a channel persisted as [running],
    a settings update whose body does not parse is answered with 400, not
    409. *)
Lemma settings_update_malformed_body_not_409 :
  (exists id ch, channels (db running) !! id = Some ch /\
                 Status ch = ChannelStatusRunning) /\
  status (eval (SettingsHandler_Update (inr "unexpected end of JSON input"))
               running) = StatusBadRequest /\
  StatusBadRequest <> StatusConflict.
Proof.
  split; [|split; [reflexivity|discriminate]].
  exists c1. eexists. split; [vm_compute; reflexivity|reflexivity].
Qed.

(** C6, as amended. While at least one channel has persisted status
    [running], a settings update that reaches the handler leaves the
    world, the stored settings document included, exactly as it was and
    carries no settings in its answer; the status is 409 when the body
    parses and 400 when it does not. *)
Theorem settings_update_rejected_while_running (w : World) (id : uuid)
    (ch : Channel) (parsed : UpdateSettingsRequest + error) :
  channels (db w) !! id = Some ch ->
  Status ch = ChannelStatusRunning ->
  exec (SettingsHandler_Update parsed) w = w /\
  body_data (eval (SettingsHandler_Update parsed) w) = None /\
  status (eval (SettingsHandler_Update parsed) w)
  = match parsed with
    | inl _ => StatusConflict
    | inr _ => StatusBadRequest
    end.
Proof.
  intros Hrow Hst. unfold SettingsHandler_Update.
  destruct parsed as [req|err]; run; [|done].
  rewrite CheckRunningChannels_reads_only.
  destruct (CheckRunningChannels_running w id ch Hrow Hst) as [e ->].
  done.
Qed.

Lemma settings_update_rejected_while_running_witness :
  let req :=
    {| req_MaxChannels := None; req_SegmentTime := Some 4;
       req_PlaylistSize := None; req_LogRetention := None;
       req_DefaultPreset := None; req_DefaultBitrate := None;
       req_DefaultResolution := None; req_DefaultProfile := None;
       req_DefaultCRF := None; req_DefaultMaxrate := None;
       req_DefaultBufsize := None |} in
  let ch := set_Status ChannelStatusRunning (channel_of c1 true) in
  (channels (db running) !! c1 = Some ch /\
   Status ch = ChannelStatusRunning) /\
  exec (SettingsHandler_Update (inl req)) running = running /\
  status (eval (SettingsHandler_Update (inl req)) running) = StatusConflict.
Proof.
  intros req ch.
  assert (H1 : channels (db running) !! c1 = Some ch)
    by (vm_compute; reflexivity).
  assert (H2 : Status ch = ChannelStatusRunning) by reflexivity.
  split; [auto|].
  destruct (settings_update_rejected_while_running running c1 ch (inl req)
              H1 H2) as (Ha & _ & Hc).
  split; [exact Ha|exact Hc].
Defined.

End SettingsFacts.

(** ** Role gating *)

Module HttpFacts.
Import GoStrings Http Examples.

Lemma append_cons (c : ascii) (p s : string) :
  String c p ++ s = String c (p ++ s).
Proof. reflexivity. Qed.

Lemma length_append (p s : string) :
  String.length (p ++ s) = (String.length p + String.length s)%nat.
Proof.
  induction p as [|c p IH]; [done|].
  rewrite append_cons. cbn [String.length]. by rewrite IH.
Qed.

Lemma prefix_append (p s : string) : String.prefix p (p ++ s) = true.
Proof.
  induction p as [|c p IH]; [by destruct s|].
  rewrite append_cons. cbn [String.prefix].
  by destruct (ascii_dec c c).
Qed.

Lemma substring_all (s : string) :
  String.substring 0 (String.length s) s = s.
Proof. induction s as [|c s IH]; cbn; [done|by rewrite IH]. Qed.

Lemma substring_append (p s : string) :
  String.substring (String.length p)
    (String.length (p ++ s) - String.length p) (p ++ s) = s.
Proof.
  rewrite length_append, Nat.add_comm, Nat.add_sub.
  induction p as [|c p IH]; [apply substring_all|].
  rewrite append_cons. exact IH.
Qed.

Lemma TrimPrefix_append (p s : string) : TrimPrefix (p ++ s) p = s.
Proof.
  unfold TrimPrefix, HasPrefix. rewrite prefix_append.
  apply substring_append.
Qed.

Lemma append_longer (p s : string) : p <> "" -> s <> p ++ s.
Proof.
  intros Hp Heq. apply (f_equal String.length) in Heq.
  rewrite length_append in Heq. destruct p; [done|]. cbn in Heq. lia.
Qed.

(** The route table of [SetupRoutes] asks each handler for the role the
    role table gives it. *)
Lemma routes_follow_table :
  Forall (fun r => r_role r = needed (r_handler r))
         (public_routes ++ protected_routes).
Proof. repeat constructor. Qed.

Lemma lookup_route_elem (routes : list Route) (req : Request) (r : Route) :
  lookup_route routes req = Some r -> r ∈ routes.
Proof.
  unfold lookup_route. intros H. apply find_some in H as [H _].
  by apply list_elem_of_In.
Qed.

Section Gate.
Variable ValidateToken : string -> option UserRole.

Lemma Authenticate_status (req : Request) (s : Z) :
  Authenticate ValidateToken req = inr s -> s = StatusUnauthorized.
Proof.
  unfold Authenticate. repeat case_decide; try by intros [= <-].
  destruct (ValidateToken _); [done|by intros [= <-]].
Qed.

(** C9, as amended. For every token validator and every request to the
    API group, with one of the methods GET, POST, PUT and DELETE, that is
    not one of the public routes (health, login, logout, refresh): without
    a valid bearer token (no header, no [Bearer ] prefix,
    or a token the validator rejects) the answer is 401; with a valid one
    the request reaches the handler of the first matching route exactly
    when the role of the token is permitted for that handler, and is
    answered 403 otherwise (when no route of its method matches: 405 if
    the path is registered for another method, else 404). Paths are
    matched without regard to letter case. What is permitted
    is the role table: a viewer reaches every read handler except the
    settings; an operator additionally creates and updates channels, runs
    single and batch start, stop and restart, and uploads and deletes
    logos; an administrator reaches every handler, deletion of channels
    (single and batch) and reading and writing the settings included. *)
Theorem role_gating (req : Request) :
  lookup_route public_routes req = None ->
  match Authenticate ValidateToken req with
  | inr _ => serve ValidateToken req = Rejected StatusUnauthorized
  | inl role =>
      match lookup_route protected_routes req with
      | None =>
          serve ValidateToken req
          = Rejected (if method_exists req then StatusMethodNotAllowed
                      else StatusNotFound)
      | Some r =>
          serve ValidateToken req
          = if permitted role (r_handler r) then Reached (r_handler r)
            else Rejected StatusForbidden
      end
  end /\
  (authorization req = "" ->
   Authenticate ValidateToken req = inr StatusUnauthorized) /\
  (forall token, authorization req = "Bearer " ++ token ->
     Authenticate ValidateToken req
     = match ValidateToken token with
       | Some role => inl role
       | None => inr StatusUnauthorized
       end) /\
  (forall h, permitted UserRoleViewer h
             = bool_decide (h ∈ (public_handlers ++ viewer_handlers)%list)) /\
  (forall h, permitted UserRoleOperator h
             = bool_decide (h ∈ (public_handlers ++ viewer_handlers
                                 ++ operator_handlers)%list)) /\
  (forall h, permitted UserRoleAdmin h = true) /\
  (forall h, h ∈ (public_handlers ++ viewer_handlers ++ operator_handlers
                  ++ admin_handlers)%list).
Proof.
  intros Hpub. split; [|split; [|split; [|split; [|split; [|split]]]]].
  - unfold serve. rewrite Hpub.
    destruct (Authenticate ValidateToken req) as [role|s] eqn:Hauth.
    + destruct (lookup_route protected_routes req) as [r|] eqn:Hr; [|done].
      pose proof routes_follow_table as Htab.
      rewrite Forall_forall in Htab.
      assert (Hrole : r_role r = needed (r_handler r)).
      { apply Htab. apply elem_of_app. right.
        by eapply lookup_route_elem. }
      unfold permitted, RequireRole. rewrite <- Hrole.
      destruct (r_role r) as [required|]; [|done].
      by destruct (rank role <? rank required).
    + by rewrite (Authenticate_status _ _ Hauth).
  - intros Hh. unfold Authenticate. rewrite Hh. by case_decide.
  - intros token Hh. unfold Authenticate. rewrite Hh.
    rewrite TrimPrefix_append.
    case_decide as H0; [by destruct token|].
    case_decide as H1; [by apply append_longer in H1|].
    done.
  - intros h. by destruct h.
  - intros h. by destruct h.
  - intros h. by destruct h.
  - intros h. eapply bool_decide_eq_true_1. by destruct h.
Qed.

End Gate.

(** C9, the claim as stated fails: a viewer cannot read the settings. *)
Lemma viewer_cannot_read_settings :
  serve demo_tokens
    {| method := GET; path := ["settings"];
       authorization := "Bearer viewer-token" |}
  = Rejected StatusForbidden.
Proof. vm_compute. reflexivity. Qed.

Lemma role_gating_witness :
  let req := {| method := POST; path := ["channels"; "Batch"; "delete"];
                authorization := "Bearer operator-token" |} in
  lookup_route public_routes req = None /\
  serve demo_tokens req = Rejected StatusForbidden /\
  permitted UserRoleOperator BatchStart = true.
Proof.
  intros req.
  assert (H1 : lookup_route public_routes req = None) by reflexivity.
  split; [exact H1|].
  destruct (role_gating demo_tokens req H1) as (Ha & _ & _ & _ & Hop & _).
  split; [exact Ha|]. rewrite Hop. reflexivity.
Defined.

End HttpFacts.

(** ** Metrics *)

Module MetricsFacts.
Import GoStrings FFmpeg MetricsReads Examples.

Lemma getProcessStats_nonzero (pid : Z) (w : World) :
  fst (getProcessStats pid w) <> 0.
Proof.
  unfold getProcessStats. run.
  by destruct (decide (_ = 0)).
Qed.

Lemma metrics_of_memory (id : uuid) (p : Process) (w : World) :
  snd (metrics_of id p w) = w /\
  tp_MemoryUsage (fst (metrics_of id p w)) <> 0.
Proof.
  unfold metrics_of. run. rewrite getProcessStats_reads_only.
  split; [done|]. cbn [tp_MemoryUsage]. apply getProcessStats_nonzero.
Qed.

Lemma metrics_all_memory (entries : list (string * Process)) (w : World) :
  snd (metrics_all entries w) = w /\
  Forall (fun tp => tp_MemoryUsage tp <> 0) (fst (metrics_all entries w)).
Proof.
  induction entries as [|[id p] entries [IHw IH]]; [by split|].
  cbn [metrics_all]. run.
  destruct (metrics_of_memory id p w) as [-> Hm]. rewrite IHw.
  split; [done|]. by constructor.
Qed.

(** C10. The memory figure [getProcessStats] returns for a pid is never
    zero: when [/proc/<pid>/status] cannot be read, or its [VmRSS] line is
    missing, unparsable or yields zero bytes, the figure is the placeholder
    104857600 (100 MiB); otherwise it is the scanned value. Hence every
    record returned by [GetProcess] or [GetAllProcesses] has a non-zero
    memory usage. *)
Theorem memory_usage_never_zero (w : World) (pid : Z) (id : uuid) :
  let statusPath := "/proc/" ++ pretty pid ++ "/status" in
  let memoryUsage := eval (getProcessStats pid) w in
  memoryUsage <> 0 /\
  (ReadFile (host w) statusPath = None -> memoryUsage = 104857600) /\
  (forall data, ReadFile (host w) statusPath = Some data ->
     scanVmRSS (ScanLines data) = 0 -> memoryUsage = 104857600) /\
  (forall data, ReadFile (host w) statusPath = Some data ->
     scanVmRSS (ScanLines data) <> 0 ->
     memoryUsage = scanVmRSS (ScanLines data)) /\
  (forall tp, eval (GetProcess id) w = inl tp -> tp_MemoryUsage tp <> 0) /\
  (forall tps, eval GetAllProcesses w = inl tps ->
     Forall (fun tp => tp_MemoryUsage tp <> 0) tps).
Proof.
  intros statusPath memoryUsage.
  split; [apply getProcessStats_nonzero|].
  subst memoryUsage statusPath. unfold getProcessStats. run.
  split; [by intros ->|].
  split; [by intros data -> ->|].
  split; [intros data -> Hnz; by destruct (decide (_ = 0))|].
  split.
  - intros tp. unfold GetProcess. run.
    destruct (processes (mgr w) !! id) as [p|]; run; [|done].
    intros [= <-]. apply metrics_of_memory.
  - intros tps. unfold GetAllProcesses. run. intros [= <-].
    apply metrics_all_memory.
Qed.

Lemma memory_usage_never_zero_witness :
  let data := "VmRSS:          0 kB" in
  (ReadFile (host running_zero_rss) ("/proc/" ++ pretty 4000 ++ "/status")
   = Some data /\
   scanVmRSS (ScanLines data) = 0) /\
  eval (getProcessStats 4000) running_zero_rss = 104857600 /\
  match eval (GetProcess c1) running_zero_rss with
  | inl tp => tp_MemoryUsage tp
  | inr _ => 0
  end = 104857600.
Proof.
  intros data.
  assert (H1 : ReadFile (host running_zero_rss)
                 ("/proc/" ++ pretty 4000 ++ "/status") = Some data)
    by reflexivity.
  assert (H2 : scanVmRSS (ScanLines data) = 0) by (vm_compute; reflexivity).
  split; [auto|].
  destruct (memory_usage_never_zero running_zero_rss 4000 c1)
    as (_ & _ & Hz & _).
  split; [exact (Hz data H1 H2)|]. vm_compute. reflexivity.
Defined.

End MetricsFacts.

(** ** Start-up clean-up *)

Module StartupFacts.
Import Postgres Startup.

Lemma reset_channel_effect (row_ok : Channel -> bool) (c : Channel)
    (w : World) :
  db_up (db w) = true ->
  let w' := exec (reset_channel row_ok c) w in
  db_up (db w') = true /\ mgr w' = mgr w /\ fs w' = fs w /\
  trace w' = trace w /\
  forall k, channels (db w') !! k
            = if decide (k = ID c)
              then reset_row row_ok c <$> channels (db w) !! k
              else channels (db w) !! k.
Proof.
  intros Hup. unfold reset_channel, reset_row, Update, UpdateStatus,
    UpdateStatus_db.
  run. rewrite Hup. cbn [Status set_OutputConfig ID].
  destruct (row_ok _); run; cbn [db_up set_channels channels]; rewrite ?Hup;
    destruct (_ || _); run; cbn [db_up set_channels channels fst snd];
    rewrite ?Hup; cbn [fst snd db set_db db_up set_channels channels];
    (repeat split; try done); intros k; rewrite ?lookup_alter;
    case_decide; subst; try done;
    try (by destruct (decide _); [|congruence]);
    rewrite ?decide_True by done; by destruct (channels (db w) !! ID c).
Qed.

Lemma reset_channels_effect (row_ok : Channel -> bool) (l : list Channel) :
  forall w,
  db_up (db w) = true ->
  NoDup (ID <$> l) ->
  let w' := exec (reset_channels row_ok l) w in
  mgr w' = mgr w /\ fs w' = fs w /\ trace w' = trace w /\
  (forall c, c ∈ l ->
     channels (db w') !! ID c = reset_row row_ok c <$> channels (db w) !! ID c) /\
  (forall k, k ∉ ID <$> l -> channels (db w') !! k = channels (db w) !! k).
Proof.
  induction l as [|c l IH]; intros w Hup Hnd w'.
  { subst w'. cbn. repeat split; try done. intros c Hc. by apply elem_of_nil in Hc. }
  subst w'. cbn [reset_channels]. run.
  change (snd (reset_channel row_ok c w)) with (exec (reset_channel row_ok c) w).
  destruct (reset_channel_effect row_ok c w Hup) as (Hup1 & Hm1 & Hf1 & Ht1 & Hl1).
  cbn [fmap list_fmap] in Hnd. apply NoDup_cons in Hnd as [Hc Hnd].
  destruct (IH (exec (reset_channel row_ok c) w) Hup1 Hnd)
    as (Hm & Hf & Ht & Hin & Hout).
  change (snd (reset_channels row_ok l (exec (reset_channel row_ok c) w)))
    with (exec (reset_channels row_ok l) (exec (reset_channel row_ok c) w)).
  split; [congruence|]. split; [congruence|]. split; [congruence|]. split.
  - intros c' Hc'. apply elem_of_cons in Hc' as [->|Hc'].
    + rewrite Hout by done. rewrite Hl1. by rewrite decide_True.
    + rewrite Hin by done. rewrite Hl1. rewrite decide_False; [done|].
      intros Heq. apply Hc. rewrite <- Heq. by apply list_elem_of_fmap_2.
  - intros k Hk. cbn [fmap list_fmap] in Hk.
    apply not_elem_of_cons in Hk as [Hk1 Hk2].
    rewrite Hout by done. rewrite Hl1. by rewrite decide_False.
Qed.


(** X1. Start-up clean-up. With the database reachable, after
    [stopAllRunningChannels] every channel is still there under its id and
    is neither [running] nor [starting]: those two become [stopped], every
    other status is kept. Name, source, logo and restart flag are kept;
    the output configuration is the 3500k default whenever the database
    accepts the row. No row appears, and nothing outside the channel table
    changes. *)
Theorem startup_cleanup_stops_every_channel (row_ok : Channel -> bool)
    (w : World) :
  db_up (db w) = true ->
  map_Forall (fun k c => ID c = k) (channels (db w)) ->
  let w' := exec (stopAllRunningChannels row_ok) w in
  (forall id row, channels (db w) !! id = Some row ->
     exists row',
       channels (db w') !! id = Some row' /\
       (Status row' <> ChannelStatusRunning) /\
       (Status row' <> ChannelStatusStarting) /\
       (Status row = ChannelStatusRunning \/
        Status row = ChannelStatusStarting ->
        Status row' = ChannelStatusStopped) /\
       (Status row <> ChannelStatusRunning ->
        Status row <> ChannelStatusStarting ->
        Status row' = Status row) /\
       (ID row' = id) /\ (Name row' = Name row) /\
       (SourceURL row' = SourceURL row) /\ (Logo row' = Logo row) /\
       (AutoRestart row' = AutoRestart row) /\
       (row_ok (set_OutputConfig (Some defaultOutputConfig) row) = true ->
        OutputConfig_ row' = Some defaultOutputConfig)) /\
  (forall id, channels (db w) !! id = None -> channels (db w') !! id = None) /\
  mgr w' = mgr w /\ fs w' = fs w /\ trace w' = trace w.
Proof.
  intros Hup Hkeyed w'. subst w'. unfold stopAllRunningChannels, GetAll. run.
  rewrite Hup.
  set (l := (map_to_list (channels (db w))).*2).
  assert (Hids : ID <$> l = (map_to_list (channels (db w))).*1).
  { subst l. rewrite <- list_fmap_compose. apply list_fmap_ext.
    intros i [k c] Hi. cbn. apply (Hkeyed k c).
    apply elem_of_map_to_list. by eapply list_elem_of_lookup_2. }
  assert (Hnd : NoDup (ID <$> l)) by (rewrite Hids; apply NoDup_fst_map_to_list).
  destruct (reset_channels_effect row_ok l w Hup Hnd)
    as (Hm & Hf & Ht & Hin & Hout).
  destruct (decide (length l = 0%nat)) as [Hnil|Hne]; run.
  { apply length_zero_iff_nil in Hnil. split; [|done].
    intros id row Hrow. apply elem_of_map_to_list in Hrow.
    assert (Hl : row ∈ l)
      by (subst l; apply list_elem_of_fmap; by exists (id, row)).
    rewrite Hnil in Hl. by apply elem_of_nil in Hl. }
  change (snd (reset_channels row_ok l w))
    with (exec (reset_channels row_ok l) w).
  split; [|split; [|done]].
  - intros id row Hrow. pose proof (Hkeyed id row Hrow) as Hid. cbn in Hid.
    assert (Hl : row ∈ l).
    { subst l. apply list_elem_of_fmap. exists (id, row). split; [done|].
      by apply elem_of_map_to_list. }
    specialize (Hin row Hl). rewrite Hid, Hrow in Hin. cbn in Hin.
    eexists. split; [exact Hin|]. unfold reset_row.
    cbn [Status set_OutputConfig].
    destruct (row_ok _); destruct (Status row) eqn:Hs;
      repeat (first [rewrite bool_decide_eq_true_2 by done
                    |rewrite bool_decide_eq_false_2 by done]);
      cbn; rewrite ?Hs;
      repeat split; try done; try (by intros [|]); try congruence.
  - intros id Hnone. rewrite Hout; [done|]. rewrite Hids.
    intros Hk. apply list_elem_of_fmap in Hk as ([k c] & -> & Hkc).
    apply elem_of_map_to_list in Hkc. cbn in Hnone. congruence.
Qed.

Lemma startup_cleanup_stops_every_channel_witness :
  (db_up (db Examples.running) = true /\
   map_Forall (fun k c => ID c = k) (channels (db Examples.running))) /\
  Status <$> (channels (db Examples.running) !! Examples.c1)
    = Some ChannelStatusRunning /\
  Status <$> (channels (db (exec (stopAllRunningChannels (fun _ => true))
                                 Examples.running)) !! Examples.c1)
    = Some ChannelStatusStopped.
Proof.
  assert (H1 : db_up (db Examples.running) = true) by reflexivity.
  assert (H2 : map_Forall (fun k c => ID c = k)
                 (channels (db Examples.running))).
  { apply (bool_decide_unpack _). vm_compute. exact I. }
  split; [by split|]. split; [vm_compute; reflexivity|].
  destruct (startup_cleanup_stops_every_channel (fun _ => true)
              Examples.running H1 H2) as (Hrows & _).
  destruct (Hrows Examples.c1
              (set_Status ChannelStatusRunning
                 (Examples.channel_of Examples.c1 true)))
    as (row' & Hrow' & _ & _ & Hstop & _).
  { vm_compute. reflexivity. }
  rewrite Hrow'. cbn. f_equal. apply Hstop. by left.
Defined.

End StartupFacts.

(** ** The channel service: create, edit, delete *)

Module ServiceFacts.
Import Postgres FFmpeg App ManagerFacts FacadeFacts Run Examples.

(** X2. A channel that was created can be read back. When [CreateChannel]
    returns a channel, name and source are the non-empty texts given, the
    status is [stopped], automatic restart is on, the logo is the one
    given, the output configuration is the one given or else the 5000k
    default, and it carries no output URL. The id was free before.
    [GetChannel] on it now returns a channel that agrees with it on id,
    name, source, status and restart flag, and that carries the output URL
    of the stream. No other row and nothing of the manager changed. *)
Theorem CreateChannel_round_trip (row_ok : Channel -> bool) (id : uuid)
    (name sourceURL : string) (logo : option LogoConfig)
    (output : option OutputConfig) (w : World) (ch : Channel) :
  eval (CreateChannel row_ok id name sourceURL logo output) w = inl ch ->
  let w' := exec (CreateChannel row_ok id name sourceURL logo output) w in
  (exists got,
     eval (GetChannel id) w' = inl got /\ same_columns got ch /\
     OutputURL got = stream_url id) /\
  (ID ch = id) /\ (Name ch = name) /\ (SourceURL ch = sourceURL) /\
  (name <> "") /\ (sourceURL <> "") /\
  (Status ch = ChannelStatusStopped) /\ (AutoRestart ch = true) /\
  (Logo ch = logo) /\
  (OutputConfig_ ch
   = Some (default {| out_Codec := "libx264"; out_Bitrate := "5000k";
                      out_Resolution := "1920x1080";
                      out_Preset := "ultrafast"; out_Profile := "high" |}
                   output)) /\
  (OutputURL ch = "") /\
  (channels (db w) !! id = None) /\
  (forall k, k <> id -> channels (db w') !! k = channels (db w) !! k) /\
  mgr w' = mgr w.
Proof.
  intros Hok w'. subst w'. revert Hok.
  unfold CreateChannel, GetChannel, GetByID, Create. run.
  destruct (bool_decide (name = "")) eqn:Hn; [done|].
  destruct (bool_decide (sourceURL = "")) eqn:Hs; [done|].
  apply bool_decide_eq_false in Hn, Hs. cbn [orb]. run.
  destruct (db_up (db w)) eqn:Hup; [|done].
  destruct (row_ok _); [|done].
  destruct logo as [l|], output as [o|]; cbn [ID set_Logo set_OutputConfig NewChannel];
    (destruct (channels (db w) !! id) eqn:Hrow; [done|]);
    run; intros [= <-]; cbn [db_up set_channels channels db set_db];
    rewrite Hup, lookup_insert_eq; cbn;
    (split; [eexists; split; [reflexivity|by repeat split]|]);
    (repeat split; try done); intros k Hk; by rewrite lookup_insert_ne.
Qed.

Lemma CreateChannel_round_trip_witness :
  let mk := CreateChannel (fun _ => true) c9
              "news" "http://src/n.m3u8" None None in
  exists ch got,
    eval mk idle = inl ch /\
    eval (GetChannel c9) (exec mk idle) = inl got /\
    Name got = Name ch /\ OutputURL ch = "" /\
    OutputURL got = stream_url c9.
Proof.
  intros mk. eexists.
  pose proof (CreateChannel_round_trip (fun _ => true)
                c9 "news"
                "http://src/n.m3u8" None None idle _ eq_refl) as H.
  destruct H as ((got & Hgot & Hsame & Hurl) & H).
  exists got. split; [reflexivity|]. split; [exact Hgot|].
  split; [exact (proj1 (proj2 Hsame))|]. split; [reflexivity|exact Hurl].
Defined.

(** X3. A creation that fails stores nothing. Whenever [CreateChannel]
    returns an error the world is as before; with an empty name or an
    empty source the error is [ErrInvalidChannel], whatever the state of
    the database, and an id that is already taken is an error too. *)
Theorem CreateChannel_failure_stores_nothing (row_ok : Channel -> bool)
    (id : uuid) (name sourceURL : string) (logo : option LogoConfig)
    (output : option OutputConfig) (w : World) :
  let c := CreateChannel row_ok id name sourceURL logo output in
  (forall e, eval c w = inr e -> exec c w = w) /\
  (name = "" \/ sourceURL = "" -> eval c w = inr ErrInvalidChannel) /\
  (is_Some (channels (db w) !! id) -> exists e, eval c w = inr e).
Proof.
  intros c. subst c. unfold CreateChannel, Create. run.
  destruct (bool_decide (name = "")) eqn:Hn;
    [apply bool_decide_eq_true in Hn|apply bool_decide_eq_false in Hn];
    cbn [orb].
  { repeat split; try done. by eexists. }
  destruct (bool_decide (sourceURL = "")) eqn:Hs;
    [apply bool_decide_eq_true in Hs|apply bool_decide_eq_false in Hs];
    cbn [orb].
  { repeat split; try done. by eexists. }
  run. split; [|split; [by intros [|]|]].
  - intros e. destruct (db_up (db w)); [|done].
    destruct (row_ok _); [|done].
    destruct logo, output; cbn [ID set_Logo set_OutputConfig NewChannel];
      by destruct (channels (db w) !! id).
  - intros [row Hrow]. destruct (db_up (db w)); [|by eexists].
    destruct (row_ok _); [|by eexists].
    destruct logo, output; cbn [ID set_Logo set_OutputConfig NewChannel];
      rewrite Hrow; by eexists.
Qed.

Lemma CreateChannel_failure_stores_nothing_witness :
  let c := CreateChannel (fun _ => true) c1 "" "http://src/n.m3u8" None None in
  eval c idle = inr ErrInvalidChannel /\ exec c idle = idle.
Proof.
  intros c.
  destruct (CreateChannel_failure_stores_nothing (fun _ => true) c1 ""
              "http://src/n.m3u8" None None idle) as (Hsame & Hinv & _).
  assert (He : eval c idle = inr ErrInvalidChannel) by (apply Hinv; by left).
  split; [exact He|exact (Hsame _ He)].
Defined.

(** How [UpdateChannel] fails. *)
Lemma UpdateChannel_errors (row_ok : Channel -> bool) (id : uuid)
    (name sourceURL : string) (logo : option LogoConfig)
    (output : option OutputConfig) (w : World) :
  let c := UpdateChannel row_ok id name sourceURL logo output in
  (forall ch, eval (GetByID id) w = inl ch ->
     eval (IsRunning id) w = true -> eval c w = inr ErrChannelRunning) /\
  (forall e, eval (GetByID id) w = inr e ->
     eval c w = inr ErrChannelNotFound) /\
  (forall e, eval c w = inr e -> exec c w = w).
Proof.
  intros c. subst c. unfold UpdateChannel, Update. run.
  destruct (GetByID id w) as [[ch|e] w1] eqn:Hget.
  all: assert (w1 = w) as -> by (unfold GetByID in Hget; run;
                                  by inversion Hget).
  all: cbn [fst snd].
  2:{ repeat split; try done. }
  unfold IsRunning. run.
  destruct (bool_decide (is_Some (processes (mgr w) !! id))) eqn:Hrun.
  { repeat split; try done. }
  run. split; [by intros ? _ [=]|]. split; [by intros ? [=]|].
  intros e. destruct (db_up (db w)); [|done]. by destruct (row_ok _).
Qed.

(** X4. A running channel cannot be edited. [UpdateChannel] on a channel
    that has a process answers [ErrChannelRunning], on an id the store
    does not know [ErrChannelNotFound]; and whenever it returns an error,
    these two included, the world is as before. *)
Theorem UpdateChannel_refuses_running (row_ok : Channel -> bool) (id : uuid)
    (name sourceURL : string) (logo : option LogoConfig)
    (output : option OutputConfig) (w : World) :
  let c := UpdateChannel row_ok id name sourceURL logo output in
  (forall ch, eval (GetByID id) w = inl ch ->
     eval (IsRunning id) w = true -> eval c w = inr ErrChannelRunning) /\
  (forall e, eval (GetByID id) w = inr e ->
     eval c w = inr ErrChannelNotFound) /\
  (forall e, eval c w = inr e -> exec c w = w).
Proof.
  exact (UpdateChannel_errors row_ok id name sourceURL logo output w).
Qed.

Lemma UpdateChannel_refuses_running_witness :
  let c := UpdateChannel (fun _ => true) c1 "renamed" "" None None in
  (eval (GetByID c1) running = inl (set_Status ChannelStatusRunning
                                      (channel_of c1 true)) /\
   eval (IsRunning c1) running = true) /\
  eval c running = inr ErrChannelRunning /\
  exec c running = running.
Proof.
  intros c.
  assert (H1 : eval (GetByID c1) running
               = inl (set_Status ChannelStatusRunning (channel_of c1 true)))
    by (vm_compute; reflexivity).
  assert (H2 : eval (IsRunning c1) running = true) by (vm_compute; reflexivity).
  destruct (UpdateChannel_refuses_running (fun _ => true) c1 "renamed" ""
              None None running) as (Hrun & _ & Hsame).
  split; [by split|].
  pose proof (Hrun _ H1 H2) as He. split; [exact He|exact (Hsame _ He)].
Defined.

(** What a successful [UpdateChannel] stores. *)
Lemma UpdateChannel_stored (row_ok : Channel -> bool) (id : uuid)
    (name sourceURL : string) (logo : option LogoConfig)
    (output : option OutputConfig) (w : World) (old ch : Channel) :
  eval (GetByID id) w = inl old ->
  ID old = id ->
  eval (UpdateChannel row_ok id name sourceURL logo output) w = inl ch ->
  let w' := exec (UpdateChannel row_ok id name sourceURL logo output) w in
  (exists got,
     eval (GetChannel id) w' = inl got /\ same_columns got ch /\
     OutputURL got = stream_url id) /\
  (ID ch = id) /\ (Status ch = Status old) /\
  (AutoRestart ch = AutoRestart old) /\
  (Name ch = if decide (name = "") then Name old else name) /\
  (SourceURL ch = if decide (sourceURL = "") then SourceURL old
                  else sourceURL) /\
  (Logo ch = logo) /\
  (OutputConfig_ ch = match output with
                      | Some _ => output
                      | None => OutputConfig_ old
                      end) /\
  (OutputURL ch = OutputURL old) /\
  (eval (IsRunning id) w = false) /\
  (forall k, k <> id -> channels (db w') !! k = channels (db w) !! k) /\
  mgr w' = mgr w /\ fs w' = fs w /\ trace w' = trace w.
Proof.
  intros Hget Hid Hok w'. subst w'. revert Hok.
  apply GetByID_found in Hget as [Hup Hrow].
  unfold UpdateChannel, GetChannel, Update, GetByID, IsRunning. run.
  rewrite Hup, Hrow. run.
  destruct (bool_decide (is_Some (processes (mgr w) !! id))); [done|]. run.
  rewrite Hup.
  destruct (row_ok _); [|done]. run. intros [= <-].
  cbn [db_up set_channels channels db set_db]. rewrite Hup.
  destruct (decide (name = "")), (decide (sourceURL = "")), output as [o|];
    cbn [ID set_Name set_SourceURL set_Logo set_OutputConfig Name SourceURL
         Logo OutputConfig_ Status AutoRestart];
    rewrite Hid, lookup_alter_eq, Hrow; cbn; rewrite ?Hid;
    (split; [eexists; split;
               [reflexivity
               |unfold same_columns, with_OutputURL; cbn; rewrite ?Hid;
                by repeat split]|]);
    (repeat split; try done); intros k Hk; by rewrite lookup_alter_ne.
Qed.

(** X5. What an edit changes. When [UpdateChannel] returns a channel for a
    row that sits under its own id, that channel has the id, the status,
    the restart flag and the output URL of the old row; its name and its
    source are the ones given, or the old ones where the empty text was
    given; its logo is the one given, so no logo removes the old one; its
    output configuration is the one given or else the old one.
    [GetChannel] afterwards returns a channel that agrees with it on id,
    name, source, status and restart flag, and that carries the output URL
    of the stream. The channel was not running, no other row changes, and
    the manager is not touched. *)
Theorem UpdateChannel_effect (row_ok : Channel -> bool) (id : uuid)
    (name sourceURL : string) (logo : option LogoConfig)
    (output : option OutputConfig) (w : World) (old ch : Channel) :
  eval (GetByID id) w = inl old ->
  ID old = id ->
  eval (UpdateChannel row_ok id name sourceURL logo output) w = inl ch ->
  let w' := exec (UpdateChannel row_ok id name sourceURL logo output) w in
  (exists got,
     eval (GetChannel id) w' = inl got /\ same_columns got ch /\
     OutputURL got = stream_url id) /\
  (ID ch = id) /\ (Status ch = Status old) /\
  (AutoRestart ch = AutoRestart old) /\
  (Name ch = if decide (name = "") then Name old else name) /\
  (SourceURL ch = if decide (sourceURL = "") then SourceURL old
                  else sourceURL) /\
  (Logo ch = logo) /\
  (OutputConfig_ ch = match output with
                      | Some _ => output
                      | None => OutputConfig_ old
                      end) /\
  (OutputURL ch = OutputURL old) /\
  (eval (IsRunning id) w = false) /\
  (forall k, k <> id -> channels (db w') !! k = channels (db w) !! k) /\
  mgr w' = mgr w /\ fs w' = fs w /\ trace w' = trace w.
Proof.
  exact (UpdateChannel_stored row_ok id name sourceURL logo output w old ch).
Qed.

Lemma UpdateChannel_effect_witness :
  let c := UpdateChannel (fun _ => true) c3 "" "http://src/c.m3u8" None None in
  exists ch got,
    (eval (GetByID c3) idle = inl branded /\ ID branded = c3 /\
     eval c idle = inl ch) /\
    eval (GetChannel c3) (exec c idle) = inl got /\
    Name got = Name ch /\ Name ch = "branded" /\ Logo ch = None /\
    OutputURL got = stream_url c3.
Proof.
  intros c. eexists.
  assert (H1 : eval (GetByID c3) idle = inl branded) by (vm_compute; reflexivity).
  assert (H2 : ID branded = c3) by reflexivity.
  pose proof (UpdateChannel_effect (fun _ => true) c3 "" "http://src/c.m3u8"
                None None idle branded _ H1 H2 eq_refl)
    as ((got & Hget & Hsame & Hurl) & _ & _ & _ & Hname & _ & Hlogo & _).
  exists got.
  split; [split; [exact H1|split; [exact H2|reflexivity]]|].
  split; [exact Hget|]. split; [exact (proj1 (proj2 Hsame))|].
  split; [exact Hname|]. split; [exact Hlogo|exact Hurl].
Defined.

(** X6. Deleting a channel. For a channel the store knows, with the
    database reachable, [DeleteChannel] returns no error; afterwards the
    row is gone, the table has no process for the channel, no other row
    and no other process changed, and if the channel was running its
    output directory is gone, a 200 ms pause was taken and no child was
    started. For an id the store does not know it answers
    [ErrChannelNotFound] and changes nothing. *)
Theorem DeleteChannel_effect (id : uuid) (w : World) :
  let w' := exec (DeleteChannel id) w in
  (forall ch, eval (GetByID id) w = inl ch ->
     eval (DeleteChannel id) w = None /\
     channels (db w') = delete id (channels (db w)) /\
     processes (mgr w') = delete id (processes (mgr w)) /\
     next_pid w' = next_pid w /\
     (eval (IsRunning id) w = true ->
      (forall q, under (filepath_Join (hlsPath (mgr w)) id) q = true ->
                 q ∉ fs w') /\
      last (trace w') = Some (EvSleep (200 * Millisecond))) /\
     (eval (IsRunning id) w = false ->
      mgr w' = mgr w /\ fs w' = fs w /\ trace w' = trace w)) /\
  (forall e, eval (GetByID id) w = inr e ->
     eval (DeleteChannel id) w = Some ErrChannelNotFound /\ w' = w).
Proof.
  intros w'. subst w'. split.
  - intros ch Hget. apply GetByID_found in Hget as [Hup Hrow].
    unfold DeleteChannel, GetByID, IsRunning, Delete. run.
    rewrite Hup, Hrow. run.
    destruct (bool_decide (is_Some (processes (mgr w) !! id))) eqn:Hrun; run.
    + destruct (Stop_effect id w) as (Hp & Hdb & Hnp & _ & _ & _ & Hfs).
      set (w1 := snd (Stop id w)) in *. rewrite Hdb, Hup. run.
      cbn [db_up set_channels channels db set_db].
      repeat split; try done; try (by rewrite last_snoc).
    + rewrite Hup. run. cbn [db_up set_channels channels db set_db].
      apply bool_decide_eq_false in Hrun.
      apply eq_None_not_Some in Hrun.
      repeat split; try done; try (by rewrite delete_id).
  - intros e Hget. unfold DeleteChannel. run. unfold eval in Hget.
    destruct (GetByID id w) as [[ch|e'] w1] eqn:Hg; [done|].
    unfold GetByID in Hg. run. by inversion Hg.
Qed.

Lemma DeleteChannel_effect_witness :
  eval (GetByID c1) running
  = inl (set_Status ChannelStatusRunning (channel_of c1 true)) /\
  eval (DeleteChannel c1) running = None /\
  channels (db (exec (DeleteChannel c1) running)) !! c1 = None /\
  processes (mgr (exec (DeleteChannel c1) running)) !! c1 = None.
Proof.
  assert (H1 : eval (GetByID c1) running
               = inl (set_Status ChannelStatusRunning (channel_of c1 true)))
    by (vm_compute; reflexivity).
  destruct (DeleteChannel_effect c1 running) as (Hd & _).
  destruct (Hd _ H1) as (Hnil & Hrows & Hprocs & _).
  split; [exact H1|]. split; [exact Hnil|].
  rewrite Hrows, Hprocs. split; apply lookup_delete_eq.
Defined.

End ServiceFacts.

(** ** The channel service: start and stop *)

Module LifecycleFacts.
Import Postgres FFmpeg App ManagerFacts FacadeFacts Run Examples.

Lemma alter_twice (s1 s2 : ChannelStatus) (k : string)
    (m : gmap string Channel) :
  alter (set_Status s2) k (alter (set_Status s1) k m)
  = alter (set_Status s2) k m.
Proof. rewrite alter_alter_eq. by apply alter_ext. Qed.

(** What [StopChannel] does with a reachable database. *)
Lemma StopChannel_spec (j : uuid) (w : World) :
  db_up (db w) = true ->
  let w' := exec (StopChannel j) w in
  db_up (db w') = true /\
  channels (db w')
  = alter (set_Status ChannelStatusStopped) j (channels (db w)) /\
  next_pid w' = next_pid w /\
  match channels (db w) !! j with
  | Some _ =>
      eval (StopChannel j) w = None /\
      processes (mgr w') = delete j (processes (mgr w)) /\
      (is_Some (processes (mgr w) !! j) ->
       forall q, under (filepath_Join (hlsPath (mgr w)) j) q = true ->
                 q ∉ fs w')
  | None => eval (StopChannel j) w = Some ErrChannelNotFound /\ w' = w
  end.
Proof.
  intros Hup w'. subst w'.
  unfold StopChannel, GetByID, IsRunning. run. rewrite Hup.
  destruct (channels (db w) !! j) as [ch|] eqn:Hrow; run.
  2:{ repeat split; try done. by rewrite alter_absent. }
  destruct (bool_decide (is_Some (processes (mgr w) !! j))) eqn:Hrun; run.
  - rewrite UpdateStatus_up by done. run.
    set (w1 := set_db _ w).
    destruct (Stop_effect j w1) as (Hp & Hdb & Hnp & _ & _ & _ & Hfs).
    rewrite Stop_returns_nil.
    rewrite UpdateStatus_up by (by rewrite Hdb).
    run. rewrite Hdb. subst w1. run. cbn [db_up set_channels channels].
    rewrite alter_twice. repeat split; try done.
  - rewrite UpdateStatus_up by done. run. cbn [db_up set_channels channels].
    apply bool_decide_eq_false in Hrun. apply eq_None_not_Some in Hrun.
    repeat split; try done.
    + by rewrite delete_id.
    + rewrite Hrun. by intros [? ?].
Qed.

(** X7. Stopping through the facade. For a channel the store knows, with
    the database reachable, [StopChannel] returns no error whether or not
    the channel was running; afterwards the table has no process for it,
    its persisted status is [stopped], no other row and no other process
    changed, no child was started, and if it was running its output
    directory is gone. *)
Theorem StopChannel_leaves_channel_stopped (id : uuid) (w : World)
    (ch : Channel) :
  eval (GetByID id) w = inl ch ->
  let w' := exec (StopChannel id) w in
  eval (StopChannel id) w = None /\
  processes (mgr w') !! id = None /\
  channels (db w') !! id = Some (set_Status ChannelStatusStopped ch) /\
  (forall k, k <> id ->
     channels (db w') !! k = channels (db w) !! k /\
     processes (mgr w') !! k = processes (mgr w) !! k) /\
  next_pid w' = next_pid w /\
  (eval (IsRunning id) w = true ->
   forall q, under (filepath_Join (hlsPath (mgr w)) id) q = true ->
             q ∉ fs w').
Proof.
  intros Hget w'. subst w'. apply GetByID_found in Hget as [Hup Hrow].
  destruct (StopChannel_spec id w Hup) as (_ & Hch & Hnp & Hcase).
  rewrite Hrow in Hcase. destruct Hcase as (Hnil & Hp & Hfs).
  rewrite Hch, Hp. split; [done|]. split; [apply lookup_delete_eq|].
  split; [by rewrite lookup_alter_eq, Hrow|].
  split; [|split; [done|]].
  - intros k Hk. by rewrite lookup_alter_ne, lookup_delete_ne.
  - intros Hrun. apply Hfs. by apply IsRunning_true.
Qed.

Lemma StopChannel_leaves_channel_stopped_witness :
  eval (GetByID c1) running
  = inl (set_Status ChannelStatusRunning (channel_of c1 true)) /\
  eval (StopChannel c1) running = None /\
  processes (mgr (exec (StopChannel c1) running)) !! c1 = None /\
  Status <$> (channels (db (exec (StopChannel c1) running)) !! c1)
  = Some ChannelStatusStopped.
Proof.
  assert (H1 : eval (GetByID c1) running
               = inl (set_Status ChannelStatusRunning (channel_of c1 true)))
    by (vm_compute; reflexivity).
  destruct (StopChannel_leaves_channel_stopped c1 running _ H1)
    as (Hnil & Hp & Hrow & _).
  split; [exact H1|]. split; [exact Hnil|]. split; [exact Hp|].
  by rewrite Hrow.
Defined.

(** What [StartChannel] does with a reachable database to a row that sits
    under its own id. *)
Lemma StartChannel_spec (j : uuid) (w : World) :
  db_up (db w) = true ->
  (forall ch, channels (db w) !! j = Some ch -> ID ch = j) ->
  let w' := exec (StartChannel j) w in
  db_up (db w') = true /\
  (forall k, k <> j ->
     channels (db w') !! k = channels (db w) !! k /\
     processes (mgr w') !! k = processes (mgr w) !! k) /\
  match channels (db w) !! j with
  | Some ch =>
      (eval (StartChannel j) w = None /\
       is_Some (processes (mgr w') !! j) /\
       channels (db w') !! j = Some (set_Status ChannelStatusRunning ch)) \/
      (exists e,
         eval (StartChannel j) w = Some e /\
         processes (mgr w) !! j = None /\
         processes (mgr w') !! j = None /\
         channels (db w') !! j = Some (set_Status ChannelStatusError ch) /\
         next_pid w' = next_pid w /\ trace w' = trace w)
  | None => eval (StartChannel j) w = Some ErrChannelNotFound /\ w' = w
  end.
Proof.
  intros Hup Hkey w'. subst w'.
  unfold StartChannel, GetByID, IsRunning. run. rewrite Hup.
  destruct (channels (db w) !! j) as [ch|] eqn:Hrow; run.
  2:{ repeat split; done. }
  specialize (Hkey ch eq_refl).
  destruct (bool_decide (is_Some (processes (mgr w) !! j))) eqn:Hrun; run.
  - apply bool_decide_eq_true in Hrun.
    rewrite UpdateStatus_up by done. run. cbn [db_up set_channels channels].
    split; [done|]. split.
    + intros k Hk. by rewrite lookup_alter_ne.
    + left. by rewrite lookup_alter_eq, Hrow.
  - apply bool_decide_eq_false in Hrun. apply eq_None_not_Some in Hrun.
    rewrite UpdateStatus_up by done. run.
    rewrite Start_ignores_db. run.
    destruct (Start_cases ch w)
      as [(e & He & Hp & Ht & Hn & Hdb & _)
         |(He & _ & p & _ & _ & _ & _ & Hp & _ & Hdb & _)];
      rewrite He; run.
    + rewrite UpdateStatus_up by (cbn; by rewrite ?Hdb).
      run. cbn [db_up set_channels channels]. rewrite Hp.
      split; [done|]. split.
      * intros k Hk. by rewrite !lookup_alter_ne.
      * right. exists e. rewrite alter_twice, lookup_alter_eq, Hrow.
        by repeat split.
    + rewrite UpdateStatus_up by (cbn; by rewrite ?Hdb).
      run. cbn [db_up set_channels channels]. rewrite Hp, Hkey.
      split; [done|]. split.
      * intros k Hk. by rewrite !lookup_alter_ne, lookup_insert_ne.
      * left. rewrite alter_twice, lookup_alter_eq, Hrow, lookup_insert_eq.
        by repeat split.
Qed.

(** X8. Starting through the facade keeps status and table in step. For a
    channel the store knows under its own id, with the database reachable,
    [StartChannel] ends in one of two ways: it returns no error, the table
    has a process for the channel and the persisted status is [running];
    or it returns an error, the table has no process for the channel, the
    persisted status is [error] and no child was started. Either way no
    other row and no other process changes. *)
Theorem StartChannel_status_follows_table (id : uuid) (w : World)
    (ch : Channel) :
  eval (GetByID id) w = inl ch ->
  ID ch = id ->
  let w' := exec (StartChannel id) w in
  ((eval (StartChannel id) w = None /\
    is_Some (processes (mgr w') !! id) /\
    channels (db w') !! id = Some (set_Status ChannelStatusRunning ch)) \/
   (exists e,
      eval (StartChannel id) w = Some e /\
      processes (mgr w') !! id = None /\
      channels (db w') !! id = Some (set_Status ChannelStatusError ch) /\
      next_pid w' = next_pid w /\ trace w' = trace w)) /\
  (forall k, k <> id ->
     channels (db w') !! k = channels (db w) !! k /\
     processes (mgr w') !! k = processes (mgr w) !! k).
Proof.
  intros Hget Hid w'. subst w'. apply GetByID_found in Hget as [Hup Hrow].
  destruct (StartChannel_spec id w Hup) as (_ & Hframe & Hcase).
  { intros ch' Hch'. congruence. }
  rewrite Hrow in Hcase. split; [|done].
  destruct Hcase as [?|(e & ? & _ & ?)]; [by left|right; by exists e].
Qed.

Lemma StartChannel_status_follows_table_witness :
  (eval (GetByID c1) idle = inl (channel_of c1 true) /\
   ID (channel_of c1 true) = c1) /\
  eval (StartChannel c1) idle = None /\
  is_Some (processes (mgr (exec (StartChannel c1) idle)) !! c1) /\
  Status <$> (channels (db (exec (StartChannel c1) idle)) !! c1)
  = Some ChannelStatusRunning.
Proof.
  assert (H1 : eval (GetByID c1) idle = inl (channel_of c1 true))
    by (vm_compute; reflexivity).
  assert (H2 : ID (channel_of c1 true) = c1) by reflexivity.
  destruct (StartChannel_status_follows_table c1 idle _ H1 H2) as (Hcase & _).
  split; [by split|].
  destruct Hcase as [(Hnil & Hp & Hrow)|(e & He & _)].
  - split; [exact Hnil|]. split; [exact Hp|]. by rewrite Hrow.
  - exfalso. vm_compute in He. discriminate He.
Defined.

End LifecycleFacts.

(** ** Batches and what they leave behind *)

Module BatchEffects.
Import Postgres FFmpeg App ManagerFacts FacadeFacts Run Examples BatchFacts.
Import LifecycleFacts.

(** An invariant of the world and a goal per job carried through the
    collecting loop: every job the workers hand in reaches its goal, and
    the goals reached stay reached. *)
Section Invariant.
Variable processFunc : uuid -> M (option error).
Variable concurrentLimit : nat.
Variable delayBetweenBatches : Z.
Hypothesis workers : (0 < concurrentLimit)%nat.

Variable listed : uuid -> Prop.
Variable Inv : World -> Prop.
Variable Done : uuid -> World -> Prop.
Variable Outcome : uuid -> option error -> Prop.

Hypothesis Inv_step :
  forall j w, listed j -> Inv w -> Inv (snd (processFunc j w)).
Hypothesis Done_step :
  forall j w, listed j -> Inv w -> Done j (snd (processFunc j w)).
Hypothesis Done_keep :
  forall id j w, listed j -> Inv w -> Done id w ->
                 Done id (snd (processFunc j w)).
Hypothesis Outcome_step :
  forall j w, listed j -> Inv w -> Outcome j (fst (processFunc j w)).
Hypothesis Inv_sleep : forall d w, Inv w -> Inv (snd (Sleep d w)).
Hypothesis Done_sleep :
  forall id d w, Done id w -> Done id (snd (Sleep d w)).

Lemma collect_invariant (sched : list nat) (i remaining : nat)
    (queue inflight : list uuid) (result : BatchResult) (w : World) :
  remaining = (length queue + length inflight)%nat ->
  (forall id, id ∈ (queue ++ inflight)%list -> listed id) ->
  Inv w ->
  let out := collect processFunc concurrentLimit delayBetweenBatches sched
               i remaining queue inflight result w in
  Inv (snd out) /\
  (forall id, Done id w \/ id ∈ (queue ++ inflight)%list ->
              Done id (snd out)) /\
  (forall r, fst out = Some r ->
     (forall id, id ∈ Success r ->
        id ∈ Success result \/ Outcome id None) /\
     (forall be, be ∈ Failed r ->
        be ∈ Failed result \/
        Outcome (be_ChannelID be) (Some (be_Error be)))).
Proof.
  revert sched i queue inflight result w.
  induction remaining as [|remaining IH];
    intros sched i queue inflight result w Hrem Hlisted Hinv out.
  - destruct queue, inflight; try discriminate. subst out. cbn.
    split; [done|]. split.
    + intros id [Hd|Hin]; [done|]. by apply elem_of_nil in Hin.
    + intros r [= <-]. split; intros; by left.
  - subst out. cbn [collect].
    pose proof (held_nonempty concurrentLimit workers _ _ _ Hrem) as Hheld.
    set (free := (concurrentLimit - length inflight)%nat) in *.
    set (held := (inflight ++ take free queue)%list) in *.
    set (k := (hd 0%nat sched mod length held)%nat).
    assert (Hk : (k < length held)%nat) by (apply Nat.mod_upper_bound; lia).
    destruct (lookup_lt_is_Some_2 held k Hk) as [id Hid]. rewrite Hid.
    unfold bind at 1. unfold bind at 1.
    set (w1 := snd (processFunc id w)). set (err := fst (processFunc id w)).
    set (w2 := snd (_ w1)).
    assert (Hperm : held ≡ₚ id :: delete k held)
      by (by apply delete_Permutation).
    assert (Hrem' : remaining
                    = (length (drop free queue) + length (delete k held))%nat).
    { pose proof (Permutation_length Hperm) as Hl'. cbn in Hl'.
      subst held. rewrite length_app, length_take in Hl'.
      rewrite length_drop. lia. }
    assert (Hall : (queue ++ inflight)%list
                   ≡ₚ id :: (drop free queue ++ delete k held)%list).
    { transitivity (held ++ drop free queue)%list.
      - subst held. rewrite <- List.app_assoc, take_drop.
        apply Permutation_app_comm.
      - rewrite Hperm at 1. cbn. constructor. apply Permutation_app_comm. }
    assert (Hl_id : listed id).
    { apply Hlisted. rewrite Hall. by left. }
    assert (Hinv1 : Inv w1) by (by apply Inv_step).
    assert (Hinv2 : Inv w2).
    { subst w2. destruct (_ && _); [by apply Inv_sleep|done]. }
    assert (Hkeep2 : forall t, Done t w1 -> Done t w2).
    { intros t Ht. subst w2. destruct (_ && _); [by apply Done_sleep|done]. }
    destruct (IH (tl sched) (S i) (drop free queue) (delete k held)
                 (add_job id err result) w2 Hrem')
      as (Hinv' & Hdone' & Hres'); [|done|].
    { intros t Ht. apply Hlisted. rewrite Hall. by right. }
    split; [exact Hinv'|]. split.
    + intros t [Hd|Hin].
      * apply Hdone'. left. apply Hkeep2. by apply Done_keep.
      * rewrite Hall in Hin. apply elem_of_cons in Hin as [->|Hin].
        -- apply Hdone'. left. apply Hkeep2. by apply Done_step.
        -- apply Hdone'. by right.
    + intros r Hr. destruct (Hres' r Hr) as [Hs Hf].
      pose proof (Outcome_step id w Hl_id Hinv) as Hout. fold err in Hout.
      split.
      * intros t Ht. destruct (Hs t Ht) as [Hin|?]; [|by right].
        destruct err as [e|]; cbn [add_job Success] in Hin; [by left|].
        apply elem_of_app in Hin as [?|Hin]; [by left|].
        apply list_elem_of_singleton in Hin as ->. by right.
      * intros be Hbe. destruct (Hf be Hbe) as [Hin|?]; [|by right].
        destruct err as [e|]; cbn [add_job Failed] in Hin; [|by left].
        apply elem_of_app in Hin as [?|Hin]; [by left|].
        apply list_elem_of_singleton in Hin as ->. by right.
Qed.

Lemma batchProcess_invariant (ids : list uuid) (sched : list nat)
    (w : World) :
  (forall id, id ∈ ids -> listed id) ->
  Inv w ->
  let out := batchProcess ids processFunc concurrentLimit
               delayBetweenBatches sched w in
  Inv (snd out) /\
  (forall id, id ∈ ids -> Done id (snd out)) /\
  exists r,
    fst out = Some r /\
    (forall id, id ∈ ids -> id ∈ result_ids r) /\
    (forall id, id ∈ Success r -> Outcome id None) /\
    (forall be, be ∈ Failed r ->
       Outcome (be_ChannelID be) (Some (be_Error be))).
Proof.
  intros Hlisted Hinv out. subst out. unfold batchProcess.
  destruct ids as [|id0 ids0] eqn:Hids.
  { cbn. split; [done|]. split; [intros id Hin; by apply elem_of_nil in Hin|].
    eexists. split; [done|]. cbn.
    repeat split; intros ? Hin; by apply elem_of_nil in Hin. }
  rewrite <- Hids in *. clear Hids.
  destruct (collect_invariant sched 0 (length ids) ids []
              {| Success := []; Failed := [] |} w)
    as (Hinv' & Hdone & Hres); [cbn; lia|by rewrite app_nil_r|done|].
  split; [exact Hinv'|]. split.
  { intros id Hin. apply Hdone. right. by rewrite app_nil_r. }
  destruct (collect_accounts processFunc concurrentLimit delayBetweenBatches
              workers sched 0 (length ids) ids []
              {| Success := []; Failed := [] |} w)
    as (r & Hr & (s & f & Hs & Hf & _ & _ & Hp) & Hord); [cbn; lia|].
  cbn [Success Failed app] in Hs, Hf. rewrite app_nil_r in Hord.
  exists r. split; [exact Hr|]. destruct (Hres r Hr) as [Hsucc Hfail].
  split; [|split].
  - intros id Hin. unfold result_ids. by rewrite Hs, Hf, Hp, Hord.
  - intros id Hin. destruct (Hsucc id Hin) as [Hnil|?]; [|done].
    by apply elem_of_nil in Hnil.
  - intros be Hin. destruct (Hfail be Hin) as [Hnil|?]; [|done].
    by apply elem_of_nil in Hnil.
Qed.

End Invariant.

Lemma Sleep_effect (d : Z) (w : World) :
  db (snd (Sleep d w)) = db w /\ mgr (snd (Sleep d w)) = mgr w /\
  next_pid (snd (Sleep d w)) = next_pid w /\ fs (snd (Sleep d w)) = fs w.
Proof. by run. Qed.

(** X9. A batch stop stops every listed channel. With the database
    reachable, for every list of ids and every order in which the workers
    finish, [BatchStopChannels] returns a result, and afterwards every
    listed channel the store knows has no process, has the persisted
    status [stopped] and is reported under [Success]; the [Failed] entries
    are ids the store does not know, each with [ErrChannelNotFound]; rows
    and processes of channels that are not listed are untouched and no
    child was started. *)
Theorem BatchStopChannels_stops_every_listed (ids : list uuid)
    (sched : list nat) (w : World) :
  db_up (db w) = true ->
  let w' := exec (BatchStopChannels ids sched) w in
  exists r,
    eval (BatchStopChannels ids sched) w = Some r /\
    (forall id, id ∈ ids -> is_Some (channels (db w) !! id) ->
       processes (mgr w') !! id = None /\
       Status <$> (channels (db w') !! id) = Some ChannelStatusStopped /\
       id ∈ Success r) /\
    (forall be, be ∈ Failed r ->
       be_Error be = ErrChannelNotFound /\
       channels (db w) !! be_ChannelID be = None) /\
    (forall k, k ∉ ids ->
       channels (db w') !! k = channels (db w) !! k /\
       processes (mgr w') !! k = processes (mgr w) !! k) /\
    next_pid w' = next_pid w.
Proof.
  intros Hup w'. subst w'. unfold BatchStopChannels.
  set (Inv := fun v : World =>
    db_up (db v) = true /\ next_pid v = next_pid w /\
    (forall k, is_Some (channels (db v) !! k)
               <-> is_Some (channels (db w) !! k)) /\
    (forall k, k ∉ ids ->
       channels (db v) !! k = channels (db w) !! k /\
       processes (mgr v) !! k = processes (mgr w) !! k)).
  set (Done := fun (id : uuid) (v : World) =>
    forall ch, channels (db v) !! id = Some ch ->
      processes (mgr v) !! id = None /\ Status ch = ChannelStatusStopped).
  set (Outcome := fun (id : uuid) (o : option error) =>
    match o with
    | None => True
    | Some e => e = ErrChannelNotFound /\ channels (db w) !! id = None
    end).
  destruct (batchProcess_invariant StopChannel 5 (100 * Millisecond)
              ltac:(lia) (fun id => id ∈ ids) Inv Done Outcome)
    with (ids := ids) (sched := sched) (w := w)
    as (Hinv & Hdone & r & Hr & Hall & _ & Hfail).
  - (* the invariant is kept *)
    intros j v Hj (Hup' & Hnp & Hdom & Hframe).
    destruct (StopChannel_spec j v Hup') as (Hup1 & Hch & Hnp1 & Hcase).
    unfold exec in *. split; [done|]. split; [congruence|]. split.
    + intros k. rewrite Hch, <- Hdom, lookup_alter. case_decide; [|done].
      subst. by rewrite fmap_is_Some.
    + intros k Hk. assert (k <> j) by (intros ->; done).
      rewrite Hch, lookup_alter_ne by done.
      destruct (Hframe k Hk) as [Hc Hp]. split; [done|].
      destruct (channels (db v) !! j).
      * destruct Hcase as (_ & -> & _). by rewrite lookup_delete_ne.
      * destruct Hcase as (_ & ->). done.
  - (* the job reaches its goal *)
    intros j v Hj (Hup' & _). intros ch Hrow.
    destruct (StopChannel_spec j v Hup') as (_ & Hch & _ & Hcase).
    unfold exec in *. rewrite Hch, lookup_alter_eq in Hrow.
    destruct (channels (db v) !! j) as [ch0|]; [|done].
    destruct Hcase as (_ & -> & _). cbn in Hrow. injection Hrow as <-.
    split; [apply lookup_delete_eq|done].
  - (* goals reached stay reached *)
    intros id j v Hj (Hup' & _) Hd ch Hrow.
    destruct (StopChannel_spec j v Hup') as (_ & Hch & _ & Hcase).
    unfold exec in *. rewrite Hch, lookup_alter in Hrow.
    assert (Hp : processes (mgr v) !! id = None ->
                 processes (mgr (snd (StopChannel j v))) !! id = None).
    { intros Hnone. destruct (channels (db v) !! j).
      - destruct Hcase as (_ & -> & _). rewrite lookup_delete.
        by case_decide.
      - by destruct Hcase as (_ & ->). }
    case_decide as Hij.
    + subst j. destruct (channels (db v) !! id) as [ch0|] eqn:Hrow0; [|done].
      cbn in Hrow. injection Hrow as <-.
      destruct (Hd ch0 Hrow0) as [Hnone _]. split; [by apply Hp|done].
    + destruct (Hd ch Hrow) as [Hnone Hst]. split; [by apply Hp|done].
  - (* what a job reports *)
    intros j v Hj (Hup' & _ & Hdom & _).
    destruct (StopChannel_spec j v Hup') as (_ & _ & _ & Hcase).
    unfold eval in *. destruct (channels (db v) !! j) eqn:Hrow.
    + destruct Hcase as (-> & _). done.
    + destruct Hcase as (-> & _). split; [done|].
      apply eq_None_not_Some. rewrite <- Hdom, Hrow. by intros [? ?].
  - (* pauses *)
    intros d v (Hup' & Hnp & Hdom & Hframe). unfold Inv.
    destruct (Sleep_effect d v) as (-> & -> & -> & _). done.
  - intros id d v Hd. unfold Done.
    destruct (Sleep_effect d v) as (-> & -> & _). done.
  - done.
  - repeat split; done.
  - destruct Hinv as (_ & Hnp & Hdom & Hframe).
    exists r. split; [exact Hr|]. split; [|split; [|split; [|exact Hnp]]].
    + intros id Hin Hrow. apply Hdom in Hrow as [ch Hrow].
      destruct (Hdone id Hin ch Hrow) as [Hnone Hst]. unfold exec.
      rewrite Hrow. cbn. rewrite Hst. split; [done|]. split; [done|].
      specialize (Hall id Hin). unfold result_ids in Hall.
      apply elem_of_app in Hall as [?|Hf]; [done|].
      apply list_elem_of_fmap in Hf as (be & -> & Hbe).
      destruct (Hfail be Hbe) as [_ Hnone'].
      assert (Hsome : is_Some (channels (db w) !! be_ChannelID be))
        by (apply Hdom; by eexists).
      rewrite Hnone' in Hsome. by destruct Hsome.
    + intros be Hbe. exact (Hfail be Hbe).
    + exact Hframe.
Qed.

Lemma BatchStopChannels_stops_every_listed_witness :
  db_up (db running) = true /\
  exists r,
    eval (BatchStopChannels [c1; c2] [1%nat]) running = Some r /\
    processes (mgr (exec (BatchStopChannels [c1; c2] [1%nat]) running)) !! c1
    = None /\
    c1 ∈ Success r.
Proof.
  assert (H1 : db_up (db running) = true) by reflexivity.
  destruct (BatchStopChannels_stops_every_listed [c1; c2] [1%nat] running H1)
    as (r & Hr & Hlisted & _).
  split; [exact H1|]. exists r. split; [exact Hr|].
  destruct (Hlisted c1) as (Hp & _ & Hs).
  - by left.
  - eexists. vm_compute. reflexivity.
  - by split.
Defined.

(** What [DeleteChannel] does with a reachable database. *)
Lemma DeleteChannel_spec (j : uuid) (w : World) :
  db_up (db w) = true ->
  let w' := exec (DeleteChannel j) w in
  db_up (db w') = true /\ next_pid w' = next_pid w /\
  match channels (db w) !! j with
  | Some _ =>
      channels (db w') = delete j (channels (db w)) /\
      processes (mgr w') = delete j (processes (mgr w))
  | None => w' = w
  end.
Proof.
  intros Hup w'. subst w'.
  unfold DeleteChannel, GetByID, IsRunning, Delete. run. rewrite Hup.
  destruct (channels (db w) !! j) as [ch|] eqn:Hrow; run; [|done].
  destruct (bool_decide (is_Some (processes (mgr w) !! j))) eqn:Hrun; run.
  - destruct (Stop_effect j w) as (Hp & Hdb & Hnp & _).
    rewrite Hdb, Hup. run. cbn [db_up set_channels channels db set_db].
    by rewrite Hup.
  - rewrite Hup. run. cbn [db_up set_channels channels db set_db].
    apply bool_decide_eq_false in Hrun. apply eq_None_not_Some in Hrun.
    rewrite Hup. by rewrite (delete_id (processes (mgr w))).
Qed.

(** X10. A batch delete removes every listed channel. With the database
    reachable and a table in which every process belongs to a channel of
    the store, for every list of ids and every order in which the workers
    finish, after [BatchDeleteChannels] no listed id has a row or a
    process, rows and processes of channels that are not listed are
    untouched, every process still belongs to a channel of the store and
    no child was started. *)
Theorem BatchDeleteChannels_removes_every_listed (ids : list uuid)
    (sched : list nat) (w : World) :
  db_up (db w) = true ->
  map_Forall (fun k _ => is_Some (channels (db w) !! k))
             (processes (mgr w)) ->
  let w' := exec (BatchDeleteChannels ids sched) w in
  (forall id, id ∈ ids ->
     channels (db w') !! id = None /\ processes (mgr w') !! id = None) /\
  (forall k, k ∉ ids ->
     channels (db w') !! k = channels (db w) !! k /\
     processes (mgr w') !! k = processes (mgr w) !! k) /\
  (forall k, is_Some (processes (mgr w') !! k) ->
             is_Some (channels (db w') !! k)) /\
  next_pid w' = next_pid w.
Proof.
  intros Hup Hall w'. subst w'. unfold BatchDeleteChannels.
  assert (Howned : forall k, is_Some (processes (mgr w) !! k) ->
                             is_Some (channels (db w) !! k))
    by (intros k [p Hp]; exact (Hall k p Hp)).
  set (Inv := fun v : World =>
    db_up (db v) = true /\ next_pid v = next_pid w /\
    (forall k, is_Some (processes (mgr v) !! k) ->
               is_Some (channels (db v) !! k)) /\
    (forall k, k ∉ ids ->
       channels (db v) !! k = channels (db w) !! k /\
       processes (mgr v) !! k = processes (mgr w) !! k)).
  set (Done := fun (id : uuid) (v : World) =>
    channels (db v) !! id = None /\ processes (mgr v) !! id = None).
  destruct (batchProcess_invariant DeleteChannel 5 (100 * Millisecond)
              ltac:(lia) (fun id => id ∈ ids) Inv Done (fun _ _ => True))
    with (ids := ids) (sched := sched) (w := w)
    as (Hinv & Hdone & _).
  - intros j v Hj (Hup' & Hnp & Hown & Hframe).
    destruct (DeleteChannel_spec j v Hup') as (Hup1 & Hnp1 & Hcase).
    unfold exec in *. split; [done|]. split; [congruence|].
    destruct (channels (db v) !! j) eqn:Hrow.
    + destruct Hcase as [Hc Hp]. rewrite Hc, Hp. split.
      * intros k. rewrite !lookup_delete. case_decide; [by intros [? ?]|].
        apply Hown.
      * intros k Hk. assert (j <> k) by (intros ->; done).
        rewrite !lookup_delete_ne by done. by apply Hframe.
    + rewrite Hcase. by split.
  - intros j v Hj (Hup' & _ & Hown & _).
    destruct (DeleteChannel_spec j v Hup') as (_ & _ & Hcase).
    unfold exec in *. unfold Done.
    destruct (channels (db v) !! j) eqn:Hrow.
    + destruct Hcase as [-> ->]. by rewrite !lookup_delete_eq.
    + rewrite Hcase. split; [done|]. apply eq_None_not_Some.
      intros Hp. apply Hown in Hp. rewrite Hrow in Hp. by destruct Hp.
  - intros id j v Hj (Hup' & _) [Hc Hp].
    destruct (DeleteChannel_spec j v Hup') as (_ & _ & Hcase).
    unfold exec in *. unfold Done.
    destruct (channels (db v) !! j) eqn:Hrow.
    + destruct Hcase as [-> ->]. rewrite !lookup_delete.
      by repeat case_decide.
    + by rewrite Hcase.
  - done.
  - intros d v (Hup' & Hnp & Hown & Hframe). unfold Inv.
    destruct (Sleep_effect d v) as (-> & -> & -> & _). done.
  - intros id d v Hd. unfold Done.
    destruct (Sleep_effect d v) as (-> & -> & _). done.
  - done.
  - repeat split; done.
  - destruct Hinv as (_ & Hnp & Hown & Hframe).
    split; [exact Hdone|]. split; [exact Hframe|]. split; [exact Hown|exact Hnp].
Qed.

Lemma BatchDeleteChannels_removes_every_listed_witness :
  (db_up (db running) = true /\
   map_Forall (fun k _ => is_Some (channels (db running) !! k))
              (processes (mgr running))) /\
  channels (db (exec (BatchDeleteChannels [c1; c3] [7%nat]) running)) !! c1
  = None /\
  processes (mgr (exec (BatchDeleteChannels [c1; c3] [7%nat]) running)) !! c1
  = None.
Proof.
  assert (H1 : db_up (db running) = true) by reflexivity.
  assert (H2 : map_Forall (fun k _ => is_Some (channels (db running) !! k))
                          (processes (mgr running))).
  { apply (bool_decide_unpack _). vm_compute. exact I. }
  destruct (BatchDeleteChannels_removes_every_listed [c1; c3] [7%nat]
              running H1 H2) as (Hlisted & _).
  split; [by split|]. apply Hlisted. by left.
Defined.

(** X11. A batch start leaves status and table in step. With the database
    reachable and every row under its own id, for every list of ids in
    which no id is repeated and every order in which the workers finish,
    after [BatchStartChannels] every listed channel the store knows either
    has a process and the persisted status [running], or has no process
    and the persisted status [error]; rows and processes of channels that
    are not listed are untouched. (The jobs of one batch work on
    different channels when no id is repeated; two jobs for the same id
    would run side by side in the code, which the model, where a job is
    one step, does not show.) *)
Theorem BatchStartChannels_status_follows_table (ids : list uuid)
    (sched : list nat) (w : World) :
  db_up (db w) = true ->
  map_Forall (fun k c => ID c = k) (channels (db w)) ->
  NoDup ids ->
  let w' := exec (BatchStartChannels ids sched) w in
  (forall id, id ∈ ids -> is_Some (channels (db w) !! id) ->
     exists ch,
       channels (db w') !! id = Some ch /\
       ((is_Some (processes (mgr w') !! id) /\
         Status ch = ChannelStatusRunning) \/
        (processes (mgr w') !! id = None /\
         Status ch = ChannelStatusError))) /\
  (forall k, k ∉ ids ->
     channels (db w') !! k = channels (db w) !! k /\
     processes (mgr w') !! k = processes (mgr w) !! k).
Proof.
  intros Hup Hkeyed _ w'. subst w'. unfold BatchStartChannels.
  set (Inv := fun v : World =>
    db_up (db v) = true /\
    map_Forall (fun k c => ID c = k) (channels (db v)) /\
    (forall k, is_Some (channels (db w) !! k) ->
               is_Some (channels (db v) !! k)) /\
    (forall k, k ∉ ids ->
       channels (db v) !! k = channels (db w) !! k /\
       processes (mgr v) !! k = processes (mgr w) !! k)).
  set (Done := fun (id : uuid) (v : World) =>
    forall ch, channels (db v) !! id = Some ch ->
      (is_Some (processes (mgr v) !! id) /\
       Status ch = ChannelStatusRunning) \/
      (processes (mgr v) !! id = None /\ Status ch = ChannelStatusError)).
  destruct (batchProcess_invariant StartChannel 5 (100 * Millisecond)
              ltac:(lia) (fun id => id ∈ ids) Inv Done (fun _ _ => True))
    with (ids := ids) (sched := sched) (w := w)
    as (Hinv & Hdone & _).
  - intros j v Hj (Hup' & Hkey & Hdom & Hframe).
    destruct (StartChannel_spec j v Hup') as (Hup1 & Hfr & Hcase).
    { intros ch Hch. exact (Hkey j ch Hch). }
    unfold exec in *. split; [done|].
    assert (Hrows : forall k ch',
              channels (db (snd (StartChannel j v))) !! k = Some ch' ->
              exists ch0, channels (db v) !! k = Some ch0 /\ ID ch' = ID ch0).
    { intros k ch' Hch'. destruct (decide (k = j)) as [->|Hne].
      - destruct (channels (db v) !! j) as [ch0|] eqn:Hrow.
        + exists ch0. split; [done|].
          destruct Hcase as [(_ & _ & Hc)|(e & _ & _ & _ & Hc & _)];
            rewrite Hc in Hch'; by injection Hch' as <-.
        + destruct Hcase as [_ Hsame]. rewrite Hsame, Hrow in Hch'. done.
      - destruct (Hfr k Hne) as [Hc _]. rewrite Hc in Hch'. by exists ch'. }
    split; [|split].
    + intros k ch' Hch'. destruct (Hrows k ch' Hch') as (ch0 & Hch0 & Hid).
      cbn. rewrite Hid. exact (Hkey k ch0 Hch0).
    + intros k Hk. apply Hdom in Hk as [ch0 Hch0].
      destruct (decide (k = j)) as [->|Hne].
      * rewrite Hch0 in Hcase.
        destruct Hcase as [(_ & _ & ->)|(e & _ & _ & _ & -> & _)]; by eexists.
      * destruct (Hfr k Hne) as [-> _]. by eexists.
    + intros k Hk. assert (k <> j) by (intros ->; done).
      destruct (Hfr k) as [-> ->]; [done|]. by apply Hframe.
  - intros j v Hj (Hup' & Hkey & _) ch Hrow.
    destruct (StartChannel_spec j v Hup') as (_ & _ & Hcase).
    { intros ch' Hch'. exact (Hkey j ch' Hch'). }
    unfold exec in *.
    destruct (channels (db v) !! j) as [ch0|] eqn:Hrow0.
    + destruct Hcase as [(_ & Hp & Hc)|(e & _ & _ & Hp & Hc & _)];
        rewrite Hc in Hrow; injection Hrow as <-; [by left|by right].
    + destruct Hcase as [_ Hsame]. rewrite Hsame, Hrow0 in Hrow. done.
  - intros id j v Hj (Hup' & Hkey & _) Hd ch Hrow.
    destruct (StartChannel_spec j v Hup') as (_ & Hfr & Hcase).
    { intros ch' Hch'. exact (Hkey j ch' Hch'). }
    unfold exec in *. destruct (decide (id = j)) as [->|Hne].
    + destruct (channels (db v) !! j) as [ch0|] eqn:Hrow0.
      * destruct Hcase as [(_ & Hp & Hc)|(e & _ & _ & Hp & Hc & _)];
          rewrite Hc in Hrow; injection Hrow as <-; [by left|by right].
      * destruct Hcase as [_ Hsame]. rewrite Hsame, Hrow0 in Hrow. done.
    + destruct (Hfr id Hne) as [Hc Hp]. rewrite Hc in Hrow. rewrite Hp.
      by apply Hd.
  - done.
  - intros d v (Hup' & Hkey & Hdom & Hframe). unfold Inv.
    destruct (Sleep_effect d v) as (-> & -> & _). done.
  - intros id d v Hd. unfold Done.
    destruct (Sleep_effect d v) as (-> & -> & _). done.
  - done.
  - repeat split; done.
  - destruct Hinv as (_ & _ & Hdom & Hframe). split; [|exact Hframe].
    intros id Hin Hrow. apply Hdom in Hrow as [ch Hrow].
    exists ch. split; [exact Hrow|]. by apply (Hdone id Hin).
Qed.

Lemma BatchStartChannels_status_follows_table_witness :
  (db_up (db idle) = true /\
   map_Forall (fun k c => ID c = k) (channels (db idle)) /\
   NoDup [c3; c1]) /\
  exists ch,
    channels (db (exec (BatchStartChannels [c3; c1] [0%nat]) idle)) !! c3
    = Some ch /\
    processes (mgr (exec (BatchStartChannels [c3; c1] [0%nat]) idle)) !! c3
    = None /\
    Status ch = ChannelStatusError.
Proof.
  assert (H1 : db_up (db idle) = true) by reflexivity.
  assert (H2 : map_Forall (fun k c => ID c = k) (channels (db idle))).
  { apply (bool_decide_unpack _). vm_compute. exact I. }
  assert (H3 : NoDup [c3; c1]).
  { apply (bool_decide_unpack _). vm_compute. exact I. }
  destruct (BatchStartChannels_status_follows_table [c3; c1] [0%nat] idle
              H1 H2 H3) as (Hlisted & _).
  split; [by repeat split|].
  destruct (Hlisted c3) as (ch & Hch & Hcase).
  - by left.
  - eexists. vm_compute. reflexivity.
  - exists ch. split; [exact Hch|].
    destruct Hcase as [(Hp & _)|(Hp & Hs)]; [|by split].
    exfalso. revert Hp. vm_compute. by intros [? ?].
Defined.

End BatchEffects.

Module RestartEffects.
Import Postgres FFmpeg App ManagerFacts FacadeFacts Run Examples BatchFacts.
Import LifecycleFacts BatchEffects.

(** What [RestartChannel] does with a reachable database to a row that
    sits under its own id. *)
Lemma RestartChannel_spec (j : uuid) (w : World) :
  db_up (db w) = true ->
  (forall ch, channels (db w) !! j = Some ch -> ID ch = j) ->
  let w' := exec (RestartChannel j) w in
  db_up (db w') = true /\
  (forall k, k <> j ->
     channels (db w') !! k = channels (db w) !! k /\
     processes (mgr w') !! k = processes (mgr w) !! k) /\
  match channels (db w) !! j with
  | Some ch =>
      exists ch',
        channels (db w') !! j = Some ch' /\ ID ch' = j /\
        ((eval (RestartChannel j) w = None /\
          is_Some (processes (mgr w') !! j) /\
          Status ch' = ChannelStatusRunning) \/
         (exists e,
            eval (RestartChannel j) w = Some e /\
            processes (mgr w') !! j = None /\
            Status ch' = ChannelStatusError))
  | None => eval (RestartChannel j) w = Some ErrChannelNotFound /\ w' = w
  end.
Proof.
  intros Hup Hkey w'. subst w'.
  unfold RestartChannel. run.
  assert (Hg : GetByID j w
               = (match channels (db w) !! j with
                  | Some c => inl c
                  | None => inr "channel not found: no rows in result set"
                  end, w)).
  { unfold GetByID. run. by rewrite Hup. }
  rewrite !Hg. cbn [fst snd].
  destruct (channels (db w) !! j) as [ch|] eqn:Hrow; run.
  2:{ repeat split; done. }
  specialize (Hkey ch eq_refl).
  assert (Hr : IsRunning j w
               = (bool_decide (is_Some (processes (mgr w) !! j)), w))
    by reflexivity.
  rewrite !Hr. cbn [fst snd].
  assert (Hfinish : forall w1,
    db_up (db w1) = true ->
    (forall k, k <> j ->
       channels (db w1) !! k = channels (db w) !! k /\
       processes (mgr w1) !! k = processes (mgr w) !! k) ->
    (exists ch1, channels (db w1) !! j = Some ch1 /\ ID ch1 = j) ->
    db_up (db (snd (StartChannel j w1))) = true /\
    (forall k, k <> j ->
       channels (db (snd (StartChannel j w1))) !! k = channels (db w) !! k /\
       processes (mgr (snd (StartChannel j w1))) !! k
       = processes (mgr w) !! k) /\
    exists ch',
      channels (db (snd (StartChannel j w1))) !! j = Some ch' /\ ID ch' = j /\
      ((fst (StartChannel j w1) = None /\
        is_Some (processes (mgr (snd (StartChannel j w1))) !! j) /\
        Status ch' = ChannelStatusRunning) \/
       (exists e,
          fst (StartChannel j w1) = Some e /\
          processes (mgr (snd (StartChannel j w1))) !! j = None /\
          Status ch' = ChannelStatusError))).
  { intros w1 Hup1 Hframe1 (ch1 & Hrow1 & Hid1).
    destruct (StartChannel_spec j w1 Hup1) as (Hup2 & Hframe2 & Hcase).
    { intros ch' Hch'. congruence. }
    unfold exec, eval in *. rewrite Hrow1 in Hcase.
    split; [done|]. split.
    - intros k Hk. destruct (Hframe2 k Hk) as [-> ->]. by apply Hframe1.
    - destruct Hcase as [(Hnil & Hp & Hc)|(e & He & _ & Hp & Hc & _)].
      + eexists. split; [exact Hc|]. split; [done|]. left. by repeat split.
      + eexists. split; [exact Hc|]. split; [done|]. right. exists e.
        by repeat split. }
  destruct (bool_decide (is_Some (processes (mgr w) !! j))); run.
  - destruct (StopChannel_spec j w Hup) as (Hup1 & Hch & _ & Hcase).
    unfold exec, eval in *. rewrite Hrow in Hcase.
    destruct Hcase as (Hnil & Hp & _). rewrite Hnil. run.
    apply Hfinish; run.
    + done.
    + intros k Hk. by rewrite Hch, Hp, lookup_alter_ne, lookup_delete_ne.
    + rewrite Hch, lookup_alter_eq, Hrow. by eexists.
  - apply Hfinish; [done|done|by exists ch].
Qed.

(** X12. A batch restart leaves status and table in step. With the
    database reachable and every row under its own id, for every list of
    ids in which no id is repeated and every order in which the workers
    finish, after [BatchRestartChannels] every listed channel the store
    knows either has a process and the persisted status [running], or has
    no process and the persisted status [error]; rows and processes of
    channels that are not listed are untouched. (The jobs of one batch
    work on different channels when no id is repeated; two jobs for the
    same id would run side by side in the code, which the model, where a
    job is one step, does not show.) *)
Theorem BatchRestartChannels_status_follows_table (ids : list uuid)
    (sched : list nat) (w : World) :
  db_up (db w) = true ->
  map_Forall (fun k c => ID c = k) (channels (db w)) ->
  NoDup ids ->
  let w' := exec (BatchRestartChannels ids sched) w in
  (forall id, id ∈ ids -> is_Some (channels (db w) !! id) ->
     exists ch,
       channels (db w') !! id = Some ch /\
       ((is_Some (processes (mgr w') !! id) /\
         Status ch = ChannelStatusRunning) \/
        (processes (mgr w') !! id = None /\
         Status ch = ChannelStatusError))) /\
  (forall k, k ∉ ids ->
     channels (db w') !! k = channels (db w) !! k /\
     processes (mgr w') !! k = processes (mgr w) !! k).
Proof.
  intros Hup Hkeyed _ w'. subst w'. unfold BatchRestartChannels.
  set (Inv := fun v : World =>
    db_up (db v) = true /\
    map_Forall (fun k c => ID c = k) (channels (db v)) /\
    (forall k, is_Some (channels (db w) !! k) ->
               is_Some (channels (db v) !! k)) /\
    (forall k, k ∉ ids ->
       channels (db v) !! k = channels (db w) !! k /\
       processes (mgr v) !! k = processes (mgr w) !! k)).
  set (Done := fun (id : uuid) (v : World) =>
    forall ch, channels (db v) !! id = Some ch ->
      (is_Some (processes (mgr v) !! id) /\
       Status ch = ChannelStatusRunning) \/
      (processes (mgr v) !! id = None /\ Status ch = ChannelStatusError)).
  destruct (batchProcess_invariant RestartChannel 3 (200 * Millisecond)
              ltac:(lia) (fun id => id ∈ ids) Inv Done (fun _ _ => True))
    with (ids := ids) (sched := sched) (w := w)
    as (Hinv & Hdone & _).
  - intros j v Hj (Hup' & Hkey & Hdom & Hframe).
    destruct (RestartChannel_spec j v Hup') as (Hup1 & Hfr & Hcase).
    { intros ch Hch. exact (Hkey j ch Hch). }
    unfold exec in *. split; [done|]. split; [|split].
    + intros k ch' Hch'. cbn. destruct (decide (k = j)) as [->|Hne].
      * destruct (channels (db v) !! j) as [ch0|] eqn:Hrow.
        -- destruct Hcase as (ch1 & Hc1 & Hid1 & _). congruence.
        -- destruct Hcase as [_ Hsame]. rewrite Hsame in Hch'.
           exact (Hkey j ch' Hch').
      * destruct (Hfr k Hne) as [Hc _]. rewrite Hc in Hch'.
        exact (Hkey k ch' Hch').
    + intros k Hk. apply Hdom in Hk as [ch0 Hch0].
      destruct (decide (k = j)) as [->|Hne].
      * rewrite Hch0 in Hcase. destruct Hcase as (ch1 & -> & _). by eexists.
      * destruct (Hfr k Hne) as [-> _]. by eexists.
    + intros k Hk. assert (k <> j) by (intros ->; done).
      destruct (Hfr k) as [-> ->]; [done|]. by apply Hframe.
  - intros j v Hj (Hup' & Hkey & _) ch Hrow.
    destruct (RestartChannel_spec j v Hup') as (_ & _ & Hcase).
    { intros ch' Hch'. exact (Hkey j ch' Hch'). }
    unfold exec in *.
    destruct (channels (db v) !! j) as [ch0|] eqn:Hrow0.
    + destruct Hcase as (ch1 & Hc1 & _ & [(_ & Hp & Hs)|(e & _ & Hp & Hs)]);
        rewrite Hc1 in Hrow; injection Hrow as <-; [by left|by right].
    + destruct Hcase as [_ Hsame]. rewrite Hsame, Hrow0 in Hrow. done.
  - intros id j v Hj (Hup' & Hkey & _) Hd ch Hrow.
    destruct (RestartChannel_spec j v Hup') as (_ & Hfr & Hcase).
    { intros ch' Hch'. exact (Hkey j ch' Hch'). }
    unfold exec in *. destruct (decide (id = j)) as [->|Hne].
    + destruct (channels (db v) !! j) as [ch0|] eqn:Hrow0.
      * destruct Hcase
          as (ch1 & Hc1 & _ & [(_ & Hp & Hs)|(e & _ & Hp & Hs)]);
          rewrite Hc1 in Hrow; injection Hrow as <-; [by left|by right].
      * destruct Hcase as [_ Hsame]. rewrite Hsame, Hrow0 in Hrow. done.
    + destruct (Hfr id Hne) as [Hc Hp]. rewrite Hc in Hrow. rewrite Hp.
      by apply Hd.
  - done.
  - intros d v (Hup' & Hkey & Hdom & Hframe). unfold Inv.
    destruct (Sleep_effect d v) as (-> & -> & _). done.
  - intros id d v Hd. unfold Done.
    destruct (Sleep_effect d v) as (-> & -> & _). done.
  - done.
  - repeat split; done.
  - destruct Hinv as (_ & _ & Hdom & Hframe). split; [|exact Hframe].
    intros id Hin Hrow. apply Hdom in Hrow as [ch Hrow].
    exists ch. split; [exact Hrow|]. by apply (Hdone id Hin).
Qed.

Lemma BatchRestartChannels_status_follows_table_witness :
  (db_up (db running) = true /\
   map_Forall (fun k c => ID c = k) (channels (db running)) /\
   NoDup [c1; c2]) /\
  exists ch,
    channels (db (exec (BatchRestartChannels [c1; c2] [1%nat]) running)) !! c1
    = Some ch /\
    is_Some (processes (mgr (exec (BatchRestartChannels [c1; c2] [1%nat])
                                  running)) !! c1) /\
    Status ch = ChannelStatusRunning.
Proof.
  assert (H1 : db_up (db running) = true) by reflexivity.
  assert (H2 : map_Forall (fun k c => ID c = k) (channels (db running))).
  { apply (bool_decide_unpack _). vm_compute. exact I. }
  assert (H3 : NoDup [c1; c2]).
  { apply (bool_decide_unpack _). vm_compute. exact I. }
  destruct (BatchRestartChannels_status_follows_table [c1; c2] [1%nat]
              running H1 H2 H3) as (Hlisted & _).
  split; [by repeat split|].
  destruct (Hlisted c1) as (ch & Hch & Hcase).
  - by left.
  - eexists. vm_compute. reflexivity.
  - exists ch. split; [exact Hch|].
    destruct Hcase as [(Hp & Hs)|(Hp & _)]; [by split|].
    exfalso. revert Hp. vm_compute. discriminate.
Defined.

End RestartEffects.

(** ** Settings: reading and writing *)

Module SettingsEffects.
Import Postgres App Settings Examples SettingsFacts.

(** Reading back the document [UpdateSettings] writes gives the settings
    it was made from. *)
Lemma decode_to_document (s : Settings) (w : World) :
  db_up (db w) = true ->
  system_settings (db w) = Some (to_document s) ->
  eval GetSettings w = inl s.
Proof.
  intros Hup Hdoc. unfold GetSettings, GetSystemSettings. run.
  rewrite Hup, Hdoc. run. destruct s. f_equal.
Qed.

(** What a successful [UpdateSettings] went through. *)
Lemma UpdateSettings_success (req : UpdateSettingsRequest) (w : World)
    (s : Settings) :
  eval (UpdateSettings req) w = inl s ->
  exists current,
    eval GetSettings w = inl current /\
    apply_request req current = inl s /\
    db_up (db w) = true /\
    exec (UpdateSettings req) w
    = set_db (set_system_settings (Some (to_document s)) (db w)) w.
Proof.
  unfold UpdateSettings. run. rewrite CheckRunningChannels_reads_only.
  destruct (fst (CheckRunningChannels w)); [done|]. run.
  assert (Hread : snd (GetSettings w) = w).
  { unfold GetSettings, GetSystemSettings. run.
    by destruct (db_up (db w)), (system_settings (db w)). }
  rewrite Hread. destruct (fst (GetSettings w)) as [current|] eqn:Hcur;
    [|done].
  destruct (apply_request req current) as [updated|] eqn:Happ; [|done].
  unfold UpdateSystemSettings. run.
  destruct (db_up (db w)) eqn:Hup; run; [|done].
  intros [= <-]. by exists current.
Qed.

(** X13. Settings that were saved are the settings read. When
    [UpdateSettings] returns settings, a [GetSettings] that follows
    returns exactly those, and the update changed nothing but the settings
    row. *)
Theorem UpdateSettings_then_GetSettings (req : UpdateSettingsRequest)
    (w : World) (s : Settings) :
  eval (UpdateSettings req) w = inl s ->
  let w' := exec (UpdateSettings req) w in
  eval GetSettings w' = inl s /\
  channels (db w') = channels (db w) /\ mgr w' = mgr w /\
  fs w' = fs w /\ trace w' = trace w.
Proof.
  intros Hok w'. subst w'.
  destruct (UpdateSettings_success req w s Hok)
    as (current & _ & _ & Hup & ->).
  split; [|done]. by apply decode_to_document.
Qed.

Lemma UpdateSettings_then_GetSettings_witness :
  exists s,
    eval (UpdateSettings (crf_request 28)) idle = inl s /\
    eval GetSettings (exec (UpdateSettings (crf_request 28)) idle) = inl s /\
    DefaultCRF s = 28 /\ MaxChannels s = 80.
Proof.
  eexists. split; [vm_compute; reflexivity|].
  split; [|split; reflexivity].
  exact (proj1 (UpdateSettings_then_GetSettings (crf_request 28) idle _ eq_refl)).
Defined.

Lemma validated_inl {A} (field : option A) (ok : A -> bool) (msg : error)
    (current v : A) :
  validated field ok msg current = inl v ->
  v = default current field /\ (forall x, field = Some x -> ok x = true).
Proof.
  unfold validated. destruct field as [x|]; cbn.
  - destruct (ok x) eqn:Hok; [|done]. intros [= <-]. split; [done|].
    by intros ? [= <-].
  - intros [= <-]. by split.
Qed.

(** What [apply_request] returns when it accepts the request. *)
Lemma apply_request_inl (req : UpdateSettingsRequest) (current s : Settings) :
  apply_request req current = inl s ->
  (MaxChannels s = default (MaxChannels current) (req_MaxChannels req)) /\
  (SegmentTime_ s = default (SegmentTime_ current) (req_SegmentTime req)) /\
  (PlaylistSize_ s
   = default (PlaylistSize_ current) (req_PlaylistSize req)) /\
  (LogRetention s = default (LogRetention current) (req_LogRetention req)) /\
  (DefaultPreset_ s
   = default (DefaultPreset_ current) (req_DefaultPreset req)) /\
  (DefaultBitrate_ s
   = default (DefaultBitrate_ current) (req_DefaultBitrate req)) /\
  (DefaultResolution s
   = default (DefaultResolution current) (req_DefaultResolution req)) /\
  (DefaultProfile s
   = default (DefaultProfile current) (req_DefaultProfile req)) /\
  (DefaultCRF s = default (DefaultCRF current) (req_DefaultCRF req)) /\
  (DefaultMaxrate s
   = default (DefaultMaxrate current) (req_DefaultMaxrate req)) /\
  (DefaultBufsize s
   = default (DefaultBufsize current) (req_DefaultBufsize req)) /\
  (forall v, req_MaxChannels req = Some v -> 1 <= v <= 1000) /\
  (forall v, req_SegmentTime req = Some v -> 1 <= v <= 30) /\
  (forall v, req_PlaylistSize req = Some v -> 1 <= v <= 100) /\
  (forall v, req_LogRetention req = Some v -> 1 <= v <= 365) /\
  (forall v, req_DefaultCRF req = Some v -> 0 <= v <= 51) /\
  (forall p, req_DefaultPreset req = Some p -> p ∈ validPresets) /\
  (forall p, req_DefaultProfile req = Some p -> p ∈ validProfiles).
Proof.
  unfold apply_request.
  destruct (validated (req_MaxChannels req) _ _ _) as [v1|] eqn:H1; [|done].
  destruct (validated (req_SegmentTime req) _ _ _) as [v2|] eqn:H2; [|done].
  destruct (validated (req_PlaylistSize req) _ _ _) as [v3|] eqn:H3; [|done].
  destruct (validated (req_LogRetention req) _ _ _) as [v4|] eqn:H4; [|done].
  destruct (validated (req_DefaultPreset req) _ _ _) as [v5|] eqn:H5; [|done].
  destruct (validated (req_DefaultProfile req) _ _ _) as [v6|] eqn:H6; [|done].
  destruct (validated (req_DefaultCRF req) _ _ _) as [v7|] eqn:H7; [|done].
  intros [= <-]. cbn.
  apply validated_inl in H1 as [-> R1], H2 as [-> R2], H3 as [-> R3],
    H4 as [-> R4], H5 as [-> R5], H6 as [-> R6], H7 as [-> R7].
  assert (Hrange : forall lo hi v, in_range lo hi v = true -> lo <= v <= hi).
  { intros lo hi v Hv. unfold in_range in Hv.
    apply andb_true_iff in Hv as [Ha Hb]. lia. }
  repeat (split; [reflexivity|]).
  split; [intros v Hv; apply Hrange; exact (R1 v Hv)|].
  split; [intros v Hv; apply Hrange; exact (R2 v Hv)|].
  split; [intros v Hv; apply Hrange; exact (R3 v Hv)|].
  split; [intros v Hv; apply Hrange; exact (R4 v Hv)|].
  split; [intros v Hv; apply Hrange; exact (R7 v Hv)|].
  split; intros p Hp; eapply bool_decide_eq_true_1; eauto.
Qed.

(** X14. A partial update changes only the fields it names, and only to
    valid values. When [UpdateSettings] returns settings, each field is
    the value the request gives for it, or the value [GetSettings]
    returned before where the request is silent; and every value the
    request gives lies in its range: 1-1000 channels, 1-30 seconds of
    segment, 1-100 playlist entries, 1-365 days of logs, a CRF of 0-51, a
    preset and a profile of the two fixed lists. *)
Theorem UpdateSettings_merges_request (req : UpdateSettingsRequest)
    (w : World) (s : Settings) :
  eval (UpdateSettings req) w = inl s ->
  exists current,
    eval GetSettings w = inl current /\
    (MaxChannels s = default (MaxChannels current) (req_MaxChannels req)) /\
    (SegmentTime_ s = default (SegmentTime_ current) (req_SegmentTime req)) /\
    (PlaylistSize_ s
     = default (PlaylistSize_ current) (req_PlaylistSize req)) /\
    (LogRetention s = default (LogRetention current) (req_LogRetention req)) /\
    (DefaultPreset_ s
     = default (DefaultPreset_ current) (req_DefaultPreset req)) /\
    (DefaultBitrate_ s
     = default (DefaultBitrate_ current) (req_DefaultBitrate req)) /\
    (DefaultResolution s
     = default (DefaultResolution current) (req_DefaultResolution req)) /\
    (DefaultProfile s
     = default (DefaultProfile current) (req_DefaultProfile req)) /\
    (DefaultCRF s = default (DefaultCRF current) (req_DefaultCRF req)) /\
    (DefaultMaxrate s
     = default (DefaultMaxrate current) (req_DefaultMaxrate req)) /\
    (DefaultBufsize s
     = default (DefaultBufsize current) (req_DefaultBufsize req)) /\
    (forall v, req_MaxChannels req = Some v -> 1 <= v <= 1000) /\
    (forall v, req_SegmentTime req = Some v -> 1 <= v <= 30) /\
    (forall v, req_PlaylistSize req = Some v -> 1 <= v <= 100) /\
    (forall v, req_LogRetention req = Some v -> 1 <= v <= 365) /\
    (forall v, req_DefaultCRF req = Some v -> 0 <= v <= 51) /\
    (forall p, req_DefaultPreset req = Some p -> p ∈ validPresets) /\
    (forall p, req_DefaultProfile req = Some p -> p ∈ validProfiles).
Proof.
  intros Hok.
  destruct (UpdateSettings_success req w s Hok)
    as (current & Hcur & Happ & _ & _).
  exists current. split; [exact Hcur|]. by apply apply_request_inl.
Qed.

Lemma UpdateSettings_merges_request_witness :
  exists s current,
    eval (UpdateSettings (crf_request 28)) idle = inl s /\
    eval GetSettings idle = inl current /\
    DefaultCRF s = 28 /\ MaxChannels s = MaxChannels current.
Proof.
  destruct (UpdateSettings_merges_request (crf_request 28) idle _ eq_refl)
    as (current & Hcur & Hmax & _ & _ & _ & _ & _ & _ & _ & Hcrf & _).
  eexists. exists current. split; [reflexivity|]. split; [exact Hcur|].
  split; [exact Hcrf|exact Hmax].
Defined.

(** X15. A rejected update persists nothing. Whenever [UpdateSettings]
    returns an error the world is as before; and it does return an error
    when the request carries a number outside its range or a preset or a
    profile that is not in the fixed lists, however valid the other
    fields are. *)
Theorem UpdateSettings_all_or_nothing (req : UpdateSettingsRequest)
    (w : World) :
  (forall e, eval (UpdateSettings req) w = inr e ->
     exec (UpdateSettings req) w = w) /\
  ((exists v, req_MaxChannels req = Some v /\ ~ (1 <= v <= 1000)) \/
   (exists v, req_SegmentTime req = Some v /\ ~ (1 <= v <= 30)) \/
   (exists v, req_PlaylistSize req = Some v /\ ~ (1 <= v <= 100)) \/
   (exists v, req_LogRetention req = Some v /\ ~ (1 <= v <= 365)) \/
   (exists v, req_DefaultCRF req = Some v /\ ~ (0 <= v <= 51)) \/
   (exists p, req_DefaultPreset req = Some p /\ p ∉ validPresets) \/
   (exists p, req_DefaultProfile req = Some p /\ p ∉ validProfiles) ->
   exists e, eval (UpdateSettings req) w = inr e).
Proof.
  split.
  - intros e. unfold UpdateSettings. run.
    rewrite CheckRunningChannels_reads_only.
    destruct (fst (CheckRunningChannels w)); [done|]. run.
    assert (Hread : snd (GetSettings w) = w).
    { unfold GetSettings, GetSystemSettings. run.
      by destruct (db_up (db w)), (system_settings (db w)). }
    rewrite Hread. destruct (fst (GetSettings w)) as [current|]; [|done].
    destruct (apply_request req current); [|done].
    unfold UpdateSystemSettings. run. by destruct (db_up (db w)).
  - intros Hbad.
    destruct (eval (UpdateSettings req) w) as [s|e] eqn:Hres; [|by exists e].
    exfalso.
    destruct (UpdateSettings_success req w s Hres)
      as (current & _ & Happ & _ & _).
    destruct (apply_request_inl req current s Happ)
      as (_ & _ & _ & _ & _ & _ & _ & _ & _ & _ & _
          & R1 & R2 & R3 & R4 & R5 & R6 & R7).
    destruct Hbad as [(v & Hv & Hn)|[(v & Hv & Hn)|[(v & Hv & Hn)|
                     [(v & Hv & Hn)|[(v & Hv & Hn)|[(v & Hv & Hn)|
                      (v & Hv & Hn)]]]]]]; eauto.
Qed.

Lemma UpdateSettings_all_or_nothing_witness :
  exists e,
    eval (UpdateSettings (crf_request 52)) idle = inr e /\
    exec (UpdateSettings (crf_request 52)) idle = idle.
Proof.
  destruct (UpdateSettings_all_or_nothing (crf_request 52) idle)
    as [Hsame Hrej].
  destruct Hrej as [e He].
  { right. right. right. right. left. exists 52. split; [reflexivity|lia]. }
  exists e. split; [exact He|exact (Hsame e He)].
Defined.

End SettingsEffects.

Module SettingsReads.
Import Postgres App Settings Examples.

(** X16. Reading the settings falls back to the defaults key by key.
    [GetSettings] changes nothing. With an unreachable database or no
    settings row it returns the built-in defaults. With a row that holds
    a JSON object whose numbers are integers of magnitude at most 2^53
    (those a float64 holds exactly) it returns settings in which
    [max_channels] is the stored number, or 80 when the key is missing or
    holds a text, and [default_preset] is the stored text, or [veryfast]
    when it holds a number. *)
Theorem GetSettings_falls_back_to_defaults (w : World) :
  exec GetSettings w = w /\
  (db_up (db w) = false \/ system_settings (db w) = None ->
   eval GetSettings w
   = inl {| MaxChannels := 80; SegmentTime_ := 3; PlaylistSize_ := 6;
            LogRetention := 1; DefaultPreset_ := "veryfast";
            DefaultBitrate_ := "3500k"; DefaultResolution := "1920x1080";
            DefaultProfile := "high"; DefaultCRF := 23;
            DefaultMaxrate := "3800k"; DefaultBufsize := "7600k" |}) /\
  (forall doc,
     db_up (db w) = true -> system_settings (db w) = Some doc ->
     map_Forall (fun _ v => match v with
                            | JNum n => - 2 ^ 53 <= n <= 2 ^ 53
                            | _ => True
                            end) doc ->
     exists s,
       eval GetSettings w = inl s /\
       (forall n, doc !! "max_channels" = Some (JNum n) ->
                  MaxChannels s = n) /\
       (doc !! "max_channels" = None -> MaxChannels s = 80) /\
       (forall t, doc !! "max_channels" = Some (JStr t) ->
                  MaxChannels s = 80) /\
       (forall t, doc !! "default_preset" = Some (JStr t) ->
                  DefaultPreset_ s = t) /\
       (forall n, doc !! "default_preset" = Some (JNum n) ->
                  DefaultPreset_ s = "veryfast")).
Proof.
  unfold GetSettings, GetSystemSettings. run.
  destruct (db_up (db w)) eqn:Hup; run.
  - destruct (system_settings (db w)) as [doc|] eqn:Hdoc; run.
    + split; [done|]. split; [by intros [|]|].
      intros doc' _ [= <-] _. eexists. split; [reflexivity|].
      cbn. unfold num_or, str_or.
      repeat split; intros; by simplify_option_eq.
    + split; [done|]. split; [|by intros doc' _ [=]]. intros _. reflexivity.
  - split; [done|]. split; [|by intros doc' [=]]. intros _. reflexivity.
Qed.

(** X17. What blocks a settings update is the persisted status alone.
    [CheckRunningChannels] reads only the store. It lets the update pass
    exactly when the database is reachable and no row has the status
    [running]: a row that is [starting] or [stopping] does not block, a
    process in the table of the manager plays no part, and with a row
    persisted as [running] the update is refused even if no process
    exists. *)
Theorem CheckRunningChannels_reads_status_only (w : World) :
  exec CheckRunningChannels w = w /\
  (eval CheckRunningChannels w = None <->
   db_up (db w) = true /\
   forall id ch, channels (db w) !! id = Some ch ->
                 Status ch <> ChannelStatusRunning) /\
  (forall m, eval CheckRunningChannels (set_mgr m w)
             = eval CheckRunningChannels w).
Proof.
  split; [apply SettingsFacts.CheckRunningChannels_reads_only|].
  split.
  2:{ intros m. unfold CheckRunningChannels, ListChannels, GetAll. run.
      destruct (db_up (db w)); run; [|done]. by destruct (existsb _ _). }
  unfold CheckRunningChannels, ListChannels, GetAll. run.
  destruct (db_up (db w)) eqn:Hup; run.
  2:{ split; [done|]. by intros [? _]. }
  rewrite SettingsFacts.running_with_OutputURL.
  destruct (existsb _ _) eqn:Hex; run.
  - split; [done|]. intros [_ Hnone]. exfalso.
    apply existsb_exists in Hex as (ch & Hin & Hst).
    apply list_elem_of_In, list_elem_of_fmap in Hin as ([id ch'] & -> & Hin).
    apply elem_of_map_to_list in Hin. apply bool_decide_eq_true in Hst.
    exact (Hnone id ch' Hin Hst).
  - split; [|done]. intros _. split; [done|]. intros id ch Hrow Hst.
    assert (Hex' : existsb
              (fun c => bool_decide (Status c = ChannelStatusRunning))
              (snd <$> map_to_list (channels (db w))) = true).
    { apply existsb_exists. exists ch. split.
      - apply list_elem_of_In, list_elem_of_fmap. exists (id, ch).
        split; [done|]. by apply elem_of_map_to_list.
      - by apply bool_decide_eq_true_2. }
    congruence.
Qed.

End SettingsReads.

(** ** Setting up the manager, and its log buffer *)

Module SetupFacts.
Import GoStrings FFmpeg Examples.

Lemma count_nodes_ge (entries : list DirEntry) (n : Z) :
  n <= count_nodes entries n.
Proof.
  revert n. induction entries as [|e es IH]; intros n; cbn [count_nodes];
    [lia|].
  destruct (_ && _); [|apply IH].
  destruct (_ <? _)%nat; [|apply IH].
  destruct (Atoi _); [|apply IH].
  specialize (IH (n + 1)). lia.
Qed.

Lemma scan_available_nonneg (lines : list string) : 0 <= scan_available lines.
Proof.
  induction lines as [|l ls IH]; cbn [scan_available]; [lia|].
  destruct (HasPrefix _ _); [|done].
  destruct (Fields l) as [|? [|field [|? ?]]]; try done.
  destruct (Atoi field) as [count|]; [|done].
  destruct (0 <? count) eqn:Hc; [|done]. lia.
Qed.

Lemma detectNUMANodes_nonneg (entries : option (list DirEntry))
    (numactl_hardware : option string) :
  0 <= detectNUMANodes entries numactl_hardware.
Proof.
  unfold detectNUMANodes. destruct entries as [es|]; [|lia].
  destruct (0 <? count_nodes es 0) eqn:Hc; [lia|].
  destruct numactl_hardware; [apply scan_available_nonneg|lia].
Qed.

(** The nodes [n] calls hand out, from a counter that does not overflow. *)
Lemma next_nodes_rotation (n : nat) :
  forall (w : World),
  1 < numaNodeCount (mgr w) ->
  0 <= numaNodeCounter (mgr w) ->
  eval (next_nodes n) w
  = (fun i : nat => (numaNodeCounter (mgr w) + Z.of_nat i)
                      mod numaNodeCount (mgr w)) <$> seq 0 n.
Proof.
  induction n as [|n IH]; intros w Hcount Hctr; [done|].
  cbn [next_nodes]. unfold getNextNUMANode. run.
  destruct (numaNodeCount (mgr w) <=? 1) eqn:Hle; [lia|]. run.
  set (w1 := set_mgr _ w).
  change (fst (next_nodes n w1)) with (eval (next_nodes n) w1).
  rewrite IH by (subst w1; cbn; lia). subst w1. cbn [seq fmap list_fmap].
  f_equal.
  - rewrite Z.add_0_r. rewrite Z.rem_mod_nonneg by lia. done.
  - rewrite <- seq_shift, <- list_fmap_compose. apply list_fmap_ext.
    intros i x _. cbn. f_equal. lia.
Qed.

Lemma next_nodes_single (n : nat) (w : World) :
  numaNodeCount (mgr w) <= 1 -> eval (next_nodes n) w = replicate n 0.
Proof.
  intros Hone. induction n as [|n IH]; [done|].
  cbn [next_nodes replicate]. unfold getNextNUMANode. run.
  destruct (numaNodeCount (mgr w) <=? 1) eqn:Hle; [|lia]. run.
  change (fst (next_nodes n w)) with (eval (next_nodes n) w).
  by rewrite IH.
Qed.

(** X18. A new manager spreads its children over the NUMA nodes in turn.
    Whatever the node directory and [numactl] report, a manager made by
    [NewProcessManagerWithCallback] has an empty table and a node count of
    at least one; and as long as its call counter stays below 2^63, the
    nodes [getNextNUMANode] hands out are 0, 1, ..., count-1, 0, 1, ... in
    that order when there are several nodes, and always node 0 when there
    is one. Each is a valid node index. *)
Theorem new_manager_rotates_numa_nodes (config : Config)
    (hlsPath logoPath : string) (statusCallback : option StatusUpdateCallback)
    (entries : option (list DirEntry)) (numactl_hardware : option string)
    (w : World) (n : nat) :
  mgr w = NewProcessManagerWithCallback config hlsPath logoPath
            statusCallback entries numactl_hardware ->
  Z.of_nat n < 2 ^ 63 ->
  let count := numaNodeCount (mgr w) in
  processes (mgr w) = ∅ /\
  1 <= count /\
  (count = Z.max 1 (detectNUMANodes entries numactl_hardware)) /\
  eval (next_nodes n) w = (fun i : nat => Z.of_nat i mod count) <$> seq 0 n /\
  (forall node, node ∈ eval (next_nodes n) w -> 0 <= node < count).
Proof.
  intros Hmgr Hn count.
  pose proof (detectNUMANodes_nonneg entries numactl_hardware) as Hnn.
  assert (Hcount : count
                   = Z.max 1 (detectNUMANodes entries numactl_hardware)).
  { subst count. rewrite Hmgr. cbn.
    destruct (decide (_ = 0)) as [->|]; lia. }
  assert (Hctr : numaNodeCounter (mgr w) = 0) by (by rewrite Hmgr).
  assert (Hnodes : eval (next_nodes n) w
                   = (fun i : nat => Z.of_nat i mod count) <$> seq 0 n).
  { destruct (decide (count = 1)) as [Hone|Hmany].
    - rewrite next_nodes_single by (fold count; lia). rewrite Hone.
      generalize 0%nat. clear. induction n as [|n IH]; intros k; [done|].
      cbn [seq fmap list_fmap replicate]. by rewrite Z.mod_1_r, <- IH.
    - rewrite next_nodes_rotation by lia. apply list_fmap_ext.
      intros i x _. cbn. by rewrite Hctr. }
  split; [by rewrite Hmgr|]. split; [lia|]. split; [done|].
  split; [done|].
  intros node Hin. rewrite Hnodes in Hin.
  apply list_elem_of_fmap in Hin as (i & -> & _).
  apply Z.mod_pos_bound. lia.
Qed.

Lemma new_manager_rotates_numa_nodes_witness :
  let m := NewProcessManagerWithCallback (config fresh_manager) "/var/hls"
             "/var/logos" None
             (Some two_nodes)
             None in
  numaNodeCount m = 2 /\
  eval (next_nodes 5) (set_mgr m idle) = [0; 1; 0; 1; 0].
Proof.
  intros m.
  destruct (new_manager_rotates_numa_nodes (config fresh_manager) "/var/hls"
              "/var/logos" None
              (Some two_nodes)
              None (set_mgr m idle) 5 eq_refl)
    as (_ & _ & _ & Hnodes & _).
  { vm_compute. reflexivity. }
  split; [vm_compute; reflexivity|]. rewrite Hnodes. vm_compute. reflexivity.
Defined.

(** The last [k] elements. *)
Lemma keep_line_last (logs : list string) (line : string) :
  keep_line logs line
  = drop (length (logs ++ [line]) - 500) (logs ++ [line]).
Proof.
  unfold keep_line. destruct (500 <? _)%nat eqn:Hlen; [done|].
  apply Nat.ltb_ge in Hlen.
  replace (length (logs ++ [line]) - 500)%nat with 0%nat by lia. done.
Qed.

Lemma drop_last_app (k : nat) (l r : list string) :
  drop (length (drop (length l - k) l ++ r) - k) (drop (length l - k) l ++ r)
  = drop (length (l ++ r) - k) (l ++ r).
Proof.
  destruct (decide (length l <= k)%nat) as [Hle|Hgt].
  - replace (length l - k)%nat with 0%nat by lia. done.
  - rewrite !length_app, length_drop.
    replace (length l - (length l - k) + length r - k)%nat
      with (length r) by lia.
    replace (length l + length r - k)%nat
      with ((length l - k) + length r)%nat by lia.
    rewrite <- drop_drop. f_equal. rewrite drop_app_le by lia. done.
Qed.

(** X19. The log buffer holds the last 500 lines. Starting from a buffer of
    at most 500 lines ([Start] makes an empty one), after the monitor has
    read any sequence of lines the buffer is exactly the last 500 lines of
    everything it held and read, in order; so it never exceeds 500 lines
    and the newest line is always kept. *)
Theorem log_buffer_keeps_last_500 (lines logs : list string) :
  (length logs <= 500)%nat ->
  monitorProgress_logs lines logs
  = drop (length (logs ++ lines) - 500) (logs ++ lines) /\
  (length (monitorProgress_logs lines logs) <= 500)%nat /\
  (forall line, last lines = Some line ->
                last (monitorProgress_logs lines logs) = Some line).
Proof.
  intros Hlen.
  assert (Heq : monitorProgress_logs lines logs
                = drop (length (logs ++ lines) - 500) (logs ++ lines)).
  { unfold monitorProgress_logs. revert logs Hlen.
    induction lines as [|line lines IH]; intros logs Hlen.
    - cbn. rewrite app_nil_r.
      replace (length logs - 500)%nat with 0%nat by lia. done.
    - cbn [foldl]. rewrite IH.
      + rewrite keep_line_last, drop_last_app.
        by rewrite <- List.app_assoc.
      + rewrite keep_line_last, length_drop. lia. }
  split; [exact Heq|]. split.
  - rewrite Heq, length_drop. lia.
  - intros line Hlast. rewrite Heq.
    destruct lines as [|l0 ls] using rev_ind; [done|].
    rewrite last_snoc in Hlast. injection Hlast as ->.
    rewrite List.app_assoc.
    rewrite drop_app_le.
    + by rewrite last_snoc.
    + rewrite !length_app. cbn. lia.
Qed.

Lemma log_buffer_keeps_last_500_witness :
  (length ([] : list string) <= 500)%nat /\
  length (monitorProgress_logs (replicate 700 "frame= 1") []) = 500%nat /\
  monitorProgress_logs ["a"; "b"] ["x"] = ["x"; "a"; "b"].
Proof.
  assert (H0 : (length ([] : list string) <= 500)%nat) by (cbn; lia).
  destruct (log_buffer_keeps_last_500 (replicate 700 "frame= 1") [] H0)
    as (Heq & _).
  split; [exact H0|]. split.
  - rewrite Heq. vm_compute. reflexivity.
  - reflexivity.
Defined.

End SetupFacts.

(** ** Supervision: watcher, stop, metrics of all channels *)

Module SupervisionFacts.
Import Postgres FFmpeg App ManagerFacts MetricsReads Run Examples.

(** X20. The watcher only ever cleans up. Whatever the exit status, the
    uptime and the restart flag, when the watcher of a process has run
    (with nothing else happening during its pause) the table has no entry
    for the channel and is otherwise as before, the output directory of
    the channel is gone, no child was started and the only event it can
    have added is its two-second pause. With the repository callback of
    [main] installed no other row changes; the row of the channel is
    touched only when the process lived less than ten seconds; and when
    the entry was already gone, as after an explicit stop, the database,
    the clock and the trace are left alone. *)
Theorem watcher_only_cleans_up (w : World) (process : Process)
    (exitErr : option error) :
  let id := ChannelID process in
  let w' := exec (watchProcess process exitErr (ret tt)) w in
  processes (mgr w') = delete id (processes (mgr w)) /\
  next_pid w' = next_pid w /\
  (trace w' = trace w \/
   trace w' = (trace w ++ [EvSleep (2 * Second)])%list) /\
  (forall q, under (filepath_Join (hlsPath (mgr w)) id) q = true ->
             q ∉ fs w') /\
  (statusCallback (mgr w) = Some UpdateStatus_db ->
   forall k, k <> id -> channels (db w') !! k = channels (db w) !! k) /\
  (minUptimeForRestart <= now w - StartedAt process -> db w' = db w) /\
  (processes (mgr w) !! id = None ->
   db w' = db w /\ trace w' = trace w /\ now w' = now w).
Proof.
  intros id w'. subst id w'. unfold watchProcess, watch_exit. run.
  destruct (processes (mgr w) !! ChannelID process) as [p|] eqn:Hp.
  - rewrite bool_decide_eq_true_2
      by (rewrite lookup_alter_eq, Hp; by eexists).
    run. rewrite delete_alter_same.
    destruct (Z.ltb_spec (now w - StartedAt process) minUptimeForRestart)
      as [Hshort|Hlong].
    + unfold os_RemoveAll, call_statusCallback. run.
      destruct (statusCallback (mgr w)) as [cb|] eqn:Hcb; run.
      * split; [done|]. split; [done|]. split; [by left|].
        split; [intros q; apply removed_gone|].
        split; [|split; [lia|done]].
        intros [= ->] k Hk. unfold UpdateStatus_db.
        destruct (db_up (db w)); [|done]. cbn. by rewrite lookup_alter_ne.
      * split; [done|]. split; [done|]. split; [by left|].
        split; [intros q; apply removed_gone|]. by repeat split.
    + destruct (AutoRestart (Channel_ process)); run.
      * unfold watch_restart, IsRunning. run.
        rewrite bool_decide_eq_false_2
          by (rewrite lookup_delete_eq; intros [? ?]; discriminate).
        unfold os_RemoveAll. run.
        split; [done|]. split; [done|]. split; [by right|].
        split; [intros q; apply removed_gone|]. by repeat split.
      * unfold os_RemoveAll. run.
        split; [done|]. split; [done|]. split; [by left|].
        split; [intros q; apply removed_gone|]. by repeat split.
  - rewrite bool_decide_eq_false_2
      by (rewrite lookup_alter_eq, Hp; intros [? ?]; discriminate).
    run. unfold os_RemoveAll. run.
    rewrite alter_absent by done.
    split; [by rewrite delete_id|]. split; [done|]. split; [by left|].
    split; [intros q; apply removed_gone|]. by repeat split.
Qed.

Lemma watcher_only_cleans_up_witness :
  let w := later (60 * Second) (exec (Stop c1) running) in
  let w' := exec (watchProcess child None (ret tt)) w in
  processes (mgr w) !! ChannelID child = None /\
  db w' = db w /\ trace w' = trace w /\ next_pid w' = next_pid w.
Proof.
  intros w w'.
  assert (H1 : processes (mgr w) !! ChannelID child = None)
    by (vm_compute; reflexivity).
  destruct (watcher_only_cleans_up w child None)
    as (_ & Hnp & _ & _ & _ & _ & Hgone).
  destruct (Hgone H1) as (Hdb & Ht & _).
  split; [exact H1|]. split; [exact Hdb|]. split; [exact Ht|exact Hnp].
Defined.

(** The records [metrics_all] makes of the entries. *)
Lemma metrics_all_entries (entries : list (string * Process)) (w : World) :
  Forall2 (fun e tp => tp_ChannelID tp = e.1 /\ tp_PID tp = Pid e.2 /\
                       tp_StartedAt tp = StartedAt e.2)
          entries (fst (metrics_all entries w)).
Proof.
  induction entries as [|[id p] es IH]; cbn [metrics_all]; [constructor|].
  run. rewrite metrics_of_reads_only. constructor; [|exact IH].
  unfold metrics_of. by run.
Qed.

Lemma foldl_insert_lookup (l : list TranscoderProcess)
    (m0 : gmap string TranscoderProcess) :
  NoDup (tp_ChannelID <$> l) ->
  let m := foldl (fun metricsMap process =>
                    <[tp_ChannelID process := process]> metricsMap) m0 l in
  (forall tp, tp ∈ l -> m !! tp_ChannelID tp = Some tp) /\
  (forall id, id ∉ tp_ChannelID <$> l -> m !! id = m0 !! id).
Proof.
  revert m0. induction l as [|x l IH]; intros m0 Hnd m; subst m.
  { split; [intros tp Hin; by apply elem_of_nil in Hin|done]. }
  cbn [fmap list_fmap] in Hnd. apply NoDup_cons in Hnd as [Hx Hnd].
  cbn [foldl]. destruct (IH (<[tp_ChannelID x := x]> m0) Hnd) as [Hin Hout].
  split.
  - intros tp Htp. apply elem_of_cons in Htp as [->|Htp].
    + rewrite Hout by done. apply lookup_insert_eq.
    + by apply Hin.
  - intros id Hid. cbn [fmap list_fmap] in Hid.
    apply not_elem_of_cons in Hid as [Hne Hid].
    rewrite Hout by done. by rewrite lookup_insert_ne.
Qed.

(** X22. The metrics of all channels cover exactly the running ones.
    [GetAllChannelMetrics] always succeeds; its map has an entry for a
    channel exactly when the table has a process for it, and that entry
    carries the id of the channel and the pid and the start time of that
    process. The call adds no entry to the table and removes none. *)
Theorem GetAllChannelMetrics_covers_table (w : World) :
  (forall id,
     processes (mgr (exec GetAllChannelMetrics w)) !! id = None
     <-> processes (mgr w) !! id = None) /\
  exists metricsMap,
    eval GetAllChannelMetrics w = inl metricsMap /\
    (forall id, metricsMap !! id = None <-> processes (mgr w) !! id = None) /\
    (forall id p, processes (mgr w) !! id = Some p ->
       exists tp,
         metricsMap !! id = Some tp /\ tp_ChannelID tp = id /\
         tp_PID tp = Pid p /\ tp_StartedAt tp = StartedAt p).
Proof.
  unfold GetAllChannelMetrics, GetAllProcesses. run.
  rewrite metrics_all_reads_only. split; [done|].
  eexists. split; [reflexivity|].
  set (entries := map_to_list (processes (mgr w))).
  pose proof (metrics_all_entries entries w) as Hall.
  set (l := fst (metrics_all entries w)) in *.
  assert (Hkeys : tp_ChannelID <$> l = entries.*1).
  { clear -Hall. induction Hall as [|e tp es l' (He & _) _ IH]; [done|].
    cbn. by rewrite He, IH. }
  assert (Hnd : NoDup (tp_ChannelID <$> l))
    by (rewrite Hkeys; apply NoDup_fst_map_to_list).
  destruct (foldl_insert_lookup l ∅ Hnd) as [Hin Hout].
  assert (Hsome : forall id p, processes (mgr w) !! id = Some p ->
            exists tp, tp ∈ l /\ tp_ChannelID tp = id /\
                       tp_PID tp = Pid p /\ tp_StartedAt tp = StartedAt p).
  { intros id p Hp. apply elem_of_map_to_list in Hp. fold entries in Hp.
    apply list_elem_of_lookup_1 in Hp as [i Hi].
    destruct (Forall2_lookup_l _ _ _ _ _ Hall Hi) as (tp & Htp & H1 & H2 & H3).
    exists tp. split; [by eapply list_elem_of_lookup_2|]. done. }
  split.
  - intros id. split.
    + intros Hnone. destruct (processes (mgr w) !! id) as [p|] eqn:Hp; [|done].
      destruct (Hsome id p Hp) as (tp & Htp & Hid & _).
      rewrite <- Hid, (Hin tp Htp) in Hnone. done.
    + intros Hnone. rewrite Hout; [done|]. rewrite Hkeys.
      intros Hk. apply list_elem_of_fmap in Hk as ([k p] & -> & Hkp).
      apply elem_of_map_to_list in Hkp. cbn in Hnone. congruence.
  - intros id p Hp. destruct (Hsome id p Hp) as (tp & Htp & Hid & Hpid & Hst).
    exists tp. rewrite <- Hid at 1. by rewrite (Hin tp Htp).
Qed.

End SupervisionFacts.

(** ** Permissions and the route table *)

Module AccessFacts.
Import Http Examples.

Lemma rank_unknown (role : string) :
  role <> UserRoleViewer -> role <> UserRoleOperator ->
  role <> UserRoleAdmin -> rank role = 0.
Proof.
  intros Hv Ho Ha. unfold rank, roleHierarchy. cbn [list_to_map foldr].
  cbn [fst snd]. by rewrite !lookup_insert_ne, lookup_empty.
Qed.

(** X23. The two permission checks agree, and an unknown role passes
    neither. For every pair of role texts, [User.HasPermission] holds
    exactly when the [RequireRole] middleware lets the request through.
    The administrator passes every requirement; the operator passes those
    of operator and viewer but not of administrator; the viewer passes
    only its own; and a role that is none of the three is refused wherever
    one of the three is required. *)
Theorem HasPermission_agrees_with_RequireRole (role required : string) :
  (HasPermission role required = true <->
   RequireRole required (Some role) = None) /\
  (forall r, r ∈ [UserRoleViewer; UserRoleOperator; UserRoleAdmin] ->
     HasPermission UserRoleAdmin r = true /\
     (HasPermission UserRoleOperator r = true <-> r <> UserRoleAdmin) /\
     (HasPermission UserRoleViewer r = true <-> r = UserRoleViewer) /\
     (role ∉ [UserRoleViewer; UserRoleOperator; UserRoleAdmin] ->
      HasPermission role r = false /\
      RequireRole r (Some role) = Some StatusForbidden)).
Proof.
  assert (Hrank : forall a b, HasPermission a b = (rank b <=? rank a))
    by reflexivity.
  split.
  - rewrite Hrank. unfold RequireRole.
    destruct (Z.ltb_spec (rank role) (rank required));
      rewrite ?Z.leb_le, ?Z.leb_gt; split; intros; try done; lia.
  - intros r Hr.
    assert (Hunknown : role ∉ [UserRoleViewer; UserRoleOperator;
                               UserRoleAdmin] ->
                       rank role = 0).
    { intros Hnot. apply rank_unknown; intros ->; apply Hnot;
        rewrite !elem_of_cons; auto. }
    rewrite !elem_of_cons, elem_of_nil in Hr.
    destruct Hr as [->|[->|[->|[]]]];
      (split; [reflexivity|]);
      (split; [split; [intros; discriminate || done
                      |intros; reflexivity || done]|]);
      (split; [split; [intros; discriminate || done
                      |intros; reflexivity || discriminate || done]|]);
      intros Hnot; rewrite Hrank; unfold RequireRole;
      rewrite (Hunknown Hnot); done.
Qed.






End AccessFacts.

(** ** The channel and upload handlers *)

Module HandlerFacts.
Import GoStrings Postgres App Http Examples BatchFacts FacadeFacts.

Section Parsed.
Variable uuid_Parse : string -> option uuid.

Lemma parse_ids_inl (channelIDs : list string) (ids : list uuid) :
  Handlers.parse_ids uuid_Parse channelIDs = inl ids <->
  Forall2 (fun idStr id => uuid_Parse idStr = Some id) channelIDs ids.
Proof.
  revert ids. induction channelIDs as [|s l IH]; intros ids; cbn.
  - split; [intros [= <-]; constructor|by intros ->%Forall2_nil_inv_l].
  - destruct (uuid_Parse s) as [id|] eqn:Hs.
    + destruct (Handlers.parse_ids uuid_Parse l) as [ids'|bad] eqn:Hl.
      * split.
        -- intros [= <-]. constructor; [done|]. by apply IH.
        -- intros (id' & ids'' & Hid & Hrest & ->)%Forall2_cons_inv_l.
           apply IH in Hrest. congruence.
      * split; [done|].
        intros (id' & ids'' & Hid & Hrest & ->)%Forall2_cons_inv_l.
        apply IH in Hrest. done.
    + split; [done|].
      intros (id' & ids'' & Hid & Hrest & ->)%Forall2_cons_inv_l. congruence.
Qed.

Lemma parse_ids_all (channelIDs : list string) :
  Forall (fun idStr => is_Some (uuid_Parse idStr)) channelIDs ->
  exists ids, Handlers.parse_ids uuid_Parse channelIDs = inl ids /\
              length ids = length channelIDs.
Proof.
  induction 1 as [|s l [id Hs] _ (ids & Hids & Hlen)]; cbn.
  - by exists [].
  - rewrite Hs, Hids. exists (id :: ids). cbn. by rewrite Hlen.
Qed.

(** X25. A batch request is checked as a whole before anything is done.
    Each of the four batch handlers answers 400 and leaves the world
    untouched when the body does not parse, when the list of ids is empty
    and when any one of the ids is not an identifier, wherever in the list
    it stands. When every id is an identifier the handler answers 200,
    and the success and failure entries of the result it sends number
    exactly the ids of the request, duplicates counted. *)
Theorem batch_request_checked_before_work
    (handler : list string + error -> list nat
               -> M (option (Handlers.Reply BatchResult)))
    (parsed : list string + error) (sched : list nat) (w : World) :
  handler ∈ [ Handlers.BatchStart uuid_Parse; Handlers.BatchStop uuid_Parse;
              Handlers.BatchRestart uuid_Parse;
              Handlers.BatchDelete uuid_Parse ] ->
  ((exists e, parsed = inr e) \/ parsed = inl [] \/
   (exists channelIDs bad, parsed = inl channelIDs /\ bad ∈ channelIDs /\
                           uuid_Parse bad = None) ->
   exists reply,
     handler parsed sched w = (Some reply, w) /\
     Handlers.re_status reply = StatusBadRequest /\
     Handlers.re_data reply = None) /\
  (forall channelIDs,
     parsed = inl channelIDs -> channelIDs <> [] ->
     Forall (fun idStr => is_Some (uuid_Parse idStr)) channelIDs ->
     exists result,
       eval (handler parsed sched) w
       = Some (Handlers.send StatusOK result) /\
       (length (Success result) + length (Failed result)
        = length channelIDs)%nat).
Proof.
  intros Hh.
  assert (Hshape : exists service limit,
    (0 < limit)%nat /\
    (forall ids sched' w',
       accounted ids limit sched' (fst (service ids sched' w'))) /\
    handler = Handlers.on_batch uuid_Parse service).
  { rewrite !elem_of_cons, elem_of_nil in Hh.
    destruct Hh as [->|[->|[->|[->|[]]]]].
    - exists BatchStartChannels, 5%nat. split; [lia|]. split; [|done].
      intros. apply batchProcess_accounts. lia.
    - exists BatchStopChannels, 5%nat. split; [lia|]. split; [|done].
      intros. apply batchProcess_accounts. lia.
    - exists BatchRestartChannels, 3%nat. split; [lia|]. split; [|done].
      intros. apply batchProcess_accounts. lia.
    - exists BatchDeleteChannels, 5%nat. split; [lia|]. split; [|done].
      intros. apply batchProcess_accounts. lia. }
  destruct Hshape as (service & limit & Hlimit & Hacc & ->).
  unfold Handlers.on_batch. split.
  - intros [(e & ->)|[->|(channelIDs & bad & -> & Hin & Hbad)]].
    + eexists. split; [reflexivity|]. by split.
    + eexists. split; [reflexivity|]. by split.
    + destruct (decide (length channelIDs = 0%nat)) as [Hlen|Hlen].
      { eexists. split; [reflexivity|]. by split. }
      destruct (Handlers.parse_ids uuid_Parse channelIDs) as [ids|bad']
        eqn:Hp.
      * exfalso. apply parse_ids_inl in Hp.
        apply list_elem_of_lookup_1 in Hin as [i Hi].
        destruct (Forall2_lookup_l _ _ _ _ _ Hp Hi) as (id & _ & Hid).
        congruence.
      * eexists. split; [reflexivity|]. by split.
  - intros channelIDs -> Hne Hall.
    destruct (decide (length channelIDs = 0%nat)) as [Hlen|Hlen].
    { by apply length_zero_iff_nil in Hlen. }
    destruct (parse_ids_all channelIDs Hall) as (ids & -> & Hids).
    run. destruct (Hacc ids sched w) as (r & Hr & Hcount & _).
    rewrite Hr. run. exists r. split; [done|]. by rewrite Hcount.
Qed.

End Parsed.

Lemma batch_request_checked_before_work_witness :
  exists reply,
    Handlers.BatchStop canonical_only (inl [c1; "not-an-id"; c2]) [] running
    = (Some reply, running) /\
    Handlers.re_status reply = StatusBadRequest.
Proof.
  destruct (batch_request_checked_before_work canonical_only
              (Handlers.BatchStop canonical_only)
              (inl [c1; "not-an-id"; c2]) [] running) as [Hbad _].
  { rewrite !elem_of_cons. auto. }
  destruct Hbad as (reply & Hr & Hs & _).
  { right. right. exists [c1; "not-an-id"; c2], "not-an-id".
    split; [reflexivity|]. split; [|reflexivity].
    rewrite !elem_of_cons. auto. }
  exists reply. by split.
Defined.

Section Edit.
Variable uuid_Parse : string -> option uuid.
Variable row_ok : Channel -> bool.

(** X26. How an edit request is answered. [ChannelHandler.Update] answers
    400 when the id or the body does not parse, 404 when the store does
    not know the channel and 409 when the channel is running; every answer
    other than 200 leaves the world as it was; and with a 200 the reply
    carries a channel whose status is the one it had and whose output URL
    is that of the row (none), and [GetChannel] afterwards returns a
    channel that agrees with it on id, name, source, status and restart
    flag and carries the output URL of the stream. *)
Theorem Update_handler_answers (param : string)
    (parsed : Handlers.UpdateChannelRequest + error) (w : World) :
  let reply := eval (Handlers.Update uuid_Parse row_ok param parsed) w in
  let w' := exec (Handlers.Update uuid_Parse row_ok param parsed) w in
  (Handlers.re_status reply <> StatusOK -> w' = w) /\
  (uuid_Parse param = None \/ (exists e, parsed = inr e) ->
   Handlers.re_status reply = StatusBadRequest) /\
  (forall id req,
     uuid_Parse param = Some id -> parsed = inl req ->
     (forall e, eval (GetByID id) w = inr e ->
        Handlers.re_status reply = StatusNotFound) /\
     (forall ch, eval (GetByID id) w = inl ch ->
        eval (FFmpeg.IsRunning id) w = true ->
        Handlers.re_status reply = StatusConflict) /\
     (forall old, eval (GetByID id) w = inl old -> ID old = id ->
        Handlers.re_status reply = StatusOK ->
        exists ch got,
          Handlers.re_data reply = Some ch /\
          Status ch = Status old /\ OutputURL ch = OutputURL old /\
          eval (GetChannel id) w' = inl got /\ same_columns got ch /\
          OutputURL got = stream_url id)).
Proof.
  intros reply w'. subst reply w'. unfold Handlers.Update.
  destruct (uuid_Parse param) as [id|] eqn:Hparam.
  2:{ run. split; [done|]. split; [done|]. intros ? ? [=]. }
  destruct parsed as [req|e].
  2:{ run. split; [done|]. split; [done|]. intros ? ? _ [=]. }
  run.
  set (c := UpdateChannel row_ok id (Handlers.ur_Name req)
              (Handlers.ur_SourceURL req) (Handlers.ur_Logo req)
              (Handlers.ur_OutputConfig req)).
  destruct (ServiceFacts.UpdateChannel_errors row_ok id
              (Handlers.ur_Name req) (Handlers.ur_SourceURL req)
              (Handlers.ur_Logo req) (Handlers.ur_OutputConfig req) w)
    as (Hrun & Hnf & Hsame).
  fold c in Hrun, Hnf, Hsame. unfold eval, exec in Hrun, Hnf, Hsame.
  split; [|split].
  - destruct (fst (c w)) as [ch|e] eqn:Hres; [done|].
    intros _. specialize (Hsame e eq_refl).
    destruct (decide (e = ErrChannelNotFound)); run; [done|].
    destruct (decide (e = ErrChannelRunning)); by run.
  - intros [[=]|(e & [=])].
  - intros id' req' [= <-] [= <-]. split; [|split].
    + intros e He. rewrite (Hnf e He). by run.
    + intros ch Hch Hr. rewrite (Hrun ch Hch Hr). by run.
    + intros old Hold Hid.
      destruct (fst (c w)) as [ch|e] eqn:Hres.
      * intros _. run.
        destruct (ServiceFacts.UpdateChannel_stored row_ok id
                    (Handlers.ur_Name req) (Handlers.ur_SourceURL req)
                    (Handlers.ur_Logo req) (Handlers.ur_OutputConfig req)
                    w old ch Hold Hid Hres)
          as ((got & Hget & Hsame' & Hurl) & _ & Hst & _ & _ & _ & _ & _
              & Hold_url & _).
        exists ch, got. split; [done|]. split; [done|]. split; [done|].
        split; [exact Hget|]. split; [exact Hsame'|exact Hurl].
      * destruct (decide (e = ErrChannelNotFound)); run; [done|].
        destruct (decide (e = ErrChannelRunning)); by run.
Qed.

End Edit.

Lemma Update_handler_answers_witness :
  let req := {| Handlers.ur_Name := "renamed"; Handlers.ur_SourceURL := "";
                Handlers.ur_Logo := None;
                Handlers.ur_OutputConfig := None |} in
  let h := Handlers.Update canonical_only (fun _ => true) c1 (inl req) in
  (canonical_only c1 = Some c1 /\
   eval (GetByID c1) running
   = inl (set_Status ChannelStatusRunning (channel_of c1 true)) /\
   eval (FFmpeg.IsRunning c1) running = true) /\
  Handlers.re_status (eval h running) = StatusConflict /\
  exec h running = running.
Proof.
  intros req h.
  assert (H1 : canonical_only c1 = Some c1) by reflexivity.
  assert (H2 : eval (GetByID c1) running
               = inl (set_Status ChannelStatusRunning (channel_of c1 true)))
    by (vm_compute; reflexivity).
  assert (H3 : eval (FFmpeg.IsRunning c1) running = true)
    by (vm_compute; reflexivity).
  destruct (Update_handler_answers canonical_only (fun _ => true) c1
              (inl req) running) as (Hsame & _ & Hcases).
  destruct (Hcases c1 req H1 eq_refl) as (_ & Hconflict & _).
  pose proof (Hconflict _ H2 H3) as Hc.
  split; [by repeat split|]. split; [exact Hc|].
  apply Hsame. intros Hok. subst h. rewrite Hok in Hc. discriminate Hc.
Defined.

(** X27. Deleting a logo stays inside the logo directory. [DeleteLogo]
    answers 400 and removes nothing when the name is empty or contains
    [..] or a slash. Whatever the name, the only path that can disappear
    is the one the name denotes directly in the logo directory (the
    directory itself for the name [.]), it disappears only with the
    answer 204, and nothing is ever created. *)
Theorem DeleteLogo_stays_in_directory (logoPath filename : string)
    (w : World) :
  let reply := eval (Handlers.DeleteLogo logoPath filename) w in
  let w' := exec (Handlers.DeleteLogo logoPath filename) w in
  (filename = "" \/ Contains filename ".." = true \/
   Contains filename "/" = true ->
   Handlers.re_status reply = StatusBadRequest /\ w' = w) /\
  (forall q, q ∈ fs w' -> q ∈ fs w) /\
  (forall q, q ∈ fs w -> q ∉ fs w' ->
     Handlers.re_status reply = Handlers.StatusNoContent /\
     filename <> "" /\ Contains filename ".." = false /\
     Contains filename "/" = false /\
     q = (if decide (filename = ".") then logoPath
          else filepath_Join logoPath filename)) /\
  (Handlers.re_status reply <> Handlers.StatusNoContent -> w' = w) /\
  host w' = host w /\ db w' = db w /\ mgr w' = mgr w /\ trace w' = trace w.
Proof.
  intros reply w'. subst reply w'. unfold Handlers.DeleteLogo.
  destruct (decide (filename = "")) as [->|Hne]; run.
  { repeat split; try done; intros; done. }
  destruct (Contains filename "..") eqn:Hdots; cbn [orb]; run.
  { repeat split; try done; intros; done. }
  destruct (Contains filename "/") eqn:Hslash; run.
  { repeat split; try done; intros; done. }
  unfold os_Remove.
  set (filePath := if decide (filename = ".") then logoPath
                   else filepath_Join logoPath filename).
  destruct (decide (filePath ∈ fs w)) as [Hin|Hout]; run.
  2:{ split; [by intros [|[|]]|]. repeat split; try done; intros; done. }
  destruct (decide (set_Exists _ (fs w))); run.
  { split; [by intros [|[|]]|]. repeat split; try done; intros; done. }
  split; [by intros [|[|]]|]. split; [|split; [|by repeat split]].
  - intros q Hq. by apply elem_of_difference in Hq as [? _].
  - intros q Hq Hnq. repeat split; try done.
    destruct (decide (q = filePath)) as [->|Hqne]; [done|].
    exfalso. apply Hnq. apply elem_of_difference. split; [done|].
    by rewrite elem_of_singleton.
Qed.

Section Lifecycle.
Variable uuid_Parse : string -> option uuid.

(** X28. The lifecycle routes answer 500, not 404, for a channel they cannot
    find. Each of the handlers [Delete], [Start], [Stop] and [Restart]
    answers 200, 400 or 500 and nothing else: 400, with the world
    untouched, when the id does not parse; 500 with the text of
    [ErrChannelNotFound], again with the world untouched, when the store
    has no such channel or cannot be reached; and 200 only for a channel
    the store returned. *)
Theorem lifecycle_handlers_answer
    (handler : string -> M (Handlers.Reply string)) (param : string)
    (w : World) :
  handler ∈ [ Handlers.Delete uuid_Parse; Handlers.Start uuid_Parse;
              Handlers.Stop uuid_Parse; Handlers.Restart uuid_Parse ] ->
  let reply := eval (handler param) w in
  let w' := exec (handler param) w in
  (Handlers.re_status reply
   ∈ [StatusOK; StatusBadRequest; StatusInternalServerError]) /\
  (uuid_Parse param = None ->
   Handlers.re_status reply = StatusBadRequest /\ w' = w) /\
  (forall id e, uuid_Parse param = Some id ->
     eval (GetByID id) w = inr e ->
     reply = Handlers.fail StatusInternalServerError ErrChannelNotFound /\
     w' = w) /\
  (Handlers.re_status reply = StatusOK ->
   exists id ch, uuid_Parse param = Some id /\
                 eval (GetByID id) w = inl ch).
Proof.
  intros Hh reply w'. subst reply w'.
  assert (Hread : forall id r w1, GetByID id w = (r, w1) -> w1 = w).
  { intros id r w1. unfold GetByID. run. by intros [= _ <-]. }
  assert (Hshape : exists service message,
    handler = Handlers.on_channel uuid_Parse service message /\
    (forall id e, eval (GetByID id) w = inr e ->
       service id w = (Some ErrChannelNotFound, w)) /\
    (forall id, fst (service id w) = None ->
       exists ch, eval (GetByID id) w = inl ch)).
  { rewrite !elem_of_cons, elem_of_nil in Hh.
    destruct Hh as [->|[->|[->|[->|[]]]]].
    - exists DeleteChannel, "kanal silindi". split; [done|].
      split; intros id; unfold DeleteChannel, eval; run;
        destruct (GetByID id w) as [[ch|e'] w1] eqn:Hg;
        pose proof (Hread _ _ _ Hg) as ->; cbn [fst snd]; try done.
      intros _. by exists ch.
    - exists StartChannel, "kanal başlatıldı". split; [done|].
      split; intros id; unfold StartChannel, eval; run;
        destruct (GetByID id w) as [[ch|e'] w1] eqn:Hg;
        pose proof (Hread _ _ _ Hg) as ->; cbn [fst snd]; try done.
      intros _. by exists ch.
    - exists StopChannel, "kanal durduruldu". split; [done|].
      split; intros id; unfold StopChannel, eval; run;
        destruct (GetByID id w) as [[ch|e'] w1] eqn:Hg;
        pose proof (Hread _ _ _ Hg) as ->; cbn [fst snd]; try done.
      intros _. by exists ch.
    - exists RestartChannel, "kanal yeniden başlatıldı". split; [done|].
      split; intros id; unfold RestartChannel, eval; run;
        destruct (GetByID id w) as [[ch|e'] w1] eqn:Hg;
        pose proof (Hread _ _ _ Hg) as ->; cbn [fst snd]; try done.
      intros _. by exists ch. }
  destruct Hshape as (service & message & -> & Hnone & Hok).
  unfold Handlers.on_channel.
  destruct (uuid_Parse param) as [id|] eqn:Hparam; run.
  2:{ split; [rewrite !elem_of_cons; auto|]. split; [done|].
      split; [by intros ? ? [=]|]. intros [=]. }
  destruct (fst (service id w)) as [e|] eqn:Hres; run.
  - split; [rewrite !elem_of_cons; auto|]. split; [by intros [=]|].
    split; [|intros [=]]. intros id' e' [= <-] He'.
    rewrite (Hnone id e' He') in Hres |- *. cbn in Hres. by injection Hres as <-.
  - split; [rewrite !elem_of_cons; auto|]. split; [by intros [=]|].
    split.
    + intros id' e' [= <-] He'. rewrite (Hnone id e' He') in Hres. done.
    + intros _. destruct (Hok id Hres) as [ch Hch]. by exists id, ch.
Qed.

End Lifecycle.

Lemma lifecycle_handlers_answer_witness :
  eval (Handlers.Stop canonical_only c9) idle
  = Handlers.fail StatusInternalServerError ErrChannelNotFound /\
  exec (Handlers.Stop canonical_only c9) idle = idle.
Proof.
  destruct (lifecycle_handlers_answer canonical_only
              (Handlers.Stop canonical_only) c9 idle) as (_ & _ & Hnf & _).
  { rewrite !elem_of_cons. auto. }
  apply (Hnf c9 "channel not found: no rows in result set").
  - reflexivity.
  - vm_compute. reflexivity.
Defined.

End HandlerFacts.

(** ** Reported bitrate *)

Module BitrateFacts.
Import GoStrings FFmpeg.

Lemma rev_app_app (s t acc : string) :
  String.rev_app (s ++ t) acc = String.rev_app t (String.rev_app s acc).
Proof. revert acc. induction s as [|a s IH]; intros acc; cbn; [done|apply IH]. Qed.

Lemma rev_snoc (s : string) (c : ascii) :
  String.rev (s ++ String c "") = String c (String.rev s).
Proof. unfold String.rev. by rewrite rev_app_app. Qed.

Lemma substring_app_l (s t : string) :
  String.substring 0 (String.length s) (s ++ t) = s.
Proof.
  induction s as [|a s IH]; [by destruct t|].
  rewrite HttpFacts.append_cons. cbn [String.length String.substring]. by rewrite IH.
Qed.

Lemma length_snoc (s : string) (c : ascii) :
  String.length (s ++ String c "") = S (String.length s).
Proof.
  induction s as [|a s IH]; [done|].
  rewrite HttpFacts.append_cons. cbn [String.length]. by rewrite IH.
Qed.

Lemma TrimSuffix_snoc (s : string) (c d : ascii) :
  TrimSuffix (s ++ String c "") (String d "")
  = if decide (c = d) then s else s ++ String c "".
Proof.
  unfold TrimSuffix, HasSuffix. rewrite rev_snoc. cbn [String.rev String.rev_app].
  cbn [String.prefix]. destruct (ascii_dec d c) as [->|Hne].
  - rewrite decide_True by done.
    replace (String.prefix "" (String.rev s)) with true
      by (by destruct (String.rev s)).
    rewrite length_snoc. cbn [String.length].
    replace (S (String.length s) - 1)%nat with (String.length s) by lia.
    apply substring_app_l.
  - by rewrite decide_False by done.
Qed.

Lemma parse_digits_snoc (s : string) (c : ascii) (acc : Z) :
  digit_of c = None -> parse_digits acc (s ++ String c "") = None.
Proof.
  intros Hc. revert acc. induction s as [|a s IH]; intros acc.
  - change ("" ++ String c "") with (String c ""). cbn. by rewrite Hc.
  - rewrite HttpFacts.append_cons. cbn [parse_digits].
    destruct (digit_of a); [apply IH|done].
Qed.

Lemma parse_unsigned_snoc (s : string) (c : ascii) :
  digit_of c = None -> parse_unsigned (s ++ String c "") = None.
Proof.
  intros Hc. unfold parse_unsigned.
  destruct (s ++ String c "") eqn:Hs; [done|]. rewrite <- Hs.
  by apply parse_digits_snoc.
Qed.

Lemma parse_digits_last (s : string) (acc v : Z) :
  s <> "" -> parse_digits acc s = Some v ->
  exists s' c d, s = s' ++ String c "" /\ digit_of c = Some d.
Proof.
  revert acc. induction s as [|a s IH]; intros acc Hne; [done|]. cbn.
  destruct (digit_of a) as [d|] eqn:Ha; [|done].
  destruct s as [|b s].
  - intros _. by exists "", a, d.
  - intros Hv. destruct (IH _ ltac:(done) Hv) as (s' & c & d' & Hs & Hc).
    exists (String a s'), c, d'. by rewrite HttpFacts.append_cons, <- Hs.
Qed.

(** A text [Atoi] accepts ends in a digit. *)
Lemma Atoi_last (s : string) (n : Z) :
  Atoi s = Some n ->
  exists s' c d, s = s' ++ String c "" /\ digit_of c = Some d.
Proof.
  unfold Atoi, ParseInt. destruct s as [|c0 s]; [done|].
  assert (Hu : forall t v, parse_unsigned t = Some v ->
            exists s' c d, t = s' ++ String c "" /\ digit_of c = Some d).
  { intros t v. unfold parse_unsigned. destruct t as [|a t]; [done|].
    by apply parse_digits_last. }
  case_decide as Hminus.
  - destruct (parse_unsigned s) as [un|] eqn:Hs; [|done]. intros _.
    destruct (Hu s un Hs) as (s' & c & d & -> & Hc).
    by exists (String c0 s'), c, d.
  - case_decide as Hplus.
    + destruct (parse_unsigned s) as [un|] eqn:Hs; [|done]. intros _.
      destruct (Hu s un Hs) as (s' & c & d & -> & Hc).
      by exists (String c0 s'), c, d.
    + destruct (parse_unsigned (String c0 s)) as [un|] eqn:Hs; [|done].
      intros _. exact (Hu _ un Hs).
Qed.

Lemma Atoi_snoc (s : string) (c : ascii) :
  digit_of c = None -> Atoi (s ++ String c "") = None.
Proof.
  intros Hc. destruct s as [|c0 s].
  - change ("" ++ String c "") with (String c ""). unfold Atoi, ParseInt.
    case_decide; [done|]. case_decide; [done|]. cbn. by rewrite Hc.
  - rewrite HttpFacts.append_cons. unfold Atoi, ParseInt. case_decide.
    { by rewrite parse_unsigned_snoc. }
    case_decide.
    { by rewrite parse_unsigned_snoc. }
    rewrite <- HttpFacts.append_cons. by rewrite parse_unsigned_snoc.
Qed.

Lemma snoc_nonempty (s : string) (c : ascii) : s ++ String c "" <> "".
Proof. by destruct s. Qed.

(** X29. The reported output bitrate is the number with its unit dropped,
    and anything else reads as zero. For a text [s] that [strconv.Atoi]
    reads as [n], the bitrate texts [s], [s] followed by [k] and [s]
    followed by [M] all give [n]: the unit is removed, never applied. A
    text whose last character is neither a digit nor [k] nor [M], such as
    one ending in [kbits/s], gives 0, and so does the empty text. *)
Theorem parseOutputBitrate_drops_the_unit (s : string) :
  (forall n, Atoi s = Some n ->
     parseOutputBitrate s = n /\
     parseOutputBitrate (s ++ "k") = n /\
     parseOutputBitrate (s ++ "M") = n) /\
  (forall c, digit_of c = None -> c <> "k"%char -> c <> "M"%char ->
     parseOutputBitrate (s ++ String c "") = 0) /\
  parseOutputBitrate "" = 0.
Proof.
  split; [|split; [|done]].
  - intros n Hn. destruct (Atoi_last s n Hn) as (s' & c & d & Hs & Hc).
    assert (Hk : c <> "k"%char) by (intros ->; discriminate Hc).
    assert (HM : c <> "M"%char) by (intros ->; discriminate Hc).
    assert (Hplain : TrimSuffix (TrimSuffix s "k") "M" = s).
    { rewrite Hs, !TrimSuffix_snoc. rewrite decide_False by done.
      rewrite TrimSuffix_snoc. by rewrite decide_False. }
    unfold parseOutputBitrate. split; [|split].
    + rewrite decide_False by (rewrite Hs; apply snoc_nonempty).
      by rewrite Hplain, Hn.
    + rewrite decide_False by apply snoc_nonempty.
      rewrite (TrimSuffix_snoc s "k" "k"), decide_True by done.
      assert (HsM : TrimSuffix s "M" = s)
        by (rewrite Hs, TrimSuffix_snoc; by rewrite decide_False).
      by rewrite HsM, Hn.
    + rewrite decide_False by apply snoc_nonempty.
      rewrite (TrimSuffix_snoc s "M" "k"), decide_False by done.
      rewrite (TrimSuffix_snoc s "M" "M"), decide_True by done.
      by rewrite Hn.
  - intros c Hc Hk HM. unfold parseOutputBitrate.
    rewrite decide_False by apply snoc_nonempty.
    rewrite (TrimSuffix_snoc s c "k"), decide_False by done.
    rewrite (TrimSuffix_snoc s c "M"), decide_False by done.
    by rewrite Atoi_snoc.
Qed.

End BitrateFacts.
